(** * MedFlow Pro: a model of the server (server.js) and of its schemas
      (database.js)

    The server is a set of Express route handlers and socket.io event
    handlers; each handler is a sequence of awaited Mongoose calls inside
    one try/catch.  The model below follows that shape:

    - a collection is the list of its documents, in insertion order;
    - a handler is a computation in a state-and-exception monad over a
      [World] (database, session, clock, random source, emitted socket
      events and a plan of database faults);
    - a Mongoose call is a primitive of that monad which may throw; what it
      wrote before throwing stays written, as nothing is transactional. *)

From Stdlib Require Import List String Ascii Bool Arith ZArith Lia.
From Stdlib.Strings Require Import Byte.
Import ListNotations.
Local Open Scope string_scope.
Local Open Scope list_scope.

Set Implicit Arguments.

(** ** JavaScript values used by the handlers *)

(** A Mongo ObjectId.  [fallbackId] is '000000000000000000000000'. *)
Definition ObjectId := nat.
Definition fallbackId : ObjectId := 0.

(** Epoch milliseconds, as [Date.now()] and [new Date()] give them. *)
Definition Date := Z.

(** [!s] for a value that is a string or undefined/null: the empty string
    is falsy. *)
Definition truthy (o : option string) : bool :=
  match o with
  | None => false
  | Some s => negb (s =? "")
  end.

(** [a || d] on such a value. *)
Definition or_default (o : option string) (d : string) : string :=
  match o with
  | Some s => if s =? "" then d else s
  | None => d
  end.

(** [x || d] on a number or undefined: 0 is falsy. *)
Definition num_or (o : option Z) (d : Z) : Z :=
  match o with
  | Some z => if (z =? 0)%Z then d else z
  | None => d
  end.

(** Strings are sequences of code units below 256.  There the capital
    letters are A..Z and the accented capitals 192..222, the multiplication
    sign 215 apart, and each has its small letter 32 places further. *)
Definition is_upper (c : ascii) : bool :=
  let n := nat_of_ascii c in
  (((65 <=? n) && (n <=? 90)) ||
   ((192 <=? n) && (n <=? 222) && negb (n =? 215)))%nat.

Definition lower_ascii (c : ascii) : ascii :=
  if is_upper c then ascii_of_nat (nat_of_ascii c + 32) else c.

(** [String.prototype.toLowerCase] *)
Fixpoint toLowerCase (s : string) : string :=
  match s with
  | EmptyString => EmptyString
  | String c r => String (lower_ascii c) (toLowerCase r)
  end.

(** [hay.includes(needle)]. *)
Fixpoint includes (needle hay : string) : bool :=
  prefix needle hay ||
  match hay with
  | EmptyString => false
  | String _ r => includes needle r
  end.

(** White space as [trim] sees it: tab, line feed, vertical tab, form feed,
    carriage return, space and no-break space. *)
Definition is_space (c : ascii) : bool :=
  let n := nat_of_ascii c in
  ((n =? 32) || ((9 <=? n) && (n <=? 13)) || (n =? 160))%nat.

(** [s.trim() === ''] *)
Fixpoint blank (s : string) : bool :=
  match s with
  | EmptyString => true
  | String c r => is_space c && blank r
  end.

(** ** Local calendar arithmetic

    [tz] is the offset of local time from UTC in milliseconds, taken as
    constant (daylight-saving switches are not modelled). *)

Definition msPerDay : Z := 86400000.

(** [d.setHours(0, 0, 0, 0)] *)
Definition startOfDay (tz : Z) (t : Date) : Date :=
  ((t + tz) / msPerDay * msPerDay - tz)%Z.

(** Days since the epoch to (year, month 1..12, day), Gregorian. *)
Definition civil_from_days (z0 : Z) : Z * Z * Z :=
  (let z := z0 + 719468 in
   let era := z / 146097 in
   let doe := z - era * 146097 in
   let yoe := (doe - doe / 1460 + doe / 36524 - doe / 146096) / 365 in
   let y := yoe + era * 400 in
   let doy := doe - (365 * yoe + yoe / 4 - yoe / 100) in
   let mp := (5 * doy + 2) / 153 in
   let d := doy - (153 * mp + 2) / 5 + 1 in
   let m := if mp <? 10 then mp + 3 else mp - 9 in
   (if m <=? 2 then y + 1 else y, m, d))%Z.

Definition days_from_civil (y0 m d : Z) : Z :=
  (let y := if m <=? 2 then y0 - 1 else y0 in
   let era := y / 400 in
   let yoe := y - era * 400 in
   let doy := (153 * (if 2 <? m then m - 3 else m + 9) + 2) / 5 + d - 1 in
   let doe := yoe * 365 + yoe / 4 - yoe / 100 + doy in
   era * 146097 + doe - 719468)%Z.

Definition local_ymd (tz : Z) (t : Date) : Z * Z * Z :=
  civil_from_days ((t + tz) / msPerDay).

(** [new Date(now.getFullYear(), now.getMonth(), 1)] *)
Definition startOfMonth (tz : Z) (t : Date) : Date :=
  (let '(y, m, _) := local_ymd tz t in
   days_from_civil y m 1 * msPerDay - tz)%Z.

(** [new Date(now.getFullYear(), 0, 1)] *)
Definition startOfYear (tz : Z) (t : Date) : Date :=
  (let '(y, _, _) := local_ymd tz t in
   days_from_civil y 1 1 * msPerDay - tz)%Z.

(** ** Hex encoding, for [crypto.randomBytes(32).toString('hex')] *)

Definition hex_digit (n : N) : ascii :=
  (match n with
   | 0 => "0" | 1 => "1" | 2 => "2" | 3 => "3" | 4 => "4" | 5 => "5"
   | 6 => "6" | 7 => "7" | 8 => "8" | 9 => "9" | 10 => "a" | 11 => "b"
   | 12 => "c" | 13 => "d" | 14 => "e" | _ => "f"
   end)%N%char.

Fixpoint hex_of_bytes (bs : list byte) : string :=
  match bs with
  | [] => EmptyString
  | b :: r =>
      let n := Byte.to_N b in
      String (hex_digit (n / 16)) (String (hex_digit (n mod 16)) (hex_of_bytes r))
  end.

(** ** Generic collection helpers (what Mongoose does on any model) *)

Section Collection.
Variable A : Type.
Variable id_of : A -> ObjectId.

(** [Model.findById(id)] / [findOne({_id: id})]: the first document with
    that [_id]. *)
Definition find_by_id (id : ObjectId) (l : list A) : option A :=
  find (fun a => id_of a =? id)%nat l.

(** Replace the first document whose [_id] is [id] by [f] of it; a
    collection with no such document is left as it is. *)
Fixpoint update_by_id (id : ObjectId) (f : A -> A) (l : list A) : list A :=
  match l with
  | [] => []
  | a :: r => if (id_of a =? id)%nat then f a :: r else a :: update_by_id id f r
  end.

Variable key : A -> Z.

Fixpoint insert_desc (a : A) (l : list A) : list A :=
  match l with
  | [] => [a]
  | b :: r => if (key b <? key a)%Z then a :: l else b :: insert_desc a r
  end.

(** [.sort({key: -1})] *)
Definition sort_desc (l : list A) : list A :=
  fold_right insert_desc [] l.
End Collection.

(** ** Schemas (database.js) *)

Module Hospital.
Record t := mk {
  _id : ObjectId;
  name : string;
  email : string;
  phone : option string;
  address : option string;
  subscriptionStatus : string;
  (* kept as the instant whose ISO string the field holds *)
  subscriptionExpiry : option Date;
  createdAt : Date;
  lastLogin : option Date
}.

Definition set_lastLogin (v : option Date) (h : t) : t :=
  mk (_id h) (name h) (email h) (phone h) (address h) (subscriptionStatus h)
     (subscriptionExpiry h) (createdAt h) v.

Definition set_subscriptionStatus (v : string) (h : t) : t :=
  mk (_id h) (name h) (email h) (phone h) (address h) v
     (subscriptionExpiry h) (createdAt h) (lastLogin h).

(** [email: { unique: true }]: the index refuses a second document with
    the same email. *)
Definition email_taken (e : string) (l : list t) : bool :=
  existsb (fun h => email h =? e) l.
End Hospital.

Module User.
Record t := mk {
  _id : ObjectId;
  hospitalId : ObjectId;
  username : string;
  email : option string;
  role : string;
  password : string;
  createdAt : Date;
  lastLogin : option Date
}.

Definition set_lastLogin (v : option Date) (u : t) : t :=
  mk (_id u) (hospitalId u) (username u) (email u) (role u) (password u)
     (createdAt u) v.

(** The key of [UserSchema.index({ hospitalId: 1, username: 1 },
    { unique: true })]. *)
Definition key (u : t) : ObjectId * string := (hospitalId u, username u).

Definition same_key (h : ObjectId) (n : string) (u : t) : bool :=
  (hospitalId u =? h)%nat && (username u =? n).

Definition key_taken (h : ObjectId) (n : string) (l : list t) : bool :=
  existsb (same_key h n) l.

(** [User.findOne({ hospitalId, username })] *)
Definition findOne (h : ObjectId) (n : string) (l : list t) : option t :=
  find (same_key h n) l.
End User.

Module Patient.
Record t := mk {
  _id : ObjectId;
  hospitalId : ObjectId;
  token : option Z;
  publicToken : option string;
  name : option string;
  age : option Z;
  gender : option string;
  phone : option string;
  address : option string;
  bloodGroup : option string;
  emergencyContact : option string;
  emergencyPhone : option string;
  insuranceId : option string;
  medicalHistory : option string;
  allergies : option string;
  chronicConditions : option string;
  patientType : option string;
  opdIpd : option string;
  department : option string;
  doctorId : option Z;
  reason : option string;
  status : option string;
  registeredAt : Date;
  appointmentDate : option string;
  vitals : option string;
  prescription : option string;
  diagnosis : option string;
  pharmacyState : option string;
  history : option string;
  cost : Z;
  reports : option string
}.

Definition set_publicToken (v : option string) (p : t) : t :=
  mk (_id p) (hospitalId p) (token p) v (name p) (age p) (gender p)
     (phone p) (address p) (bloodGroup p) (emergencyContact p)
     (emergencyPhone p) (insuranceId p) (medicalHistory p) (allergies p)
     (chronicConditions p) (patientType p) (opdIpd p) (department p)
     (doctorId p) (reason p) (status p) (registeredAt p)
     (appointmentDate p) (vitals p) (prescription p) (diagnosis p)
     (pharmacyState p) (history p) (cost p) (reports p).

Definition set_doctorId (v : option Z) (p : t) : t :=
  mk (_id p) (hospitalId p) (token p) (publicToken p) (name p) (age p)
     (gender p) (phone p) (address p) (bloodGroup p) (emergencyContact p)
     (emergencyPhone p) (insuranceId p) (medicalHistory p) (allergies p)
     (chronicConditions p) (patientType p) (opdIpd p) (department p)
     v (reason p) (status p) (registeredAt p)
     (appointmentDate p) (vitals p) (prescription p) (diagnosis p)
     (pharmacyState p) (history p) (cost p) (reports p).

Definition set_status (v : option string) (p : t) : t :=
  mk (_id p) (hospitalId p) (token p) (publicToken p) (name p) (age p)
     (gender p) (phone p) (address p) (bloodGroup p) (emergencyContact p)
     (emergencyPhone p) (insuranceId p) (medicalHistory p) (allergies p)
     (chronicConditions p) (patientType p) (opdIpd p) (department p)
     (doctorId p) (reason p) v (registeredAt p)
     (appointmentDate p) (vitals p) (prescription p) (diagnosis p)
     (pharmacyState p) (history p) (cost p) (reports p).

Definition set_prescription (v : option string) (p : t) : t :=
  mk (_id p) (hospitalId p) (token p) (publicToken p) (name p) (age p)
     (gender p) (phone p) (address p) (bloodGroup p) (emergencyContact p)
     (emergencyPhone p) (insuranceId p) (medicalHistory p) (allergies p)
     (chronicConditions p) (patientType p) (opdIpd p) (department p)
     (doctorId p) (reason p) (status p) (registeredAt p)
     (appointmentDate p) (vitals p) v (diagnosis p)
     (pharmacyState p) (history p) (cost p) (reports p).

Definition set_pharmacyState (v : option string) (p : t) : t :=
  mk (_id p) (hospitalId p) (token p) (publicToken p) (name p) (age p)
     (gender p) (phone p) (address p) (bloodGroup p) (emergencyContact p)
     (emergencyPhone p) (insuranceId p) (medicalHistory p) (allergies p)
     (chronicConditions p) (patientType p) (opdIpd p) (department p)
     (doctorId p) (reason p) (status p) (registeredAt p)
     (appointmentDate p) (vitals p) (prescription p) (diagnosis p)
     v (history p) (cost p) (reports p).

(** A query document over the fields the server filters on; an absent
    key puts no condition. *)
Record query := mkq {
  q_id : option ObjectId;
  q_hospitalId : option ObjectId;
  q_phone : option string;
  q_publicToken : option string;
  q_department : option string;
  q_registeredAt_gte : option Date
}.

Definition any : query := mkq None None None None None None.

Definition opt_test {K} (eqb : K -> K -> bool) (want : option K)
    (have : option K) : bool :=
  match want with
  | None => true
  | Some k => match have with Some k' => eqb k' k | None => false end
  end.

Definition matches (q : query) (p : t) : bool :=
  opt_test Nat.eqb (q_id q) (Some (_id p)) &&
  opt_test Nat.eqb (q_hospitalId q) (Some (hospitalId p)) &&
  opt_test String.eqb (q_phone q) (phone p) &&
  opt_test String.eqb (q_publicToken q) (publicToken p) &&
  opt_test String.eqb (q_department q) (department p) &&
  opt_test (fun have want => (want <=? have)%Z) (q_registeredAt_gte q)
           (Some (registeredAt p)).

(** [Patient.find(q)], [Patient.findOne(q)], [Patient.countDocuments(q)] *)
Definition find (q : query) (l : list t) : list t := filter (matches q) l.
Definition findOne (q : query) (l : list t) : option t :=
  List.find (matches q) l.
Definition countDocuments (q : query) (l : list t) : nat :=
  List.length (find q l).
End Patient.

Module LabTest.
Record t := mk {
  _id : ObjectId;
  hospitalId : ObjectId;
  patientId : option ObjectId;
  testName : option string;
  testType : option string;
  orderedBy : option string;
  orderedAt : Date;
  status : string;
  result : option string;
  resultDate : option Date;
  priority : string;
  sampleStatus : string;
  technicianId : option Z;
  machineId : option string;
  sampleCollectedAt : option Date;
  sampleCollectedBy : option string;
  rejectionReason : option string;
  startedAt : option Date;
  completedAt : option Date
}.

(** The update document handed to [findByIdAndUpdate]: a key that is
    present carries the value to assign. *)
Record update := mku {
  u_status : option string;
  u_resultDate : option Date;
  u_sampleStatus : option string;
  u_technicianId : option Z;
  u_machineId : option string;
  u_sampleCollectedAt : option Date;
  u_sampleCollectedBy : option string;
  u_rejectionReason : option string;
  u_startedAt : option Date;
  u_completedAt : option Date
}.

Definition assign {K} (u : option K) (old : K) : K :=
  match u with Some v => v | None => old end.

Definition assign_opt {K} (u : option K) (old : option K) : option K :=
  match u with Some v => Some v | None => old end.

Definition apply (u : update) (x : t) : t :=
  mk (_id x) (hospitalId x) (patientId x) (testName x) (testType x)
     (orderedBy x) (orderedAt x)
     (assign (u_status u) (status x))
     (result x)
     (assign_opt (u_resultDate u) (resultDate x))
     (priority x)
     (assign (u_sampleStatus u) (sampleStatus x))
     (assign_opt (u_technicianId u) (technicianId x))
     (assign_opt (u_machineId u) (machineId x))
     (assign_opt (u_sampleCollectedAt u) (sampleCollectedAt x))
     (assign_opt (u_sampleCollectedBy u) (sampleCollectedBy x))
     (assign_opt (u_rejectionReason u) (rejectionReason x))
     (assign_opt (u_startedAt u) (startedAt x))
     (assign_opt (u_completedAt u) (completedAt x)).

(** [{ patientId: id, orderedAt: { $gte: since }, status: st }] *)
Definition pending_since (id : ObjectId) (since : Date) (st : string)
    (x : t) : bool :=
  match patientId x with
  | Some p => (p =? id)%nat
  | None => false
  end && (since <=? orderedAt x)%Z && (status x =? st).
End LabTest.

Module LabResult.
Record t := mk {
  _id : ObjectId;
  testId : ObjectId;
  parameterName : string;
  value : option string;
  unit : option string;
  referenceRange : option string;
  isAbnormal : bool;
  notes : option string
}.

(** An element of [req.body.results]: any key may be missing. *)
Record input := mki {
  i_parameterName : option string;
  i_value : option string;
  i_unit : option string;
  i_referenceRange : option string;
  i_isAbnormal : option bool;
  i_notes : option string
}.

(** [parameterName: { type: String, required: true }]: a missing or empty
    string fails validation. *)
Definition valid (r : input) : bool := truthy (i_parameterName r).

Definition of_input (id testId : ObjectId) (r : input) : t :=
  mk id testId (or_default (i_parameterName r) "") (i_value r) (i_unit r)
     (i_referenceRange r)
     (match i_isAbnormal r with Some b => b | None => false end)
     (i_notes r).

(** Documents for [rs], with consecutive fresh ids from [id]. *)
Fixpoint docs (id testId : ObjectId) (rs : list input) : list t :=
  match rs with
  | [] => []
  | r :: rest => of_input id testId r :: docs (S id) testId rest
  end.

Definition of_test (testId0 : ObjectId) (l : list t) : list t :=
  filter (fun r => (testId r =? testId0)%nat) l.

(** [LabResult.deleteMany({ testId })] *)
Definition deleteMany (testId0 : ObjectId) (l : list t) : list t :=
  filter (fun r => negb (testId r =? testId0)%nat) l.
End LabResult.

(** ** The schema declarations as data

    Each path of a schema with the two options that matter to the database,
    and the indexes declared with [Schema.index]. *)

Record PathSpec := path {
  path_name : string;
  path_required : bool;
  path_unique : bool
}.

Record SchemaSpec := schema {
  model_name : string;
  paths : list PathSpec;
  (* [Schema.index(fields, { unique })] *)
  indexes : list (list string * bool)
}.

Definition plain (n : string) : PathSpec := path n false false.
Definition required (n : string) : PathSpec := path n true false.
Definition required_unique (n : string) : PathSpec := path n true true.

Definition HospitalSchema : SchemaSpec :=
  schema "Hospital"
    [required "name"; required_unique "email"; plain "phone"; plain "address";
     plain "subscriptionStatus"; plain "subscriptionExpiry"; plain "createdAt";
     plain "lastLogin"] [].

Definition UserSchema : SchemaSpec :=
  schema "User"
    [required "hospitalId"; required "username"; plain "email";
     required "role"; required "password"; plain "createdAt";
     plain "lastLogin"]
    [(["hospitalId"; "username"], true)].

Definition PatientSchema : SchemaSpec :=
  schema "Patient"
    [required "hospitalId"; plain "token"; plain "publicToken"; plain "name";
     plain "age"; plain "gender"; plain "phone"; plain "address";
     plain "bloodGroup"; plain "emergencyContact"; plain "emergencyPhone";
     plain "insuranceId"; plain "medicalHistory"; plain "allergies";
     plain "chronicConditions"; plain "patientType"; plain "opdIpd";
     plain "department"; plain "doctorId"; plain "reason"; plain "status";
     plain "registeredAt"; plain "appointmentDate"; plain "vitals";
     plain "prescription"; plain "diagnosis"; plain "pharmacyState";
     plain "history"; plain "cost"; plain "reports"] [].

Definition VitalSchema : SchemaSpec :=
  schema "Vital"
    [required "hospitalId"; plain "patientId"; plain "bloodPressure";
     plain "temperature"; plain "pulse"; plain "oxygenSaturation";
     plain "weight"; plain "height"; plain "recordedAt"; plain "recordedBy"]
    [].

Definition LabTestSchema : SchemaSpec :=
  schema "LabTest"
    [required "hospitalId"; plain "patientId"; plain "testName";
     plain "testType"; plain "orderedBy"; plain "orderedAt"; plain "status";
     plain "result"; plain "resultDate"; plain "priority";
     plain "sampleStatus"; plain "technicianId"; plain "machineId";
     plain "sampleCollectedAt"; plain "sampleCollectedBy";
     plain "rejectionReason"; plain "startedAt"; plain "completedAt"] [].

Definition LabResultSchema : SchemaSpec :=
  schema "LabResult"
    [required "testId"; required "parameterName"; plain "value"; plain "unit";
     plain "referenceRange"; plain "isAbnormal"; plain "notes"] [].

Definition InventorySchema : SchemaSpec :=
  schema "Inventory"
    [required "hospitalId"; plain "medicationName"; plain "batchNumber";
     plain "quantity"; plain "unitPrice"; plain "expiryDate";
     plain "manufacturer"; plain "category"; plain "addedAt";
     plain "lastUpdated"] [].

Definition AppointmentSchema : SchemaSpec :=
  schema "Appointment"
    [required "hospitalId"; plain "patientId"; plain "patientName";
     plain "phone"; plain "department"; plain "doctorId";
     plain "appointmentDate"; plain "appointmentTime"; plain "status";
     plain "notes"; plain "createdAt"] [].

Definition LabInventorySchema : SchemaSpec :=
  schema "LabInventory"
    [required "hospitalId"; required "itemName"; plain "batchNumber";
     plain "quantity"; plain "unit"; plain "expiryDate"; plain "minLevel";
     plain "status"; plain "addedAt"; plain "updatedAt"] [].

Definition LabTestTypeSchema : SchemaSpec :=
  schema "LabTestType"
    [required "hospitalId"; required "name"; plain "category";
     plain "parameters"; plain "price"; plain "turnaroundTime"] [].

Definition PrescriptionTemplateSchema : SchemaSpec :=
  schema "PrescriptionTemplate"
    [required_unique "hospitalId"; plain "templateName"; plain "hospitalName";
     plain "hospitalAddress"; plain "hospitalPhone"; plain "hospitalEmail";
     plain "hospitalLogo"; plain "doctorNamePosition"; plain "headerText";
     plain "footerText"; plain "showQRCode"; plain "showWatermark";
     plain "watermarkText"; plain "fontSize"; plain "fontFamily";
     plain "primaryColor"; plain "secondaryColor"; plain "paperSize";
     plain "marginTop"; plain "marginBottom"; plain "marginLeft";
     plain "marginRight"; plain "showLetterhead"; plain "showVitals";
     plain "showDiagnosis"; plain "showHistory"; plain "layoutStyle";
     plain "doctorSignature"; plain "createdAt"; plain "updatedAt"] [].

(** The models of [module.exports], in declaration order. *)
Definition all_schemas : list SchemaSpec :=
  [HospitalSchema; UserSchema; PatientSchema; VitalSchema; LabTestSchema;
   LabResultSchema; InventorySchema; AppointmentSchema; LabInventorySchema;
   LabTestTypeSchema; PrescriptionTemplateSchema].

(** The uniqueness constraints a schema asks the database to enforce: one
    per path marked [unique] and one per index declared [unique]. *)
Definition unique_constraints_of (s : SchemaSpec) : list (string * list string) :=
  map (fun p => (model_name s, [path_name p]))
      (filter path_unique (paths s)) ++
  map (fun ix => (model_name s, fst ix))
      (filter (fun ix => snd ix) (indexes s)).

Definition unique_constraints (l : list SchemaSpec) : list (string * list string) :=
  flat_map unique_constraints_of l.

(** ** The database and the world a handler runs in *)

Record DB := mkDB {
  hospitals : list Hospital.t;
  users : list User.t;
  patients : list Patient.t;
  labTests : list LabTest.t;
  labResults : list LabResult.t;
  (* the next ObjectId the driver hands out *)
  nextId : ObjectId
}.

Definition empty_db : DB := mkDB [] [] [] [] [] 1.

Module Session.
(** [req.session]: the fields the server stores in it. *)
Record t := mk {
  userId : option ObjectId;
  hospitalId : option ObjectId;
  username : option string;
  role : option string
}.
Definition empty : t := mk None None None None.
End Session.

(** socket.io emissions. *)
Inductive Target :=
| ToSender                  (* socket.emit *)
| ToRoom (room : string)    (* io.to(room).emit *)
| ToAll.                    (* io.emit *)

Inductive Payload :=
| NoPayload
| PatientDoc (p : Patient.t)
| QueuePatient (p : Patient.t)              (* { patient } *)
| Message (message : string)                (* { message } *)
| LabRequest (success : bool) (testId : option ObjectId)
             (message : option string).

Record Emit := emit_of {
  target : Target;
  event : string;
  payload : Payload
}.

Record World := mkWorld {
  db : DB;
  session : Session.t;
  (* the wall clock, and by how much it advances after each reading *)
  now : Date;
  ticks : list nat;
  (* the source of crypto.randomBytes and how much of it was consumed *)
  rng : nat -> byte;
  rng_pos : nat;
  (* what the handler emitted, oldest first *)
  emitted : list Emit;
  (* for each coming database call, the error it throws if any *)
  faults : list (option string)
}.

Definition set_db (d : DB) (w : World) : World :=
  mkWorld d (session w) (now w) (ticks w) (rng w) (rng_pos w) (emitted w)
          (faults w).
Definition set_session (s : Session.t) (w : World) : World :=
  mkWorld (db w) s (now w) (ticks w) (rng w) (rng_pos w) (emitted w)
          (faults w).
Definition set_clock (t : Date) (k : list nat) (w : World) : World :=
  mkWorld (db w) (session w) t k (rng w) (rng_pos w) (emitted w) (faults w).
Definition set_rng_pos (n : nat) (w : World) : World :=
  mkWorld (db w) (session w) (now w) (ticks w) (rng w) n (emitted w)
          (faults w).
Definition set_emitted (e : list Emit) (w : World) : World :=
  mkWorld (db w) (session w) (now w) (ticks w) (rng w) (rng_pos w) e
          (faults w).
Definition set_faults (f : list (option string)) (w : World) : World :=
  mkWorld (db w) (session w) (now w) (ticks w) (rng w) (rng_pos w)
          (emitted w) f.

(** ** The handler monad: state with exceptions that keep the state *)

Inductive Outcome (A : Type) :=
| Ok (a : A)
| Throw (message : string).
Arguments Ok {A} a.
Arguments Throw {A} message.

Definition M (A : Type) : Type := World -> Outcome A * World.

Definition ret {A} (a : A) : M A := fun w => (Ok a, w).

Definition throw {A} (msg : string) : M A := fun w => (Throw msg, w).

Definition bind {A B} (m : M A) (k : A -> M B) : M B :=
  fun w =>
    match m w with
    | (Ok a, w') => k a w'
    | (Throw msg, w') => (Throw msg, w')
    end.

(** [try { m } catch (err) { h(err.message) }] *)
Definition try_catch {A} (m : M A) (h : string -> M A) : M A :=
  fun w =>
    match m w with
    | (Ok a, w') => (Ok a, w')
    | (Throw msg, w') => h msg w'
    end.

Declare Scope handler_scope.
Notation "x <- m ;; k" := (bind m (fun x => k))
  (at level 61, m at next level, right associativity) : handler_scope.
Notation "m ;;; k" := (bind m (fun _ => k))
  (at level 61, right associativity) : handler_scope.
Local Open Scope handler_scope.

(** The error the next database call is planned to throw. *)
Definition planned_fault (w : World) : option string :=
  match faults w with
  | Some msg :: _ => Some msg
  | _ => None
  end.

(** One awaited Mongoose call: it throws the planned fault if there is
    one, and otherwise runs [f] on the database. *)
Definition db_call {A} (f : DB -> Outcome A * DB) : M A :=
  fun w =>
    let w1 := set_faults (tl (faults w)) w in
    match planned_fault w with
    | Some msg => (Throw msg, w1)
    | None => let (o, d) := f (db w) in (o, set_db d w1)
    end.

(** A read-only call. *)
Definition db_read {A} (f : DB -> A) : M A :=
  db_call (fun d => (Ok (f d), d)).

(** [new Date()] *)
Definition new_Date : M Date :=
  fun w =>
    (Ok (now w),
     set_clock (now w + Z.of_nat (hd 0%nat (ticks w)))%Z (tl (ticks w)) w).

(** [crypto.randomBytes(n)] *)
Definition randomBytes (n : nat) : M (list byte) :=
  fun w =>
    (Ok (map (rng w) (seq (rng_pos w) n)), set_rng_pos (rng_pos w + n) w).

Definition emit (t : Target) (ev : string) (p : Payload) : M unit :=
  fun w => (Ok tt, set_emitted (emitted w ++ [emit_of t ev p]) w).

Definition get_session : M Session.t := fun w => (Ok (session w), w).
Definition put_session (s : Session.t) : M unit :=
  fun w => (Ok tt, set_session s w).

(** Helper to generate secure public token. *)
Definition generatePublicToken : M string :=
  bs <- randomBytes 32 ;; ret (hex_of_bytes bs).

(** ** Mongoose model calls *)

Definition duplicate_key : string := "E11000 duplicate key error".
Definition validation_failed : string := "validation failed".

(** [Hospital.find({})] *)
Definition Hospital_find : M (list Hospital.t) := db_read hospitals.

(** [Hospital.findOne({ email })] *)
Definition Hospital_findOne_email (e : string) : M (option Hospital.t) :=
  db_read (fun d => find (fun h => Hospital.email h =? e) (hospitals d)).

Definition Hospital_findById (id : ObjectId) : M (option Hospital.t) :=
  db_read (fun d => find_by_id Hospital._id id (hospitals d)).

(** [Hospital.create(doc)]: [name] and [email] are required, [email] is
    unique. *)
Definition Hospital_create (mkdoc : ObjectId -> Hospital.t) : M Hospital.t :=
  db_call (fun d =>
    let h := mkdoc (nextId d) in
    if (Hospital.name h =? "") || (Hospital.email h =? "") then
      (Throw validation_failed, d)
    else if Hospital.email_taken (Hospital.email h) (hospitals d) then
      (Throw duplicate_key, d)
    else
      (Ok h, mkDB (hospitals d ++ [h]) (users d) (patients d) (labTests d)
                  (labResults d) (S (nextId d)))).

Definition Hospital_findByIdAndUpdate (id : ObjectId)
    (f : Hospital.t -> Hospital.t) : M unit :=
  db_call (fun d =>
    (Ok tt, mkDB (update_by_id Hospital._id id f (hospitals d)) (users d)
                 (patients d) (labTests d) (labResults d) (nextId d))).

(** What [User.create] does to the collection: [username], [role] and
    [password] are required, and the unique index on (hospitalId, username)
    refuses a key that is already there. *)
Definition User_insert (u : User.t) (l : list User.t)
    : Outcome User.t * list User.t :=
  if (User.username u =? "") || (User.role u =? "") || (User.password u =? "")
  then (Throw validation_failed, l)
  else if User.key_taken (User.hospitalId u) (User.username u) l
  then (Throw duplicate_key, l)
  else (Ok u, l ++ [u]).

(** [User.create(doc)] *)
Definition User_create (mkdoc : ObjectId -> User.t) : M User.t :=
  db_call (fun d =>
    let (o, l) := User_insert (mkdoc (nextId d)) (users d) in
    (o, mkDB (hospitals d) l (patients d) (labTests d) (labResults d)
             (match o with Ok _ => S (nextId d) | Throw _ => nextId d end))).

(** [User.findOne({ hospitalId, username })] *)
Definition User_findOne (h : ObjectId) (n : string) : M (option User.t) :=
  db_read (fun d => User.findOne h n (users d)).

Definition User_findByIdAndUpdate (id : ObjectId) (f : User.t -> User.t)
    : M unit :=
  db_call (fun d =>
    (Ok tt, mkDB (hospitals d) (update_by_id User._id id f (users d))
                 (patients d) (labTests d) (labResults d) (nextId d))).

Definition Patient_countDocuments (q : Patient.query) : M nat :=
  db_read (fun d => Patient.countDocuments q (patients d)).

Definition Patient_findOne (q : Patient.query) : M (option Patient.t) :=
  db_read (fun d => Patient.findOne q (patients d)).

Definition Patient_findById (id : ObjectId) : M (option Patient.t) :=
  db_read (fun d => find_by_id Patient._id id (patients d)).

(** [.skip(s).limit(n)] on a sorted result: a limit of 0 is no limit and a
    negative one counts as its absolute value. *)
Definition window {A} (skip limit : Z) (l : list A) : list A :=
  let l' := skipn (Z.to_nat skip) l in
  if (limit =? 0)%Z then l' else firstn (Z.to_nat (Z.abs limit)) l'.

(** [Patient.find(q).sort({ _id: -1 }).skip(s).limit(n)]; the server
    rejects a negative skip. *)
Definition Patient_find_page (q : Patient.query) (skip limit : Z)
    : M (list Patient.t) :=
  db_call (fun d =>
    if (skip <? 0)%Z then (Throw "Skip value must be non-negative", d)
    else
      (Ok (window skip limit
             (sort_desc (fun p => Z.of_nat (Patient._id p))
                        (Patient.find q (patients d)))), d)).

(** [Patient.find(q).sort({ registeredAt: -1 })] *)
Definition Patient_find_recent (q : Patient.query) : M (list Patient.t) :=
  db_read (fun d => sort_desc Patient.registeredAt (Patient.find q (patients d))).

(** [Patient.create(doc)] *)
Definition Patient_create (mkdoc : ObjectId -> Patient.t) : M Patient.t :=
  db_call (fun d =>
    let p := mkdoc (nextId d) in
    (Ok p, mkDB (hospitals d) (users d) (patients d ++ [p]) (labTests d)
                (labResults d) (S (nextId d)))).

Definition with_patients (l : list Patient.t) (d : DB) : DB :=
  mkDB (hospitals d) (users d) l (labTests d) (labResults d) (nextId d).

(** [Patient.findByIdAndUpdate(id, { prescription }, { new: true })]: the
    document after the update, or null. *)
Definition Patient_findByIdAndUpdate_prescription (id : ObjectId)
    (prescription : string) : M (option Patient.t) :=
  db_call (fun d =>
    let l := update_by_id Patient._id id
               (Patient.set_prescription (Some prescription)) (patients d) in
    (Ok (find_by_id Patient._id id l), with_patients l d)).

(** [patient.save()]: the stored document becomes the one in memory. *)
Definition Patient_save (p : Patient.t) : M unit :=
  db_call (fun d =>
    (Ok tt, with_patients
              (update_by_id Patient._id (Patient._id p) (fun _ => p)
                            (patients d)) d)).

Definition with_labTests (l : list LabTest.t) (d : DB) : DB :=
  mkDB (hospitals d) (users d) (patients d) l (labResults d) (nextId d).

(** [LabTest.findOne({ patientId, orderedAt: { $gte }, status })] *)
Definition LabTest_findOne_pending (id : ObjectId) (since : Date)
    (st : string) : M (option LabTest.t) :=
  db_read (fun d => find (LabTest.pending_since id since st) (labTests d)).

Definition LabTest_create (mkdoc : ObjectId -> LabTest.t) : M LabTest.t :=
  db_call (fun d =>
    let x := mkdoc (nextId d) in
    (Ok x, mkDB (hospitals d) (users d) (patients d) (labTests d ++ [x])
                (labResults d) (S (nextId d)))).

(** [LabTest.findByIdAndUpdate(id, update)] *)
Definition LabTest_findByIdAndUpdate (id : ObjectId) (u : LabTest.update)
    : M unit :=
  db_call (fun d =>
    (Ok tt, with_labTests
              (update_by_id LabTest._id id (LabTest.apply u) (labTests d)) d)).

Definition with_labResults (l : list LabResult.t) (n : ObjectId) (d : DB) : DB :=
  mkDB (hospitals d) (users d) (patients d) (labTests d) l n.

(** [LabResult.deleteMany({ testId })] *)
Definition LabResult_deleteMany (testId : ObjectId) : M unit :=
  db_call (fun d =>
    (Ok tt, with_labResults (LabResult.deleteMany testId (labResults d))
                            (nextId d) d)).

(** [LabResult.insertMany(docs)]: every document is validated first, and
    one invalid document means that none is written. *)
Definition LabResult_insertMany (testId : ObjectId)
    (rs : list LabResult.input) : M unit :=
  if forallb LabResult.valid rs then
    db_call (fun d =>
      (Ok tt, with_labResults
                (labResults d ++ LabResult.docs (nextId d) testId rs)
                (nextId d + List.length rs) d))
  else throw validation_failed.

(** A read of a collection that is not modelled (prescription
    templates): only the call itself, which may fail, is kept. *)
Definition PrescriptionTemplate_findOne (h : option ObjectId) : M unit :=
  db_read (fun _ => tt).

(** ** HTTP responses *)

(** The ten columns of the exported sheet. *)
Record ExportRow := mkRow {
  row_name : option string;
  row_registeredAt : Date;
  row_phone : option string;
  row_age : option Z;
  row_gender : option string;
  row_department : option string;
  row_reason : option string;
  row_prescription : option string;
  row_cost : Z;
  row_status : option string
}.

Definition export_row (p : Patient.t) : ExportRow :=
  mkRow (Patient.name p) (Patient.registeredAt p) (Patient.phone p)
        (Patient.age p) (Patient.gender p) (Patient.department p)
        (Patient.reason p) (Patient.prescription p) (Patient.cost p)
        (Patient.status p).

Inductive Body :=
| Success                                   (* { success: true } *)
| ErrorMsg (error : string)                 (* { error } *)
| Failure (message : string)                (* { success: false, message } *)
| Text (s : string)                         (* res.send(s) *)
| Registered (hospitalId : ObjectId) (password : string)
| LoggedIn (id : ObjectId) (username role : string) (hospitalId : ObjectId)
| PatientPage (data : list Patient.t) (total : nat) (page : Z)
              (totalPages : option Z) (limit : Z)
| OnePatient (p : Patient.t)
| Workbook (rows : list ExportRow)
| PrescriptionPdf (p : Patient.t) (portalToken : option string).

Record Response := respond {
  code : nat;
  body : Body
}.

Definition json (b : Body) : Response := respond 200 b.

(** ** Static data of server.js *)

Record Doctor := mkDoctor {
  doc_id : string;
  doc_name : string;
  doc_dept : string;
  doc_status : string
}.

Definition doctors : list Doctor :=
  [mkDoctor "1" "Dr. Asha Patel" "General" "available";
   mkDoctor "2" "Dr. Rajesh Singh" "Orthopedics" "available";
   mkDoctor "3" "Dr. Nisha Rao" "Gynecology" "available";
   mkDoctor "4" "Dr. Vikram Shah" "Cardiology" "available"].

(** A client-supplied or stored id as JavaScript sees it. *)
Inductive Js :=
| Undefined
| Num (z : Z)
| Str (s : string).

(** [d.id === v], where [d.id] is a string: a number is never equal. *)
Definition strict_eq_id (d : Doctor) (v : Js) : bool :=
  match v with
  | Str s => doc_id d =? s
  | _ => false
  end.

Definition digit_value (c : ascii) : option Z :=
  let n := nat_of_ascii c in
  if ((48 <=? n) && (n <=? 57))%nat then Some (Z.of_nat (n - 48)) else None.

Fixpoint parse_digits (acc : Z) (s : string) : option Z :=
  match s with
  | EmptyString => Some acc
  | String c r =>
      match digit_value c with
      | Some v => parse_digits (10 * acc + v)%Z r
      | None => None
      end
  end.

(** The cast Mongoose applies to a string written to a [Number] path. *)
Definition cast_Number (s : string) : option Z :=
  if s =? "" then None else parse_digits 0 s.

Section Server.

(** Local time offset of the server. *)
Variable tz : Z.

(** The functions of the [auth] module, which the server only calls.  (The
    validator middlewares run before a handler and can only keep it from
    running; they are left out.) *)
Variable generateHospitalPassword : ObjectId -> string.
Variable verifyHospitalPassword : ObjectId -> string -> bool.
Variable hashPassword : string -> string.
Variable comparePassword : string -> string -> bool.

(** *** POST /api/hospitals/register *)

Record HospitalForm := mkHospitalForm {
  hf_name : option string;
  hf_email : option string;
  hf_phone : option string;
  hf_address : option string
}.

Record AdminForm := mkAdminForm {
  af_username : option string;
  af_password : option string;
  af_email : option string
}.

Definition form_complete (hospital : option HospitalForm)
    (admin : option AdminForm) : bool :=
  match hospital, admin with
  | Some h, Some a =>
      truthy (hf_name h) && truthy (hf_email h) &&
      truthy (af_username a) && truthy (af_password a)
  | _, _ => false
  end.

Definition none_if_empty (o : option string) : option string :=
  if truthy o then o else None.

Definition post_hospitals_register (hospital : option HospitalForm)
    (admin : option AdminForm) : M Response :=
  match hospital, admin with
  | Some h, Some a =>
      if negb (form_complete hospital admin) then
        ret (respond 400 (Failure "Missing required fields"))
      else
        try_catch
          (existing <- Hospital_findOne_email (or_default (hf_email h) "") ;;
           match existing with
           | Some _ =>
               ret (respond 400 (Failure "Hospital email already registered"))
           | None =>
               expiry <- new_Date ;;
               created <- new_Date ;;
               newHospital <- Hospital_create (fun id =>
                 Hospital.mk id (or_default (hf_name h) "")
                   (or_default (hf_email h) "")
                   (none_if_empty (hf_phone h))
                   (none_if_empty (hf_address h))
                   "active" (Some (expiry + 30 * msPerDay)%Z) created None) ;;
               let hospitalId := Hospital._id newHospital in
               let monthlyPassword := generateHospitalPassword hospitalId in
               let hashedPassword := hashPassword (or_default (af_password a) "") in
               ucreated <- new_Date ;;
               _ <- User_create (fun id =>
                 User.mk id hospitalId (or_default (af_username a) "")
                   (none_if_empty (af_email a)) "admin" hashedPassword
                   ucreated None) ;;
               ret (json (Registered hospitalId monthlyPassword))
           end)
          (fun msg =>
             ret (respond 500 (Failure ("Failed to register: " ++ msg)%string)))
  | _, _ => ret (respond 400 (Failure "Missing required fields"))
  end.

(** *** POST /api/login *)

(** How the loop over the hospitals ends. *)
Inductive HospitalMatch :=
| Expired                         (* return res.status(403) *)
| Matched (id : ObjectId)         (* break *)
| NoMatch.                        (* the loop ran out *)

Fixpoint match_hospital (hospitalPassword : string)
    (l : list Hospital.t) : HospitalMatch :=
  match l with
  | [] => NoMatch
  | hospital :: rest =>
      if verifyHospitalPassword (Hospital._id hospital) hospitalPassword then
        if negb (Hospital.subscriptionStatus hospital =? "active")
        then Expired
        else Matched (Hospital._id hospital)
      else match_hospital hospitalPassword rest
  end.

Definition post_login (hospitalPassword username userPassword : option string)
    : M Response :=
  if negb (truthy hospitalPassword) || negb (truthy username) ||
     negb (truthy userPassword)
  then ret (respond 400 (Failure "Missing credentials"))
  else
    let hospitalPassword := or_default hospitalPassword "" in
    let username := or_default username "" in
    let userPassword := or_default userPassword "" in
    try_catch
      (hospitals <- Hospital_find ;;
       match match_hospital hospitalPassword hospitals with
       | Expired => ret (respond 403 (Failure "Subscription expired"))
       | NoMatch => ret (respond 401 (Failure "Invalid hospital password"))
       | Matched matchedHospitalId =>
           user <- User_findOne matchedHospitalId username ;;
           match user with
           | None =>
               ret (respond 401 (Failure "Invalid username or password"))
           | Some user =>
               if negb (comparePassword userPassword (User.password user))
               then ret (respond 401 (Failure "Invalid username or password"))
               else
                 t1 <- new_Date ;;
                 User_findByIdAndUpdate (User._id user)
                   (User.set_lastLogin (Some t1)) ;;;
                 t2 <- new_Date ;;
                 Hospital_findByIdAndUpdate matchedHospitalId
                   (Hospital.set_lastLogin (Some t2)) ;;;
                 put_session
                   (Session.mk (Some (User._id user)) (Some matchedHospitalId)
                               (Some (User.username user))
                               (Some (User.role user))) ;;;
                 ret (json (LoggedIn (User._id user) (User.username user)
                                     (User.role user) matchedHospitalId))
           end
       end)
      (fun msg => ret (respond 500 (Failure ("Database error: " ++ msg)%string))).

(** *** GET /api/patients *)

(** [Math.ceil(total / limit)], not a finite number when [limit] is 0. *)
Definition totalPages (total : nat) (limit : Z) : option Z :=
  if (limit =? 0)%Z then None
  else Some (- ((- Z.of_nat total) / limit))%Z.

Definition get_patients (phone : option string) (page limit : option Z)
    : M Response :=
  let page := match page with Some p => p | None => 1%Z end in
  let limit := match limit with Some l => l | None => 50%Z end in
  s <- get_session ;;
  let hospitalId := Session.hospitalId s in
  let skip := ((page - 1) * limit)%Z in
  let query :=
    Patient.mkq None hospitalId (if truthy phone then phone else None)
                None None None in
  try_catch
    (total <- Patient_countDocuments query ;;
     patients <- Patient_find_page query skip limit ;;
     ret (json (PatientPage patients total page (totalPages total limit) limit)))
    (fun msg => ret (respond 500 (ErrorMsg msg))).

(** *** GET /api/patients/:id *)

Definition get_patient (id : ObjectId) : M Response :=
  s <- get_session ;;
  let query :=
    Patient.mkq (Some id) (Session.hospitalId s) None None None None in
  try_catch
    (patient <- Patient_findOne query ;;
     match patient with
     | None => ret (respond 404 (ErrorMsg "Not found"))
     | Some p => ret (json (OnePatient p))
     end)
    (fun msg => ret (respond 500 (ErrorMsg msg))).

(** *** GET /api/export *)

Definition get_export (type : option string) : M Response :=
  now <- new_Date ;;
  let startDate :=
    match type with
    | Some ty => if ty =? "year" then startOfYear tz now else startOfMonth tz now
    | None => startOfMonth tz now
    end in
  try_catch
    (patients <- Patient_find_recent
                   (Patient.mkq None None None None None (Some startDate)) ;;
     ret (json (Workbook (map export_row patients))))
    (fun msg => ret (respond 500 (Text ("Database error: " ++ msg)%string))).

(** *** POST /api/lab/tests/:id/sample *)

Definition no_update : LabTest.update :=
  LabTest.mku None None None None None None None None None None.

Definition post_lab_sample (id : ObjectId) (status : string)
    (rejectionReason : option string) : M Response :=
  s <- get_session ;;
  let user := or_default (Session.username s) "Unknown" in
  now <- new_Date ;;
  let update :=
    LabTest.mku None None (Some status) None None (Some now) (Some user)
      (if status =? "rejected" then rejectionReason else None) None None in
  try_catch
    (LabTest_findByIdAndUpdate id update ;;; ret (json Success))
    (fun msg => ret (respond 500 (ErrorMsg msg))).

(** *** POST /api/lab/tests/:id/process *)

Definition post_lab_process (id : ObjectId) (status : string)
    (machineId : option string) : M Response :=
  now <- new_Date ;;
  let update :=
    if status =? "in_progress" then
      LabTest.mku (Some status) None None None machineId None None None
                  (Some now) None
    else if status =? "completed" then
      LabTest.mku (Some status) None None None None None None None None
                  (Some now)
    else
      LabTest.mku (Some status) None None None None None None None None None
  in
  try_catch
    (LabTest_findByIdAndUpdate id update ;;; ret (json Success))
    (fun msg => ret (respond 500 (ErrorMsg msg))).

(** *** POST /api/lab/tests/:id/results

    [results] is [None] when the body has no array under that key. *)

Definition post_lab_results (testId : ObjectId)
    (results : option (list LabResult.input)) : M Response :=
  match results with
  | None => ret (respond 400 (ErrorMsg "Invalid results data"))
  | Some results =>
      try_catch
        ((* Clear old results *)
         LabResult_deleteMany testId ;;;
         (* Insert new results *)
         LabResult_insertMany testId results ;;;
         (* Mark test as completed *)
         now <- new_Date ;;
         LabTest_findByIdAndUpdate testId
           (LabTest.mku (Some "completed") (Some now) None None None None
                        None None None None) ;;;
         ret (json Success))
        (fun msg => ret (respond 500 (ErrorMsg msg)))
  end.

(** *** GET /api/prescription-pdf/:patientId

    The QR code and the PDF drawing are left out: they read the patient
    and write to the response only. *)

Definition get_prescription_pdf (patientId : ObjectId)
    (token : option string) : M Response :=
  s <- get_session ;;
  let hospitalId := Session.hospitalId s in
  try_catch
    (found <-
       (if truthy token then
          patient <- Patient_findOne
                       (Patient.mkq (Some patientId) None None token None None) ;;
          ret (inr (patient,
                    match patient with
                    | Some p => Some (Patient.hospitalId p)
                    | None => hospitalId
                    end))
        else
          match hospitalId with
          | None => ret (inl (respond 401 (ErrorMsg "Not authenticated")))
          | Some h =>
              patient <- Patient_findOne
                           (Patient.mkq (Some patientId) (Some h) None None
                                        None None) ;;
              ret (inr (patient, hospitalId))
          end) ;;
     match found with
     | inl r => ret r
     | inr (None, _) => ret (respond 404 (ErrorMsg "Patient not found"))
     | inr (Some patient, hospitalId) =>
         (* Generate public token if missing *)
         patient <-
           (if negb (truthy (Patient.publicToken patient)) then
              t <- generatePublicToken ;;
              let patient := Patient.set_publicToken (Some t) patient in
              Patient_save patient ;;; ret patient
            else ret patient) ;;
         PrescriptionTemplate_findOne hospitalId ;;;
         _ <- match hospitalId with
              | Some h => Hospital_findById h
              | None => ret None
              end ;;
         (* the file name is built with patient.name.replace(...) *)
         match Patient.name patient with
         | None => throw "Cannot read properties of undefined"
         | Some _ =>
             ret (json (PrescriptionPdf patient (Patient.publicToken patient)))
         end
     end)
    (fun msg => ret (respond 500 (ErrorMsg msg))).

(** *** socket 'register-patient' *)

Record Registration := mkRegistration {
  r_department : option string;
  r_hospitalId : option ObjectId;
  r_name : option string;
  r_age : option Z;
  r_gender : option string;
  r_phone : option string;
  r_address : option string;
  r_patientType : option string;
  r_opdIpd : option string;
  r_doctorId : option Z;
  r_reason : option string;
  r_vitals : option string;       (* its JSON text *)
  r_prescription : option string;
  r_history : option string;      (* its JSON text *)
  r_cost : option Z
}.

Definition name_missing (n : option string) : bool :=
  match n with
  | None => true
  | Some s => (s =? "") || blank s
  end.

(** [data.doctorId || null]: 0 is falsy. *)
Definition requested_doctor (requested : option Z) : option Z :=
  match requested with
  | Some z => if (z =? 0)%Z then None else Some z
  | None => None
  end.

(** The first available doctor of the department; its id, the string
    of a number, is cast by the [Number] path it is written to. *)
Definition available_doctor (dept : string) : option Z :=
  match find (fun d => (doc_dept d =? dept) && (doc_status d =? "available"))
             doctors with
  | Some avail => cast_Number (doc_id avail)
  | None => None
  end.

Definition on_register_patient (data : Registration) : M unit :=
  let dept := or_default (r_department data) "General" in
  let hospitalId :=
    match r_hospitalId data with Some h => h | None => fallbackId end in
  if name_missing (r_name data) then
    emit ToSender "patient-registration-error"
         (Message "Patient name is required")
  else
    try_catch
      ((* Calculate token *)
       count <- Patient_countDocuments
                  (Patient.mkq None (Some hospitalId) None None (Some dept) None) ;;
       let token := (Z.of_nat count + 1)%Z in
       let assignedDoctor :=
         match requested_doctor (r_doctorId data) with
         | Some z => Some z
         | None => available_doctor dept
         end in
       registeredAt <- new_Date ;;
       newPatient <- Patient_create (fun id =>
         Patient.mk id hospitalId (Some token) None
           (Some (or_default (r_name data) "Unknown"))
           (r_age data) (r_gender data) (r_phone data) (r_address data)
           None None None None None None None
           (Some (or_default (r_patientType data) "New"))
           (Some (or_default (r_opdIpd data) "OPD"))
           (Some dept) assignedDoctor (r_reason data) (Some "waiting")
           registeredAt None
           (Some (or_default (r_vitals data) "{}"))
           (r_prescription data) None None
           (Some (or_default (r_history data) "[]"))
           (num_or (r_cost data) 0) None) ;;
       emit (ToRoom "doctors") "patient-registered" (PatientDoc newPatient) ;;;
       emit (ToRoom "reception") "patient-registered" (PatientDoc newPatient) ;;;
       emit ToAll "queue-updated" (QueuePatient newPatient) ;;;
       emit ToSender "patient-registered" (PatientDoc newPatient))
      (fun msg =>
         emit ToSender "patient-registration-error" (Message msg)).

(** *** socket 'move-patient' *)

Definition on_move_patient (id : ObjectId) (status : option string)
    (doctorId : option Z) (pharmacyState : option string) : M unit :=
  try_catch
    (patient <- Patient_findById id ;;
     match patient with
     | None => ret tt
     | Some patient =>
         let patient :=
           if truthy status then Patient.set_status status patient
           else patient in
         let patient :=
           match requested_doctor doctorId with
           | Some z => Patient.set_doctorId (Some z) patient
           | None => patient
           end in
         let patient :=
           if truthy pharmacyState
           then Patient.set_pharmacyState pharmacyState patient
           else patient in
         Patient_save patient ;;;
         emit ToAll "patient-updated" (PatientDoc patient) ;;;
         emit (ToRoom "doctors") "queue-updated" (QueuePatient patient) ;;;
         emit (ToRoom "reception") "queue-updated" (QueuePatient patient) ;;;
         emit (ToRoom "pharmacy") "queue-updated" (QueuePatient patient)
     end)
    (fun _ => (* console.error(err) *) ret tt).

(** *** socket 'update-prescription' *)

Definition labKeywords : list string :=
  ["test"; "lab"; "cbc"; "blood"; "urine"; "x-ray"; "scan"; "profile"; "panel"].

Definition hasLabRequest (prescription : string) : bool :=
  let lowerPrescription := toLowerCase prescription in
  existsb (fun keyword => includes keyword lowerPrescription) labKeywords.

Definition doctor_name (v : Js) : string :=
  match find (fun d => strict_eq_id d v) doctors with
  | Some doc => doc_name doc
  | None => "Doctor"
  end.

Definition stored_doctorId (p : Patient.t) : Js :=
  match Patient.doctorId p with
  | Some z => Num z
  | None => Undefined
  end.

Definition new_lab_test (hospitalId patientId : ObjectId) (testName : string)
    (orderedBy : string) (orderedAt : Date) (id : ObjectId) : LabTest.t :=
  LabTest.mk id hospitalId (Some patientId) (Some testName) None
    (Some orderedBy) orderedAt "pending" None None "normal" "pending"
    None None None None None None None.

Definition on_update_prescription (id : ObjectId) (prescription : string)
    : M unit :=
  try_catch
    (patient <- Patient_findByIdAndUpdate_prescription id prescription ;;
     match patient with
     | None => ret tt
     | Some patient =>
         (if hasLabRequest prescription then
            today <- new_Date ;;
            let today := startOfDay tz today in
            existing <- LabTest_findOne_pending id today "pending" ;;
            match existing with
            | Some _ => ret tt
            | None =>
                let testName := "Lab Test Request (from Prescription)" in
                let doctorName := doctor_name (stored_doctorId patient) in
                orderedAt <- new_Date ;;
                _ <- LabTest_create
                       (new_lab_test (Patient.hospitalId patient) id testName
                                     doctorName orderedAt) ;;
                emit (ToRoom "lab") "lab-update" NoPayload
            end
          else ret tt) ;;;
         emit (ToRoom "doctors") "prescription-updated" (PatientDoc patient) ;;;
         emit (ToRoom "reception") "prescription-updated" (PatientDoc patient) ;;;
         emit ToSender "prescription-updated" (PatientDoc patient)
     end)
    (fun _ => (* console.error(err) *) ret tt).

(** *** socket 'create-lab-request' *)

Definition on_create_lab_request (patientId : ObjectId)
    (testName : option string) (doctorId : Js) : M unit :=
  try_catch
    (patient <- Patient_findById patientId ;;
     match patient with
     | None =>
         emit ToSender "lab-request-created"
              (LabRequest false None (Some "Patient not found"))
     | Some patient =>
         let doctorName := doctor_name doctorId in
         orderedAt <- new_Date ;;
         newTest <- LabTest_create
                      (new_lab_test (Patient.hospitalId patient) patientId
                         (or_default testName "Manual Lab Request")
                         doctorName orderedAt) ;;
         emit (ToRoom "lab") "lab-update" NoPayload ;;;
         emit ToSender "lab-request-created"
              (LabRequest true (Some (LabTest._id newTest)) None)
     end)
    (fun msg =>
       emit ToSender "lab-request-created" (LabRequest false None (Some msg))).

(** *** The server as a whole

    One request or socket event, or a direct [User.create] as the
    database check script verify-mongo.js performs it. *)

Inductive Request :=
| PostHospitalsRegister (hospital : option HospitalForm)
                        (admin : option AdminForm)
| PostLogin (hospitalPassword username userPassword : option string)
| GetPatients (phone : option string) (page limit : option Z)
| GetPatient (id : ObjectId)
| GetExport (type : option string)
| PostLabSample (id : ObjectId) (status : string)
                (rejectionReason : option string)
| PostLabProcess (id : ObjectId) (status : string) (machineId : option string)
| PostLabResults (id : ObjectId) (results : option (list LabResult.input))
| GetPrescriptionPdf (patientId : ObjectId) (token : option string)
| RegisterPatient (data : Registration)
| MovePatient (id : ObjectId) (status : option string) (doctorId : option Z)
              (pharmacyState : option string)
| UpdatePrescription (id : ObjectId) (prescription : string)
| CreateLabRequest (patientId : ObjectId) (testName : option string)
                   (doctorId : Js)
| DirectUserCreate (doc : ObjectId -> User.t).

Definition silent {A} (m : M A) : M (option Response) :=
  _ <- m ;; ret None.

Definition answer (m : M Response) : M (option Response) :=
  r <- m ;; ret (Some r).

Definition dispatch (r : Request) : M (option Response) :=
  match r with
  | PostHospitalsRegister h a => answer (post_hospitals_register h a)
  | PostLogin hp u up => answer (post_login hp u up)
  | GetPatients phone page limit => answer (get_patients phone page limit)
  | GetPatient id => answer (get_patient id)
  | GetExport type => answer (get_export type)
  | PostLabSample id st rr => answer (post_lab_sample id st rr)
  | PostLabProcess id st m => answer (post_lab_process id st m)
  | PostLabResults id rs => answer (post_lab_results id rs)
  | GetPrescriptionPdf id tok => answer (get_prescription_pdf id tok)
  | RegisterPatient data => silent (on_register_patient data)
  | MovePatient id st d ps => silent (on_move_patient id st d ps)
  | UpdatePrescription id p => silent (on_update_prescription id p)
  | CreateLabRequest id n d => silent (on_create_lab_request id n d)
  | DirectUserCreate doc => silent (User_create doc)
  end.

(** A request arrives from some client (its session), some time after the
    previous one, at a moment when the database may be about to fail in some
    way.  [serve] handles it to its end before the next one arrives;
    handlers that overlap are modelled turn by turn further down (Handlers
    in flight). *)
Record Arrival := arrive {
  a_session : Session.t;
  a_faults : list (option string);
  a_wait : nat;
  a_ticks : list nat;
  a_request : Request
}.

Definition serve (a : Arrival) (w : World) : World :=
  snd (dispatch (a_request a)
         (set_faults (a_faults a)
            (set_clock (now w + Z.of_nat (a_wait a))%Z (a_ticks a)
               (set_session (a_session a) w)))).

(** The worlds the server can be in, started on an empty database, when
    no two handlers overlap. *)
Inductive reachable : World -> Prop :=
| reach_start w : db w = empty_db -> reachable w
| reach_serve w a : reachable w -> reachable (serve a w).

End Server.

(** * Vocabulary of the properties *)

(** What a handler run added to the emitted events. *)
Definition new_events (w w' : World) : list Emit :=
  skipn (List.length (emitted w)) (emitted w').

Definition department_of (data : Registration) : string :=
  or_default (r_department data) "General".

Definition hospital_of (data : Registration) : ObjectId :=
  match r_hospitalId data with Some h => h | None => fallbackId end.

(** The query of the token count. *)
Definition queue_query (hospitalId : ObjectId) (dept : string) : Patient.query :=
  Patient.mkq None (Some hospitalId) None None (Some dept) None.

(** The compound key (hospitalId, username) occurs at most once. *)
Definition unique_usernames (l : list User.t) : Prop :=
  NoDup (map User.key l).

(** [_id] is a key of the patients, below the next id to hand out. *)
Definition patient_ids_ok (d : DB) : Prop :=
  NoDup (map Patient._id (patients d)) /\
  forall p, In p (patients d) -> (Patient._id p < nextId d)%nat.

(** No stored test is ordered later than the clock shows. *)
Definition tests_not_ahead (w : World) : Prop :=
  forall x, In x (labTests (db w)) -> (LabTest.orderedAt x <= now w)%Z.

(** [m] keeps a property of the database, however it ends. *)
Definition preserves {A} (I : DB -> Prop) (m : M A) : Prop :=
  forall w, I (db w) -> I (db (snd (m w))).

(** The three ways in which the insert or the status update that follow
    the delete of POST /api/lab/tests/:id/results can fail. *)
Definition insert_invalid (results : list LabResult.input) : Prop :=
  forallb LabResult.valid results = false.

Definition insert_faulty (results : list LabResult.input) (w : World) : Prop :=
  forallb LabResult.valid results = true /\
  exists msg rest, faults w = None :: Some msg :: rest.

Definition update_faulty (results : list LabResult.input) (w : World) : Prop :=
  forallb LabResult.valid results = true /\
  exists msg rest, faults w = None :: None :: Some msg :: rest.

(** The reading of C7: every uniqueness constraint of the data model is
    the compound one on User. *)
Definition user_key_constraint : string * list string :=
  ("User", ["hospitalId"; "username"]).

Definition only_user_key_is_unique : Prop :=
  forall c, In c (unique_constraints all_schemas) -> c = user_key_constraint.

(** [Q] holds of the outcome and the final world of [m] run from [w]. *)
Definition wp {A} (m : M A) (Q : Outcome A -> World -> Prop) (w : World) : Prop :=
  Q (fst (m w)) (snd (m w)).

(** The world after a database call that did not touch the database. *)
Definition called (w : World) : World := set_faults (tl (faults w)) w.

(** No database call is going to fail. *)
Definition calm (w : World) : Prop :=
  forall msg, ~ In (Some msg) (faults w).

(** * Concrete scenarios *)

Module Sample.
(** 2026-11-02T12:00:00Z *)
Definition noon : Date := 1793620800000%Z.

Definition rng0 (n : nat) : byte :=
  match Byte.of_nat (n mod 256) with Some b => b | None => x00 end.

(** A patient as 'register-patient' stores it. *)
Definition patient (id hospitalId : ObjectId) (token : Z) (name dept : string)
    (registeredAt : Date) : Patient.t :=
  Patient.mk id hospitalId (Some token) None (Some name) None None None None
    None None None None None None None (Some "New") (Some "OPD") (Some dept)
    (available_doctor dept) None (Some "waiting") registeredAt None
    (Some "{}") None None None (Some "[]") 0 None.

Definition hospital (id : ObjectId) (name email status : string) : Hospital.t :=
  Hospital.mk id name email None None status None 0%Z None.

Definition user (id hospitalId : ObjectId) (username role password : string)
    : User.t :=
  User.mk id hospitalId username None role password 0%Z None.

(** Two hospitals; hospital 1 has two patients queued in General,
    hospital 2 has one. *)
Definition asha := patient 11 1 1 "Asha" "General" (noon - 3600000)%Z.
Definition bala := patient 12 1 2 "Bala" "General" (noon - 1800000)%Z.
Definition chitra := patient 13 2 1 "Chitra" "General" (noon - 900000)%Z.

Definition db0 : DB :=
  mkDB [hospital 1 "City Clinic" "city@example.org" "active";
        hospital 2 "Lake Hospital" "lake@example.org" "active"]
       [user 3 1 "reception" "reception" "h1"; user 4 2 "reception" "reception" "h2"]
       [asha; bala; chitra] [] [] 20.

Definition world (d : DB) (s : Session.t) (f : list (option string)) : World :=
  mkWorld d s noon [] rng0 0 [] f.

Definition anonymous : Session.t := Session.empty.
Definition staff (userId hospitalId : ObjectId) : Session.t :=
  Session.mk (Some userId) (Some hospitalId) (Some "reception")
             (Some "reception").

(** A completed test of Asha with two recorded results. *)
Definition cbc : LabTest.t :=
  LabTest.mk 15 1 (Some 11) (Some "CBC") None (Some "Doctor")
    (noon - 1200000)%Z "completed" None (Some (noon - 600000)%Z) "normal"
    "collected" None None None None None None None.

Definition hemoglobin : LabResult.t :=
  LabResult.mk 16 15 "Hemoglobin" (Some "14.5") (Some "g/dL") None false None.
Definition platelets : LabResult.t :=
  LabResult.mk 17 15 "Platelets" (Some "250") None None false None.

Definition db1 : DB :=
  with_labResults [hemoglobin; platelets] 20 (with_labTests [cbc] db0).

(** Asha's token once the PDF endpoint has drawn it from [rng0]. *)
Definition asha_token : string :=
  "000102030405060708090a0b0c0d0e0f101112131415161718191a1b1c1d1e1f".

Definition registration (hospitalId : ObjectId) (name : string) : Registration :=
  mkRegistration None (Some hospitalId) (Some name) None None None None None
    None None None None None None None.

(** Stand-ins for the functions of the auth module. *)
Definition generateHospitalPassword (id : ObjectId) : string :=
  if (id =? 1)%nat then "alpha" else if (id =? 3)%nat then "beta" else "other".
Definition verifyHospitalPassword (id : ObjectId) (pw : string) : bool :=
  generateHospitalPassword id =? pw.
Definition hashPassword (pw : string) : string := ("#" ++ pw)%string.
Definition comparePassword (pw hashed : string) : bool := hashPassword pw =? hashed.

Definition handle : Arrival -> World -> World :=
  serve 0%Z generateHospitalPassword verifyHospitalPassword hashPassword
            comparePassword.

(** As [db0], with the subscription of the second hospital lapsed. *)
Definition lapsed : Hospital.t :=
  hospital 2 "Lake Hospital" "lake@example.org" "expired".

Definition db_lapsed : DB :=
  mkDB [hospital 1 "City Clinic" "city@example.org" "active"; lapsed]
       (users db0) (patients db0) [] [] 20.

Definition from_anyone (r : Request) : Arrival := arrive anonymous [] 250 [] r.

Definition register (name email admin : string) : Request :=
  PostHospitalsRegister
    (Some (mkHospitalForm (Some name) (Some email) None None))
    (Some (mkAdminForm (Some admin) (Some "secret") None)).

(** Two hospitals registered one after the other on an empty database,
    both with an administrator called "admin". *)
Definition two_hospitals : World :=
  handle (from_anyone (register "Lake Hospital" "lake@example.org" "admin"))
    (handle (from_anyone (register "City Clinic" "city@example.org" "admin"))
       (world empty_db anonymous [])).
End Sample.

From Stdlib Require Import Sorted Permutation.

(** * The rest of the server

    The handlers below answer with their own kinds of body. *)

Record Reply (B : Type) := reply {
  r_code : nat;
  r_body : B
}.

(** [.sort(...)] with the order given as "comes no later than"; documents
    that tie keep the order they are stored in. *)
Section SortBy.
Variable A : Type.
Variable le : A -> A -> bool.

Fixpoint insert_by (a : A) (l : list A) : list A :=
  match l with
  | [] => [a]
  | b :: r => if le a b then a :: l else b :: insert_by a r
  end.

Definition sort_by (l : list A) : list A := fold_right insert_by [] l.
End SortBy.

(** *** GET /api/public/prescription/:token *)

Record PortalPatient := mkPortalPatient {
  pp_name : option string;
  pp_age : option Z;
  pp_gender : option string;
  pp_diagnosis : option string;
  pp_prescription : option string;
  (* patient.appointmentDate || patient.registeredAt *)
  pp_updatedAt : string + Date
}.

Inductive PortalBody :=
| PortalError (error : string)
| Portal (patient : PortalPatient)
         (hospital : Hospital.t + string)   (* hospital || { name } *)
         (doctor : Doctor + string).        (* doctor || { name } *)

(** [Patient.findOne({ publicToken: token })] *)
Definition token_query (token : string) : Patient.query :=
  Patient.mkq None None None (Some token) None None.

Definition get_public_prescription (token : string) : M (Reply PortalBody) :=
  try_catch
    (patient <- Patient_findOne (token_query token) ;;
     match patient with
     | None => ret (reply 404 (PortalError "Invalid token"))
     | Some patient =>
         (* Fetch hospital details *)
         hospital <- Hospital_findById (Patient.hospitalId patient) ;;
         (* Fetch doctor details (if assigned) *)
         let doctor :=
           find (fun d => strict_eq_id d (stored_doctorId patient)) doctors in
         ret (reply 200
                (Portal
                   (mkPortalPatient (Patient.name patient) (Patient.age patient)
                      (Patient.gender patient) (Patient.diagnosis patient)
                      (Patient.prescription patient)
                      (if truthy (Patient.appointmentDate patient)
                       then inl (or_default (Patient.appointmentDate patient) "")
                       else inr (Patient.registeredAt patient)))
                   (match hospital with
                    | Some h => inl h
                    | None => inr "Medical Center"
                    end)
                   (match doctor with
                    | Some d => inl d
                    | None => inr "Attending Physician"
                    end)))
     end)
    (fun msg => ret (reply 500 (PortalError msg))).

(** *** GET /api/auth/status, POST /api/logout, GET /api/hospital/info *)

Inductive AuthStatus :=
| Authenticated (id : ObjectId) (username role : option string)
                (hospitalId : option ObjectId)
| NotAuthenticated.

Definition get_auth_status : M (Reply AuthStatus) :=
  s <- get_session ;;
  match Session.userId s with
  | Some id =>
      ret (reply 200 (Authenticated id (Session.username s) (Session.role s)
                                    (Session.hospitalId s)))
  | None => ret (reply 200 NotAuthenticated)
  end.

(** [req.session.destroy()] *)
Definition post_logout : M (Reply bool) :=
  put_session Session.empty ;;; ret (reply 200 true).

Inductive InfoBody :=
| InfoError (error : string)
| Info (hospital : option Hospital.t).

Definition get_hospital_info : M (Reply InfoBody) :=
  s <- get_session ;;
  match Session.hospitalId s with
  | None => ret (reply 401 (InfoError "Not authenticated"))
  | Some h =>
      try_catch
        (hospital <- Hospital_findById h ;; ret (reply 200 (Info hospital)))
        (fun msg => ret (reply 500 (InfoError msg)))
  end.

(** *** GET /api/prescriptions

    The first branch of the [$or] is written
    [{ prescription: { $ne: null, $ne: '' } }]: of the two [$ne] keys of the
    object literal the second one stays, and [{ $ne: '' }] also holds of a
    document without the field. *)

Definition ne_empty (o : option string) : bool :=
  match o with
  | Some s => negb (s =? "")
  | None => true
  end.

Definition ne_null (o : option string) : bool :=
  match o with
  | Some _ => true
  | None => false
  end.

Definition prescriptions_filter (hospitalId : option ObjectId)
    (p : Patient.t) : bool :=
  (ne_empty (Patient.prescription p) ||
   match Patient.status p with Some s => s =? "pharmacy" | None => false end ||
   ne_null (Patient.pharmacyState p)) &&
  match hospitalId with
  | Some h => (Patient.hospitalId p =? h)%nat
  | None => true
  end.

(** [{ token: 1 }]: a patient without a token sorts first. *)
Definition token_le (a b : Patient.t) : bool :=
  match Patient.token a, Patient.token b with
  | None, _ => true
  | Some _, None => false
  | Some x, Some y => (x <=? y)%Z
  end.

Inductive ListBody (A : Type) :=
| ListError (error : string)
| Listing (items : list A).
Arguments ListError {A} error.
Arguments Listing {A} items.

Definition get_prescriptions : M (Reply (ListBody Patient.t)) :=
  s <- get_session ;;
  let hospitalId := Session.hospitalId s in
  try_catch
    (patients <- db_read (fun d =>
                   sort_by token_le
                     (filter (prescriptions_filter hospitalId) (patients d))) ;;
     ret (reply 200 (Listing patients)))
    (fun msg => ret (reply 500 (ListError msg))).

(** *** Superadmin *)

Section Superadmin.
Variable generateHospitalPassword : ObjectId -> string.
(** [auth.verifySuperAdminPassword], on the password of the body if any. *)
Variable verifySuperAdminPassword : option string -> bool.

(** Middleware for superadmin: the handler runs for the role 'superadmin'
    only. *)
Definition requireAdmin {B} (unauthorized : string -> B)
    (next : M (Reply B)) : M (Reply B) :=
  s <- get_session ;;
  match Session.role s with
  | Some r =>
      if r =? "superadmin" then next
      else ret (reply 401 (unauthorized "Unauthorized"))
  | None => ret (reply 401 (unauthorized "Unauthorized"))
  end.

Inductive SimpleBody :=
| Done                          (* { success: true } *)
| Refused (message : string)    (* { success: false, message } *)
| Problem (error : string)      (* { error } *)
| Password (password : string)  (* { password } *)
| Renewed (expiryDate : Date).  (* { success: true, expiryDate } *)

(** POST /api/admin/login *)
Definition post_admin_login (password : option string) : M (Reply SimpleBody) :=
  if verifySuperAdminPassword password then
    s <- get_session ;;
    put_session (Session.mk (Session.userId s) (Session.hospitalId s)
                            (Some "Super Admin") (Some "superadmin")) ;;;
    ret (reply 200 Done)
  else ret (reply 401 (Refused "Invalid password")).

(** GET /api/admin/hospitals *)
Definition get_admin_hospitals : M (Reply (ListBody Hospital.t)) :=
  requireAdmin ListError
    (try_catch
       (hospitals <- db_read (fun d => sort_desc Hospital.createdAt (hospitals d)) ;;
        ret (reply 200 (Listing hospitals)))
       (fun msg => ret (reply 500 (ListError msg)))).

(** GET /api/admin/users *)
Definition get_admin_users : M (Reply (ListBody User.t)) :=
  requireAdmin ListError
    (try_catch
       (users <- db_read (fun d => sort_desc User.createdAt (users d)) ;;
        ret (reply 200 (Listing users)))
       (fun msg => ret (reply 500 (ListError msg)))).

(** GET /api/admin/hospital-password/:id *)
Definition get_admin_hospital_password (id : ObjectId) : M (Reply SimpleBody) :=
  requireAdmin Problem
    (ret (reply 200 (Password (generateHospitalPassword id)))).

(** PUT /api/admin/hospitals/:id/status *)
Definition put_admin_hospital_status (id : ObjectId) (status : string)
    : M (Reply SimpleBody) :=
  requireAdmin Problem
    (try_catch
       (Hospital_findByIdAndUpdate id (Hospital.set_subscriptionStatus status) ;;;
        ret (reply 200 Done))
       (fun msg => ret (reply 500 (Problem msg)))).

(** [{ subscriptionExpiry: newExpiry, subscriptionStatus: 'active' }] *)
Definition renew (newExpiry : Date) (h : Hospital.t) : Hospital.t :=
  Hospital.mk (Hospital._id h) (Hospital.name h) (Hospital.email h)
    (Hospital.phone h) (Hospital.address h) "active" (Some newExpiry)
    (Hospital.createdAt h) (Hospital.lastLogin h).

(** A [Date] holds an instant of at most 100 000 000 days before or after
    the epoch; what lies beyond is an Invalid Date, of which [toISOString]
    throws a RangeError. *)
Definition maxDate : Z := 8640000000000000.

Definition in_Date_range (t : Z) : bool :=
  (- maxDate <=? t)%Z && (t <=? maxDate)%Z.

Definition toISOString (t : Z) : M Date :=
  if in_Date_range t then ret t else throw "Invalid time value".

(** What [expiryDate] of the body is to [new Date(...)]. *)
Inductive DateInput :=
| NoDate                 (* absent or falsy *)
| InvalidDate            (* a value that is no date *)
| ValidDate (t : Date).

(** What [daysToAdd] of the body is to the handler: whether it is truthy,
    and what [parseInt] reads from it. *)
Inductive DaysInput :=
| NoDays                 (* absent or falsy: 0, "", null *)
| UnreadableDays         (* truthy, and [parseInt] gives NaN *)
| Days (n : Z).          (* truthy, and [parseInt] gives [n]: 30 from 30 or
                            "30", 2 from 2.5, 0 from 0.5, 1 from 1e21 *)

(** PUT /api/admin/hospitals/:id/expiry.  [setDate(getDate() + n)] moves
    the date by [n] calendar days, which are days of [msPerDay] each in a
    time zone of fixed offset; [NaN] days, or so many that the result leaves
    the range of a [Date], give an Invalid Date. *)
Definition put_admin_hospital_expiry (id : ObjectId) (expiryDate : DateInput)
    (daysToAdd : DaysInput) : M (Reply SimpleBody) :=
  requireAdmin Problem
    (try_catch
       match expiryDate with
       | ValidDate t =>
           newExpiry <- toISOString t ;;
           Hospital_findByIdAndUpdate id (renew newExpiry) ;;;
           ret (reply 200 (Renewed newExpiry))
       | InvalidDate => throw "Invalid time value"
       | NoDate =>
           match daysToAdd with
           | NoDays =>
               ret (reply 400 (Problem "Either expiryDate or daysToAdd required"))
           | _ =>
               hospital <- Hospital_findById id ;;
               baseDate <-
                 match hospital with
                 | Some h =>
                     match Hospital.subscriptionExpiry h with
                     | Some e => ret e
                     | None => new_Date
                     end
                 | None => new_Date
                 end ;;
               newExpiry <-
                 match daysToAdd with
                 | Days n => toISOString (baseDate + n * msPerDay)%Z
                 | _ => throw "Invalid time value"
                 end ;;
               Hospital_findByIdAndUpdate id (renew newExpiry) ;;;
               ret (reply 200 (Renewed newExpiry))
           end
       end
       (fun msg => ret (reply 500 (Problem msg)))).
End Superadmin.

(** *** Lab dashboard *)

Record PatientBrief := mkBrief {
  b_name : option string;
  b_age : option Z;
  b_gender : option string;
  b_phone : option string
}.

Definition brief (p : Patient.t) : PatientBrief :=
  mkBrief (Patient.name p) (Patient.age p) (Patient.gender p) (Patient.phone p).

(** A test with the patient [populate] found for it, if any. *)
Record LabTestView := mkView {
  v_test : LabTest.t;
  v_patient : option PatientBrief
}.

(** [.populate('patientId', 'name age gender phone')] *)
Definition populate (ps : list Patient.t) (t : LabTest.t) : LabTestView :=
  mkView t
    match LabTest.patientId t with
    | Some id => option_map brief (find_by_id Patient._id id ps)
    | None => None
    end.

(** [{ priority: -1, orderedAt: -1 }]: strings compare code unit by code
    unit, so 'urgent' comes before 'normal'. *)
Definition urgent_first (a b : LabTest.t) : bool :=
  match String.compare (LabTest.priority a) (LabTest.priority b) with
  | Gt => true
  | Lt => false
  | Eq => (LabTest.orderedAt b <=? LabTest.orderedAt a)%Z
  end.

Definition tests_filter (hospitalId : ObjectId) (status : option string)
    (day : option Date) (t : LabTest.t) : bool :=
  (LabTest.hospitalId t =? hospitalId)%nat &&
  match status with
  | Some s => LabTest.status t =? s
  | None => true
  end &&
  match day with
  | Some start =>
      (start <=? LabTest.orderedAt t)%Z &&
      (LabTest.orderedAt t <? start + msPerDay)%Z
  | None => true
  end.

Inductive StatsBody :=
| StatsError (error : string)
| Stats (pending inProgress completed urgent samplesToCollect : nat).

Definition count_tests (f : LabTest.t -> bool) : M nat :=
  db_read (fun d => List.length (filter f (labTests d))).

(** GET /api/lab/stats *)
Definition get_lab_stats : M (Reply StatsBody) :=
  s <- get_session ;;
  match Session.hospitalId s with
  | None => ret (reply 401 (StatsError "Not authenticated"))
  | Some h =>
      let mine (t : LabTest.t) := (LabTest.hospitalId t =? h)%nat in
      try_catch
        (pending <- count_tests (fun t => mine t && (LabTest.status t =? "pending")) ;;
         inProgress <- count_tests (fun t => mine t && (LabTest.status t =? "in_progress")) ;;
         completed <- count_tests (fun t => mine t && (LabTest.status t =? "completed")) ;;
         urgent <- count_tests (fun t =>
                     mine t && (LabTest.priority t =? "urgent") &&
                     negb (LabTest.status t =? "completed")) ;;
         samplesToCollect <- count_tests (fun t =>
                               mine t && (LabTest.sampleStatus t =? "pending")) ;;
         ret (reply 200 (Stats pending inProgress completed urgent samplesToCollect)))
        (fun msg => ret (reply 500 (StatsError msg)))
  end.

Section LabList.
(** [new RegExp(search, 'i')]: the test it compiles to, or nothing for a
    pattern that is no regular expression. *)
Variable RegExp_i : string -> option (string -> bool).

(** [regex.test(v)]: a missing value is tested as the text "undefined". *)
Definition regex_test (test : string -> bool) (v : option string) : bool :=
  test (match v with Some s => s | None => "undefined" end).

(** GET /api/lab/tests.  A [find] with its [populate] counts as one call
    to the database; a [date] that is no date is refused when the query is
    cast, before the database is called. *)
Definition get_lab_tests (status : option string) (date : DateInput)
    (search : option string) : M (Reply (ListBody LabTestView)) :=
  s <- get_session ;;
  match Session.hospitalId s with
  | None => ret (reply 401 (ListError "Not authenticated"))
  | Some hospitalId =>
      let status :=
        match status with
        | Some st => if (st =? "") || (st =? "all") then None else Some st
        | None => None
        end in
      try_catch
        (tests <-
           match date with
           | InvalidDate => throw "Cast to date failed"
           | NoDate =>
               db_read (fun d =>
                 map (populate (patients d))
                     (sort_by urgent_first
                        (filter (tests_filter hospitalId status None)
                                (labTests d))))
           | ValidDate start =>
               db_read (fun d =>
                 map (populate (patients d))
                     (sort_by urgent_first
                        (filter (tests_filter hospitalId status (Some start))
                                (labTests d))))
           end ;;
         (* Manual search filter *)
         tests <-
           (if truthy search then
              match RegExp_i (or_default search "") with
              | None => throw "Invalid regular expression"
              | Some searchRegex =>
                  ret (filter (fun t =>
                         match v_patient t with
                         | Some p => regex_test searchRegex (b_name p) ||
                                     regex_test searchRegex (b_phone p)
                         | None => false
                         end) tests)
              end
            else ret tests) ;;
         ret (reply 200 (Listing tests)))
        (fun msg => ret (reply 500 (ListError msg)))
  end.
End LabList.

(** POST /api/lab/tests/:id/assign *)
Definition post_lab_assign (id : ObjectId) (technicianId : option Z)
    : M Response :=
  try_catch
    (LabTest_findByIdAndUpdate id
       (LabTest.mku None None None technicianId None None None None None None) ;;;
     ret (json Success))
    (fun msg => ret (respond 500 (ErrorMsg msg))).

Inductive DetailsBody :=
| DetailsError (error : string)
| Details (test : LabTest.t) (patient : option Patient.t)
          (results : list LabResult.t).

(** GET /api/lab/tests/:id; [findById] with its [populate] is one call. *)
Definition get_lab_test (id : ObjectId) : M (Reply DetailsBody) :=
  try_catch
    (found <- db_read (fun d =>
                match find_by_id LabTest._id id (labTests d) with
                | Some t =>
                    Some (t, match LabTest.patientId t with
                             | Some p => find_by_id Patient._id p (patients d)
                             | None => None
                             end)
                | None => None
                end) ;;
     match found with
     | None => ret (reply 404 (DetailsError "Test not found"))
     | Some (test, patient) =>
         results <- db_read (fun d =>
                      LabResult.of_test (LabTest._id test) (labResults d)) ;;
         ret (reply 200 (Details test patient results))
     end)
    (fun msg => ret (reply 500 (DetailsError msg))).

(** *** The lab dashboard's "enter results" action (client side)

    The one result [enterResults] puts in the body of its request, for the
    text typed into the dialog. *)
Definition entered_result (value : string) : LabResult.input :=
  LabResult.mki (Some "Result") (Some value) (Some "units") (Some "N/A")
                (Some false) None.

(** * Vocabulary of the further properties *)

(** A registration form with its four required fields filled in. *)
Definition hospital_form (name email : string) (phone address : option string)
  : option HospitalForm :=
  Some (mkHospitalForm (Some name) (Some email) phone address).

Definition admin_form (username password : string) (email : option string)
  : option AdminForm :=
  Some (mkAdminForm (Some username) (Some password) email).

(** The patients that page [page] of GET /api/patients shows ([] when
    the request fails). *)
Definition page_data (phone : option string) (page limit : Z) (w : World)
  : list Patient.t :=
  match fst (get_patients phone (Some page) (Some limit) w) with
  | Ok (respond _ (PatientPage data _ _ _ _)) => data
  | _ => []
  end.

(** The query of GET /api/patients for a session and a phone number. *)
Definition listing_query (s : Session.t) (phone : option string) : Patient.query :=
  Patient.mkq None (Session.hospitalId s) (if truthy phone then phone else None)
              None None None.

(** * Further scenarios *)

Module Scene.
(** Reception of hospital 1 at work on [Sample.db0], and on [Sample.db1]
    which also has a completed test with two results. *)
Definition desk : World := Sample.world Sample.db0 (Sample.staff 3 1) [].
Definition lab : World := Sample.world Sample.db1 (Sample.staff 3 1) [].

(** The database fails on the third call from now. *)
Definition failing : World :=
  Sample.world Sample.db0 Sample.anonymous [None; None; Some "connection lost"].

(** A superadmin on [Sample.db0]. *)
Definition admin : World :=
  Sample.world Sample.db0
    (Session.mk None None (Some "Super Admin") (Some "superadmin")) [].

(** Two registered hospitals, each with an administrator called "admin". *)
Definition lake : Hospital.t :=
  Sample.hospital 3 "Lake Hospital" "lake@example.org" "active".
Definition lake_admin : User.t := Sample.user 4 3 "admin" "admin" "#secret".
Definition registered : World :=
  Sample.world
    (mkDB [Sample.hospital 1 "City Clinic" "city@example.org" "active"; lake]
          [Sample.user 2 1 "admin" "admin" "#secret"; lake_admin] [] [] [] 5)
    Sample.anonymous [].

Definition register := post_hospitals_register Sample.generateHospitalPassword
                                               Sample.hashPassword.
Definition login := post_login Sample.verifyHospitalPassword Sample.comparePassword.
End Scene.

(** * Handlers in flight

    Node runs a handler without interruption from one [await] to the next;
    while it waits for the database, other handlers take their turns.  A
    turn starts when the awaited call is carried out and ends where the
    handler awaits the next one, or is through.  The first turn of a handler
    is its arrival, up to its first [await]. *)

#[local] Unset Elimination Schemes.
Inductive Task :=
| Finished
| Pending (turn : M Task).
#[local] Set Elimination Schemes.

(** One turn of a handler in flight; an error nobody catches ends it. *)
Definition take (t : Task) (w : World) : Task * World :=
  match t with
  | Finished => (Finished, w)
  | Pending turn =>
      match turn w with
      | (Ok t', w') => (t', w')
      | (Throw _, w') => (Finished, w')
      end
  end.

(** A handler that no other handler interrupts. *)
Fixpoint alone (t : Task) (w : World) : World :=
  match t with
  | Finished => w
  | Pending turn =>
      match turn w with
      | (Ok t', w') => alone t' w'
      | (Throw _, w') => w'
      end
  end.

Fixpoint replace {A} (k : nat) (a : A) (l : list A) : list A :=
  match l, k with
  | [], _ => []
  | _ :: r, O => a :: r
  | b :: r, S k' => b :: replace k' a r
  end.

(** The handlers in flight take their turns in the order [schedule] names
    them, by position; the worlds passed through, oldest first.  (The socket
    handlers that follow do not read the session, so the world keeps one.) *)
Fixpoint interleave (schedule : list nat) (flights : list Task) (w : World)
    : list World :=
  w ::
  match schedule with
  | [] => []
  | k :: rest =>
      match nth_error flights k with
      | Some t =>
          let (t', w') := take t w in
          interleave rest (replace k t' flights) w'
      | None => interleave rest flights w
      end
  end.

(** The moves of a run: each world with the one that follows it. *)
Definition moves (run : list World) : list (World * World) :=
  combine run (tl run).

Section Turns.
Variable tz : Z.

(** *** socket 'register-patient', turn by turn *)

Definition registration_error (msg : string) : M Task :=
  emit ToSender "patient-registration-error" (Message msg) ;;; ret Finished.

Definition register_patient_task (data : Registration) : Task :=
  let dept := or_default (r_department data) "General" in
  let hospitalId :=
    match r_hospitalId data with Some h => h | None => fallbackId end in
  Pending
    (if name_missing (r_name data) then
       registration_error "Patient name is required"
     else
       ret (Pending
         (try_catch
            ((* Calculate token *)
             count <- Patient_countDocuments
                        (Patient.mkq None (Some hospitalId) None None (Some dept)
                                     None) ;;
             let token := (Z.of_nat count + 1)%Z in
             let assignedDoctor :=
               match requested_doctor (r_doctorId data) with
               | Some z => Some z
               | None => available_doctor dept
               end in
             registeredAt <- new_Date ;;
             ret (Pending
               (try_catch
                  (newPatient <- Patient_create (fun id =>
                     Patient.mk id hospitalId (Some token) None
                       (Some (or_default (r_name data) "Unknown"))
                       (r_age data) (r_gender data) (r_phone data)
                       (r_address data)
                       None None None None None None None
                       (Some (or_default (r_patientType data) "New"))
                       (Some (or_default (r_opdIpd data) "OPD"))
                       (Some dept) assignedDoctor (r_reason data)
                       (Some "waiting") registeredAt None
                       (Some (or_default (r_vitals data) "{}"))
                       (r_prescription data) None None
                       (Some (or_default (r_history data) "[]"))
                       (num_or (r_cost data) 0) None) ;;
                   emit (ToRoom "doctors") "patient-registered"
                        (PatientDoc newPatient) ;;;
                   emit (ToRoom "reception") "patient-registered"
                        (PatientDoc newPatient) ;;;
                   emit ToAll "queue-updated" (QueuePatient newPatient) ;;;
                   emit ToSender "patient-registered" (PatientDoc newPatient) ;;;
                   ret Finished)
                  registration_error)))
            registration_error))).

(** *** socket 'update-prescription', turn by turn *)

Definition prescription_updated (patient : Patient.t) : M Task :=
  emit (ToRoom "doctors") "prescription-updated" (PatientDoc patient) ;;;
  emit (ToRoom "reception") "prescription-updated" (PatientDoc patient) ;;;
  emit ToSender "prescription-updated" (PatientDoc patient) ;;;
  ret Finished.

(** [catch (err) { console.error(err); }] *)
Definition logged (turn : M Task) : M Task :=
  try_catch turn (fun _ => ret Finished).

Definition update_prescription_task (id : ObjectId) (prescription : string)
    : Task :=
  Pending (ret (Pending (logged
    (patient <- Patient_findByIdAndUpdate_prescription id prescription ;;
     match patient with
     | None => ret Finished
     | Some patient =>
         if hasLabRequest prescription then
           today <- new_Date ;;
           let today := startOfDay tz today in
           ret (Pending (logged
             (existing <- LabTest_findOne_pending id today "pending" ;;
              match existing with
              | Some _ => prescription_updated patient
              | None =>
                  let testName := "Lab Test Request (from Prescription)" in
                  let doctorName := doctor_name (stored_doctorId patient) in
                  orderedAt <- new_Date ;;
                  ret (Pending (logged
                    (_ <- LabTest_create
                            (new_lab_test (Patient.hospitalId patient) id
                                          testName doctorName orderedAt) ;;
                     emit (ToRoom "lab") "lab-update" NoPayload ;;;
                     prescription_updated patient)))
              end)))
         else prescription_updated patient
     end)))).
End Turns.

(** * Vocabulary of the properties of handlers in flight *)

(** The queue a stored patient stands in. *)
Definition queue_of (p : Patient.t) : Patient.query :=
  queue_query (Patient.hospitalId p) (or_default (Patient.department p) "").

(** The reading of C3: whenever registrations, however they take their
    turns, store a patient, its token is the number of patients its queue
    held just before, plus one. *)
Definition next_in_queue (before after : World) : Prop :=
  forall p, patients (db after) = patients (db before) ++ [p] ->
    Patient.token p =
    Some (Z.of_nat (Patient.countDocuments (queue_of p)
                      (patients (db before))) + 1)%Z.

Definition tokens_count_the_queue : Prop :=
  forall (arrivals : list Registration) (schedule : list nat) (w : World)
         (before after : World),
    In (before, after)
       (moves (interleave schedule (map register_patient_task arrivals) w)) ->
    next_in_queue before after.

(** Two receptionists of hospital 1 register a patient each for General at
    the same time: both registrations arrive, both count, both store. *)
Module Overlap.
Definition start : World := Sample.world Sample.db0 Sample.anonymous [].
Definition registrations : list Registration :=
  [Sample.registration 1 "Deepa"; Sample.registration 1 "Esha"].
Definition in_turn : list nat := [0; 1; 0; 1; 0; 1]%nat.
Definition run : list World :=
  interleave in_turn (map register_patient_task registrations) start.
Definition esha : Patient.t := Sample.patient 21 1 3 "Esha" "General" Sample.noon.
End Overlap.

(** The text contains, in whatever case, one of the keywords of C8. *)
Definition mentions_lab_keyword (prescription : string) : Prop :=
  exists keyword before after,
    In keyword ["test"; "lab"; "cbc"; "blood"; "urine"; "x-ray"; "scan";
                "profile"; "panel"] /\
    toLowerCase prescription = (before ++ keyword ++ after)%string.

(** The number of the local calendar day an instant falls on. *)
Definition calendar_day (tz : Z) (t : Date) : Z := ((t + tz) / msPerDay)%Z.

Definition pending_of (id : ObjectId) (x : LabTest.t) : bool :=
  match LabTest.patientId x with
  | Some p => (p =? id)%nat
  | None => false
  end && (LabTest.status x =? "pending").

(** [x] is a pending test of patient [id] ordered on calendar day [day]. *)
Definition pending_on (tz : Z) (id : ObjectId) (day : Z) (x : LabTest.t) : bool :=
  pending_of id x && (calendar_day tz (LabTest.orderedAt x) =? day)%Z.

(** The same, ordered on calendar day [day] or on a later one. *)
Definition pending_from (tz : Z) (id : ObjectId) (day : Z) (x : LabTest.t)
    : bool :=
  pending_of id x && (day <=? calendar_day tz (LabTest.orderedAt x))%Z.

(** A test that 'update-prescription' created. *)
Definition auto_created (x : LabTest.t) : bool :=
  match LabTest.testName x with
  | Some n => n =? "Lab Test Request (from Prescription)"
  | None => false
  end.

(** The reading of the end of C8: in every world the server can reach, a
    patient has at most one auto-created pending test per day. *)
Definition one_auto_pending_per_day : Prop :=
  forall tz generateHospitalPassword verifyHospitalPassword hashPassword
         comparePassword w,
    reachable tz generateHospitalPassword verifyHospitalPassword hashPassword
              comparePassword w ->
    forall id day,
      (List.length (filter (fun x => auto_created x && pending_on tz id day x)
                           (labTests (db w))) <= 1)%nat.

(** The reading of C8 for events that overlap: whenever 'update-prescription'
    events, however they take their turns, store a test, the patient had no
    pending test of that day just before. *)
Definition requests_only_when_none_pending : Prop :=
  forall (tz : Z) (events : list (ObjectId * string)) (schedule : list nat)
         (w before after : World),
    In (before, after)
       (moves (interleave schedule
                 (map (fun e => update_prescription_task tz (fst e) (snd e))
                      events) w)) ->
    forall x id,
      labTests (db after) = labTests (db before) ++ [x] ->
      LabTest.patientId x = Some id ->
      existsb (pending_on tz id (calendar_day tz (LabTest.orderedAt x)))
              (labTests (db before)) = false.

(** A test is completed, a second one is requested, and the first is set
    back to 'pending'; all on one day, one request after the other. *)
Module Relapse.
Definition arrivals : list Request :=
  [RegisterPatient (Sample.registration 1 "Deepa");
   UpdatePrescription 1 "CBC";
   PostLabProcess 2 "completed" None;
   UpdatePrescription 1 "repeat the CBC";
   PostLabProcess 2 "pending" None].
Definition finish : World :=
  fold_left (fun w r => Sample.handle (Sample.from_anyone r) w) arrivals
            (Sample.world empty_db Sample.anonymous []).
End Relapse.

(** Two doctors send a prescription for Asha at the same time: both events
    arrive, both store the text, both look for a pending test, both create
    one. *)
Module Twice.
Definition start : World := Sample.world Sample.db0 (Sample.staff 3 1) [].
Definition events : list (ObjectId * string) :=
  [(11, "CBC and urine test"); (11, "repeat the blood panel")].
Definition in_turn : list nat := [0; 1; 0; 1; 0; 1; 0; 1]%nat.
Definition run : list World :=
  interleave in_turn
    (map (fun e => update_prescription_task 0 (fst e) (snd e)) events) start.
Definition second : LabTest.t :=
  new_lab_test 1 11 "Lab Test Request (from Prescription)" "Doctor"
               Sample.noon 21.
End Twice.

(** [l'] is [l] with the document stored under [id] replaced by [a'];
    every other document is as it was, in its place. *)
Definition replaced {A} (id_of : A -> ObjectId) (id : ObjectId) (a' : A)
    (l l' : list A) : Prop :=
  Forall2 (fun a b => if (id_of a =? id)%nat then b = a' else b = a) l l'.

(** * Properties *)

Unset Implicit Arguments.

Lemma skipn_length_app {A} (l r : list A) : skipn (List.length l) (l ++ r) = r.
Proof. induction l; simpl; auto. Qed.

(** Run a handler by unfolding the monad and the model calls. *)
Ltac run :=
  cbv beta iota delta
    [bind try_catch ret throw emit db_call db_read new_Date randomBytes
     get_session put_session planned_fault
     Patient_countDocuments Patient_findOne Patient_findById
     Patient_find_page Patient_find_recent Patient_create Patient_save
     Patient_findByIdAndUpdate_prescription
     LabTest_findOne_pending LabTest_create LabTest_findByIdAndUpdate
     LabResult_deleteMany LabResult_insertMany PrescriptionTemplate_findOne
     Hospital_find Hospital_findOne_email Hospital_findById Hospital_create
     Hospital_findByIdAndUpdate User_create User_findOne
     User_findByIdAndUpdate generatePublicToken];
  cbn [fst snd db session now ticks rng rng_pos emitted faults
       set_db set_session set_clock set_rng_pos set_emitted set_faults
       hospitals users patients labTests labResults nextId
       with_patients with_labTests with_labResults tl hd].

(** ** Token assignment at registration *)

Lemma countDocuments_app q l p :
  Patient.countDocuments q (l ++ [p]) =
  (Patient.countDocuments q l + (if Patient.matches q p then 1 else 0))%nat.
Proof.
  unfold Patient.countDocuments, Patient.find.
  rewrite filter_app, length_app. simpl.
  destruct (Patient.matches q p); reflexivity.
Qed.

(** Run the turns of a handler in flight. *)
Ltac turns := repeat (progress (cbn [take alone fst snd]; run)).

(** Taken turn by turn without another handler in between,
    'register-patient' is the handler run in one go. *)
Lemma register_patient_alone (data : Registration) (w : World) :
  alone (register_patient_task data) w = snd (on_register_patient data w).
Proof.
  unfold register_patient_task, on_register_patient, registration_error.
  destruct (name_missing (r_name data)); turns; [reflexivity|].
  destruct (faults w) as [|[m1|] [|[m2|] rest]]; turns; reflexivity.
Qed.

(** C3, amended.  A registration takes three turns: it arrives, it counts
    the patients of its queue, and it stores the new patient; other handlers
    may run in between, so the turns start from worlds [w0], [w1] and [w2]
    that need not follow from each other.  When the sender is told that the
    patient [p] is registered, the token of [p] is the number counted in the
    second turn plus one, and the third turn stored [p] as one new patient, by
    which the count of the queue grew by one.  If the queue had as many
    patients when [p] was stored as when they were counted, the token is the
    number of patients the queue had just before, plus one; for a
    registration that runs alone it always is. *)
Theorem register_patient_token_from_count (data : Registration) (p : Patient.t) :
  let q := queue_query (hospital_of data) (department_of data) in
  (forall w0 w1 w2 : World,
     let arrived := take (register_patient_task data) w0 in
     let counted := take (fst arrived) w1 in
     let stored := take (fst counted) w2 in
     In (emit_of ToSender "patient-registered" (PatientDoc p))
        (new_events w2 (snd stored)) ->
     Patient.token p =
       Some (Z.of_nat (Patient.countDocuments q (patients (db w1))) + 1)%Z /\
     patients (db (snd stored)) = patients (db w2) ++ [p] /\
     Patient.countDocuments q (patients (db (snd stored))) =
       S (Patient.countDocuments q (patients (db w2))) /\
     (Patient.countDocuments q (patients (db w2)) =
      Patient.countDocuments q (patients (db w1)) ->
      Patient.token p =
        Some (Z.of_nat (Patient.countDocuments q (patients (db w2))) + 1)%Z) /\
     db (snd arrived) = db w0 /\ db (snd counted) = db w1) /\
  (forall w : World,
     let w' := alone (register_patient_task data) w in
     In (emit_of ToSender "patient-registered" (PatientDoc p))
        (new_events w w') ->
     Patient.token p =
       Some (Z.of_nat (Patient.countDocuments q (patients (db w))) + 1)%Z /\
     patients (db w') = patients (db w) ++ [p] /\
     Patient.countDocuments q (patients (db w')) =
       S (Patient.countDocuments q (patients (db w)))).
Proof.
  intros q. subst q. split.
  - intros w0 w1 w2 arrived counted stored. subst arrived counted stored.
    unfold register_patient_task, registration_error, new_events.
    fold (department_of data). fold (hospital_of data).
    fold (queue_query (hospital_of data) (department_of data)).
    destruct (name_missing (r_name data)); turns.
    + rewrite skipn_all. intros [].
    + destruct (faults w1) as [|[m1|] r1]; turns;
        try (rewrite skipn_all; intros []).
      all: destruct (faults w2) as [|[m2|] r2]; turns;
        repeat rewrite <- app_assoc; rewrite skipn_length_app; simpl;
        intros H; repeat (destruct H as [H|H]); try discriminate H;
        try contradiction; injection H as <-;
        cbn [Patient.token];
        (split; [reflexivity|]); (split; [reflexivity|]);
        rewrite countDocuments_app;
        unfold queue_query, Patient.matches, Patient.opt_test; simpl;
        rewrite Nat.eqb_refl, String.eqb_refl; simpl;
        (split; [lia|]); (split; [intros ->; reflexivity|]);
        split; reflexivity.
  - intros w w'. subst w'. rewrite register_patient_alone.
    unfold on_register_patient, new_events.
    fold (department_of data). fold (hospital_of data).
    fold (queue_query (hospital_of data) (department_of data)).
    destruct (name_missing (r_name data)); run;
      [ rewrite skipn_length_app; simpl; intros [H|[]]; discriminate H | ].
    destruct (faults w) as [|[m1|] [|[m2|] rest]]; run;
      repeat rewrite <- app_assoc; rewrite skipn_length_app; simpl;
      intros H; repeat (destruct H as [H|H]); try discriminate H;
      try contradiction; injection H as <-;
      cbn [Patient.token]; (split; [reflexivity|]); (split; [reflexivity|]);
      rewrite countDocuments_app;
      unfold queue_query, Patient.matches, Patient.opt_test; simpl;
      rewrite Nat.eqb_refl, String.eqb_refl; simpl; lia.
Qed.

(** A registration with a name and no database fault does succeed. *)
Lemma register_patient_succeeds (data : Registration) (w : World) :
  name_missing (r_name data) = false ->
  faults w = [] ->
  exists p,
    In (emit_of ToSender "patient-registered" (PatientDoc p))
       (new_events w (snd (on_register_patient data w))).
Proof.
  intros Hn Hf. unfold on_register_patient, new_events. rewrite Hn.
  run. rewrite Hf. run. repeat rewrite <- app_assoc.
  rewrite skipn_length_app. eexists. simpl. do 3 right. left. reflexivity.
Qed.

Lemma register_patient_token_from_count_witness :
  Patient.token Overlap.esha = Some 3%Z /\
  patients (db (nth 6 Overlap.run Overlap.start)) =
    patients (db (nth 5 Overlap.run Overlap.start)) ++ [Overlap.esha].
Proof.
  assert (H := proj1 (register_patient_token_from_count
                        (Sample.registration 1 "Esha") Overlap.esha)
                 (nth 1 Overlap.run Overlap.start)
                 (nth 3 Overlap.run Overlap.start)
                 (nth 5 Overlap.run Overlap.start)).
  cbv zeta in H.
  assert (Hev : In (emit_of ToSender "patient-registered"
                      (PatientDoc Overlap.esha))
                   (new_events (nth 5 Overlap.run Overlap.start)
                      (snd (take (fst (take (fst (take
                         (register_patient_task (Sample.registration 1 "Esha"))
                         (nth 1 Overlap.run Overlap.start)))
                         (nth 3 Overlap.run Overlap.start)))
                         (nth 5 Overlap.run Overlap.start))))).
  { vm_compute. do 3 right. left. reflexivity. }
  destruct (H Hev) as [Ht [Hp _]].
  split; [exact Ht|].
  vm_compute. reflexivity.
Defined.

(** C3 as stated fails.  When two registrations for the same queue overlap,
    both count the two patients that are there and both store their patient
    with token 3: the second one is stored when the queue already holds three
    patients. *)
Lemma overlapping_registrations_share_a_token :
  map Patient.token (patients (db (last Overlap.run Overlap.start))) =
    [Some 1%Z; Some 2%Z; Some 1%Z; Some 3%Z; Some 3%Z] /\
  ~ tokens_count_the_queue.
Proof.
  split; [vm_compute; reflexivity|].
  intros H.
  specialize (H Overlap.registrations Overlap.in_turn Overlap.start
                (nth 5 Overlap.run Overlap.start)
                (nth 6 Overlap.run Overlap.start)).
  assert (Hin : In (nth 5 Overlap.run Overlap.start,
                    nth 6 Overlap.run Overlap.start)
                   (moves (interleave Overlap.in_turn
                             (map register_patient_task Overlap.registrations)
                             Overlap.start))).
  { vm_compute. do 5 right. left. reflexivity. }
  assert (Hp : patients (db (nth 6 Overlap.run Overlap.start)) =
               patients (db (nth 5 Overlap.run Overlap.start)) ++ [Overlap.esha]).
  { vm_compute. reflexivity. }
  specialize (H Hin Overlap.esha Hp).
  vm_compute in H. discriminate H.
Qed.

(** ** Lab test status is whatever the client sends *)

Section CollectionFacts.
Variable A : Type.
Variable id_of : A -> ObjectId.

Lemma find_update_by_id (f : A -> A) (id : ObjectId) (l : list A) :
  (forall a, id_of (f a) = id_of a) ->
  find_by_id id_of id (update_by_id id_of id f l) =
  option_map f (find_by_id id_of id l).
Proof.
  intros Hid. unfold find_by_id. induction l as [|a r IH]; simpl; auto.
  destruct (id_of a =? id)%nat eqn:E; simpl.
  - rewrite Hid, E. reflexivity.
  - rewrite E. exact IH.
Qed.

End CollectionFacts.

Lemma LabTest_apply_id u x : LabTest._id (LabTest.apply u x) = LabTest._id x.
Proof. reflexivity. Qed.

(** C2. Whatever status string [s] the client sends and whatever the test's
    current status is, /process answers success and leaves the test with
    status [s]; /sample does the same with sampleStatus.  Nothing depends on
    the old status. *)
Theorem lab_status_direct_assignment (w : World) (id : ObjectId) (s : string)
    (machineId rejectionReason : option string) (t : LabTest.t) :
  planned_fault w = None ->
  find_by_id LabTest._id id (labTests (db w)) = Some t ->
  (exists t',
     fst (post_lab_process id s machineId w) = Ok (json Success) /\
     find_by_id LabTest._id id
       (labTests (db (snd (post_lab_process id s machineId w)))) = Some t' /\
     LabTest.status t' = s /\
     LabTest.sampleStatus t' = LabTest.sampleStatus t) /\
  (exists t',
     fst (post_lab_sample id s rejectionReason w) = Ok (json Success) /\
     find_by_id LabTest._id id
       (labTests (db (snd (post_lab_sample id s rejectionReason w)))) = Some t' /\
     LabTest.sampleStatus t' = s /\
     LabTest.status t' = LabTest.status t).
Proof.
  intros Hf Ht. split.
  - unfold post_lab_process. run.
    unfold planned_fault in Hf. rewrite Hf.
    match goal with |- context [update_by_id _ _ (LabTest.apply ?u) _] =>
      exists (LabTest.apply u t) end.
    run. rewrite find_update_by_id by apply LabTest_apply_id. rewrite Ht.
    repeat split.
    + destruct (s =? "in_progress"); [reflexivity|].
      destruct (s =? "completed"); reflexivity.
    + destruct (s =? "in_progress"); [reflexivity|].
      destruct (s =? "completed"); reflexivity.
  - unfold post_lab_sample. run.
    unfold planned_fault in Hf. rewrite Hf.
    match goal with |- context [update_by_id _ _ (LabTest.apply ?u) _] =>
      exists (LabTest.apply u t) end.
    run. rewrite find_update_by_id by apply LabTest_apply_id. rewrite Ht.
    repeat split.
Qed.

Lemma lab_status_direct_assignment_witness :
  (exists t',
     fst (post_lab_process 15 "pending" None
            (Sample.world Sample.db1 (Sample.staff 3 1) [])) = Ok (json Success) /\
     find_by_id LabTest._id 15
       (labTests (db (snd (post_lab_process 15 "pending" None
            (Sample.world Sample.db1 (Sample.staff 3 1) []))))) = Some t' /\
     LabTest.status t' = "pending" /\
     LabTest.sampleStatus t' = "collected") /\
  (exists t',
     fst (post_lab_sample 15 "pending" None
            (Sample.world Sample.db1 (Sample.staff 3 1) [])) = Ok (json Success) /\
     find_by_id LabTest._id 15
       (labTests (db (snd (post_lab_sample 15 "pending" None
            (Sample.world Sample.db1 (Sample.staff 3 1) []))))) = Some t' /\
     LabTest.sampleStatus t' = "pending" /\
     LabTest.status t' = "completed").
Proof.
  apply (lab_status_direct_assignment
           (Sample.world Sample.db1 (Sample.staff 3 1) []) 15 "pending"
           None None Sample.cbc).
  - reflexivity.
  - reflexivity.
Defined.

(** ** Invariants of the database across handlers *)

Section Preservation.
Variable I : DB -> Prop.

Lemma preserves_ret {A} (a : A) : preserves I (ret a).
Proof. intros w H; exact H. Qed.

Lemma preserves_throw {A} msg : preserves I (@throw A msg).
Proof. intros w H; exact H. Qed.

Lemma preserves_bind {A B} (m : M A) (k : A -> M B) :
  preserves I m -> (forall a, preserves I (k a)) -> preserves I (bind m k).
Proof.
  intros Hm Hk w H. unfold bind. specialize (Hm w H).
  destruct (m w) as [[a|msg] w1]; simpl in *; auto. apply Hk; exact Hm.
Qed.

Lemma preserves_try_catch {A} (m : M A) (h : string -> M A) :
  preserves I m -> (forall msg, preserves I (h msg)) ->
  preserves I (try_catch m h).
Proof.
  intros Hm Hh w H. unfold try_catch. specialize (Hm w H).
  destruct (m w) as [[a|msg] w1]; simpl in *; auto. apply Hh; exact Hm.
Qed.

Lemma preserves_db_call {A} (f : DB -> Outcome A * DB) :
  (forall d, I d -> I (snd (f d))) -> preserves I (db_call f).
Proof.
  intros Hf w H. unfold db_call.
  destruct (planned_fault w); simpl; auto.
  specialize (Hf (db w) H). destruct (f (db w)); simpl in *; exact Hf.
Qed.

Lemma preserves_db_read {A} (f : DB -> A) : preserves I (db_read f).
Proof. apply preserves_db_call. intros d H; exact H. Qed.

Lemma preserves_new_Date : preserves I new_Date.
Proof. intros w H; exact H. Qed.

Lemma preserves_randomBytes n : preserves I (randomBytes n).
Proof. intros w H; exact H. Qed.

Lemma preserves_emit t e p : preserves I (emit t e p).
Proof. intros w H; exact H. Qed.

Lemma preserves_get_session : preserves I get_session.
Proof. intros w H; exact H. Qed.

Lemma preserves_put_session s : preserves I (put_session s).
Proof. intros w H; exact H. Qed.
End Preservation.

(** Break a handler into its calls; what is left are the database writes. *)
Ltac split_handler :=
  repeat first
    [ apply preserves_ret | apply preserves_throw | apply preserves_new_Date
    | apply preserves_randomBytes | apply preserves_emit
    | apply preserves_get_session | apply preserves_put_session
    | apply preserves_db_read
    | apply preserves_bind; [|intros]
    | apply preserves_try_catch; [|intros]
    | match goal with
      | |- preserves _ (match ?x with _ => _ end) => destruct x
      | |- preserves _ (let (_, _) := ?x in _) => destruct x
      end ].

(** ** Unique usernames within a hospital *)

Lemma key_taken_In h n l :
  User.key_taken h n l = true <-> In (h, n) (map User.key l).
Proof.
  unfold User.key_taken. rewrite existsb_exists, in_map_iff.
  split; intros [u [H1 H2]]; exists u.
  - unfold User.same_key in H2. apply andb_true_iff in H2 as [Hh Hn].
    apply Nat.eqb_eq in Hh. apply String.eqb_eq in Hn.
    split; [unfold User.key; congruence | exact H1].
  - unfold User.key in H1. injection H1 as Hh Hn. split; [exact H2|].
    unfold User.same_key. rewrite Hh, Hn, Nat.eqb_refl, String.eqb_refl.
    reflexivity.
Qed.

Lemma User_insert_unique u l :
  unique_usernames l -> unique_usernames (snd (User_insert u l)).
Proof.
  unfold User_insert, unique_usernames. intros H.
  destruct (_ || _); simpl; auto.
  destruct (User.key_taken _ _ l) eqn:E; simpl; auto.
  rewrite map_app. simpl.
  apply NoDup_app; [exact H | repeat constructor; auto | ].
  intros k Hk [<-|[]].
  apply key_taken_In in Hk. unfold User.key in Hk; simpl in Hk. congruence.
Qed.

Lemma update_by_id_keys id t l :
  map User.key (update_by_id User._id id (User.set_lastLogin t) l) =
  map User.key l.
Proof.
  induction l as [|u r IH]; simpl; auto.
  destruct (User._id u =? id)%nat; simpl; [reflexivity | now rewrite IH].
Qed.

Section ServerFacts.
Variable tz : Z.
Variable generateHospitalPassword : ObjectId -> string.
Variable verifyHospitalPassword : ObjectId -> string -> bool.
Variable hashPassword : string -> string.
Variable comparePassword : string -> string -> bool.

Local Abbreviation dispatch :=
  (dispatch tz generateHospitalPassword verifyHospitalPassword hashPassword
            comparePassword).
Local Abbreviation serve :=
  (serve tz generateHospitalPassword verifyHospitalPassword hashPassword
         comparePassword).
Local Abbreviation reachable :=
  (reachable tz generateHospitalPassword verifyHospitalPassword hashPassword
             comparePassword).

Lemma dispatch_unique_usernames r :
  preserves (fun d => unique_usernames (users d)) (dispatch r).
Proof.
  destruct r; unfold dispatch, answer, silent;
    unfold post_hospitals_register, post_login, get_patients, get_patient,
      get_export, post_lab_sample, post_lab_process, post_lab_results,
      get_prescription_pdf, on_register_patient, on_move_patient,
      on_update_prescription, on_create_lab_request, generatePublicToken;
    unfold Hospital_find, Hospital_findOne_email, Hospital_findById,
      Hospital_create, Hospital_findByIdAndUpdate, User_create, User_findOne,
      User_findByIdAndUpdate, Patient_countDocuments, Patient_findOne,
      Patient_findById, Patient_find_page, Patient_find_recent,
      Patient_create, Patient_findByIdAndUpdate_prescription, Patient_save,
      LabTest_findOne_pending, LabTest_create, LabTest_findByIdAndUpdate,
      LabResult_deleteMany, LabResult_insertMany,
      PrescriptionTemplate_findOne;
    split_handler; apply preserves_db_call; intros d Hd;
    try solve [cbn;
               repeat match goal with
                      | |- context [if ?b then _ else _] => destruct b
                      end; cbn; exact Hd].
  - (* the admin user of a new hospital *)
    match goal with |- context [User_insert ?u ?l] =>
      pose proof (User_insert_unique u l Hd) as Hu;
      destruct (User_insert u l); exact Hu end.
  - (* lastLogin at login *)
    cbn. unfold unique_usernames in *. rewrite update_by_id_keys. exact Hd.
  - (* a direct User.create *)
    match goal with |- context [User_insert ?u ?l] =>
      pose proof (User_insert_unique u l Hd) as Hu;
      destruct (User_insert u l); exact Hu end.
Qed.

Lemma reachable_unique_usernames w :
  reachable w -> unique_usernames (users (db w)).
Proof.
  induction 1 as [w Hw | w a _ IH].
  - rewrite Hw. constructor.
  - unfold serve. apply dispatch_unique_usernames. exact IH.
Qed.
End ServerFacts.

(** C4. In every world the server can reach, the pairs (hospitalId,
    username) of the stored users are pairwise different; there,
    [User.create] with a pair that is already stored throws and stores
    nothing, while a complete document whose username is only used in other
    hospitals is stored. *)
Theorem username_unique_per_hospital (tz : Z)
    (generateHospitalPassword : ObjectId -> string)
    (verifyHospitalPassword : ObjectId -> string -> bool)
    (hashPassword : string -> string)
    (comparePassword : string -> string -> bool)
    (w : World) (doc : ObjectId -> User.t) :
  reachable tz generateHospitalPassword verifyHospitalPassword hashPassword
            comparePassword w ->
  let u := doc (nextId (db w)) in
  unique_usernames (users (db w)) /\
  (User.key_taken (User.hospitalId u) (User.username u) (users (db w)) = true ->
   (exists msg, fst (User_create doc w) = Throw msg) /\
   users (db (snd (User_create doc w))) = users (db w)) /\
  (planned_fault w = None ->
   User.username u <> "" -> User.role u <> "" -> User.password u <> "" ->
   (forall x, In x (users (db w)) -> User.username x = User.username u ->
              User.hospitalId x <> User.hospitalId u) ->
   fst (User_create doc w) = Ok u /\
   users (db (snd (User_create doc w))) = users (db w) ++ [u]).
Proof.
  intros Hr u. split; [|split].
  - eapply reachable_unique_usernames; eassumption.
  - intros Ht. unfold User_create, db_call.
    destruct (planned_fault w) as [msg|]; simpl.
    + split; [eauto | reflexivity].
    + fold u. unfold User_insert. destruct (_ || _); simpl.
      * split; [eauto | reflexivity].
      * rewrite Ht. simpl. split; [eauto | reflexivity].
  - intros Hf Hn Hro Hp Hother. unfold User_create, db_call. rewrite Hf.
    fold u. unfold User_insert.
    apply String.eqb_neq in Hn, Hro, Hp. rewrite Hn, Hro, Hp. simpl.
    destruct (User.key_taken _ _ _) eqn:E; [|split; reflexivity].
    exfalso. unfold User.key_taken in E. apply existsb_exists in E.
    destruct E as [x [Hx Hk]]. unfold User.same_key in Hk.
    apply andb_true_iff in Hk as [Hh Hu].
    apply Nat.eqb_eq in Hh. apply String.eqb_eq in Hu.
    exact (Hother x Hx Hu Hh).
Qed.

Lemma username_unique_per_hospital_witness :
  unique_usernames (users (db Sample.two_hospitals)) /\
  ((exists msg,
      fst (User_create (fun id => Sample.user id 1 "admin" "doctor" "#pw")
             Sample.two_hospitals) = Throw msg) /\
   users (db (snd (User_create (fun id => Sample.user id 1 "admin" "doctor" "#pw")
                     Sample.two_hospitals))) =
   users (db Sample.two_hospitals)) /\
  fst (User_create (fun id => Sample.user id 7 "admin" "admin" "#pw")
         Sample.two_hospitals) = Ok (Sample.user 5 7 "admin" "admin" "#pw").
Proof.
  assert (Hr : reachable 0 Sample.generateHospitalPassword
                 Sample.verifyHospitalPassword Sample.hashPassword
                 Sample.comparePassword Sample.two_hospitals).
  { unfold Sample.two_hospitals, Sample.handle.
    apply reach_serve. apply reach_serve. apply reach_start. reflexivity. }
  split; [|split].
  - apply (username_unique_per_hospital _ _ _ _ _ Sample.two_hospitals
             (fun id => Sample.user id 1 "admin" "doctor" "#pw") Hr).
  - apply (username_unique_per_hospital _ _ _ _ _ Sample.two_hospitals
             (fun id => Sample.user id 1 "admin" "doctor" "#pw") Hr).
    reflexivity.
  - apply (username_unique_per_hospital _ _ _ _ _ Sample.two_hospitals
             (fun id => Sample.user id 7 "admin" "admin" "#pw") Hr);
      try reflexivity; try (simpl; discriminate).
    vm_compute. intros x [<-|[<-|[]]] _; simpl; discriminate.
Defined.

(** ** What a client hears when a socket handler's database call fails *)

(** 'register-patient' reports a failure of either of its two database
    calls to the sender. *)
Lemma register_patient_reports_failure data w msg rest :
  name_missing (r_name data) = false ->
  faults w = Some msg :: rest \/ faults w = None :: Some msg :: rest ->
  new_events w (snd (on_register_patient data w)) =
  [emit_of ToSender "patient-registration-error" (Message msg)].
Proof.
  intros Hn [Hf|Hf]; unfold on_register_patient, new_events; rewrite Hn;
    run; rewrite Hf; run; apply skipn_length_app.
Qed.

(** So does 'create-lab-request'. *)
Lemma create_lab_request_reports_failure id name doctorId w msg rest :
  faults w = Some msg :: rest \/
  (find_by_id Patient._id id (patients (db w)) <> None /\
   faults w = None :: Some msg :: rest) ->
  new_events w (snd (on_create_lab_request id name doctorId w)) =
  [emit_of ToSender "lab-request-created" (LabRequest false None (Some msg))].
Proof.
  intros [Hf|[Hp Hf]]; unfold on_create_lab_request, new_events;
    run; rewrite Hf; run.
  - apply skipn_length_app.
  - destruct (find_by_id Patient._id id (patients (db w))); [|congruence].
    run. apply skipn_length_app.
Qed.

(** C5 fails for two of the four handlers.  When the first database call of
    'move-patient' or of 'update-prescription' throws, the handler emits
    nothing at all: the error only reaches the server's console. *)
Theorem move_patient_failure_is_silent (tz : Z) (w : World) (id : ObjectId)
    (status : option string) (doctorId : option Z)
    (pharmacyState : option string) (prescription msg : string)
    (rest : list (option string)) :
  let failing := set_faults (Some msg :: rest) w in
  new_events failing
    (snd (on_move_patient id status doctorId pharmacyState failing)) = [] /\
  new_events failing
    (snd (on_update_prescription tz id prescription failing)) = [].
Proof.
  unfold on_move_patient, on_update_prescription, new_events. run.
  split; apply skipn_all.
Qed.

(** ** Saving lab results is not atomic *)

Lemma of_test_deleteMany id l :
  LabResult.of_test id (LabResult.deleteMany id l) = [].
Proof.
  unfold LabResult.of_test, LabResult.deleteMany.
  induction l as [|r l IH]; simpl; auto.
  destruct (LabResult.testId r =? id)%nat eqn:E; simpl; auto.
  rewrite E. exact IH.
Qed.

(** C6. Once the delete has gone through, a failure of the insert (an
    invalid result or a database error) or of the status update that follows
    is answered with 500 and the deleted results stay deleted: after a failed
    insert the test has no results at all, after a failed status update it
    has the new ones but is not marked completed. *)
Theorem lab_results_not_atomic (w : World) (testId : ObjectId)
    (results : list LabResult.input) :
  planned_fault w = None ->
  let w' := snd (post_lab_results testId (Some results) w) in
  let r := fst (post_lab_results testId (Some results) w) in
  (insert_invalid results \/ insert_faulty results w ->
   (exists msg, r = Ok (respond 500 (ErrorMsg msg))) /\
   labResults (db w') = LabResult.deleteMany testId (labResults (db w)) /\
   LabResult.of_test testId (labResults (db w')) = [] /\
   labTests (db w') = labTests (db w)) /\
  (update_faulty results w ->
   (exists msg, r = Ok (respond 500 (ErrorMsg msg))) /\
   labResults (db w') =
     LabResult.deleteMany testId (labResults (db w)) ++
     LabResult.docs (nextId (db w)) testId results /\
   labTests (db w') = labTests (db w)).
Proof.
  intros Hf w' r. subst w' r. unfold post_lab_results. split.
  - intros [Hi | [Hv [msg [rest Hr]]]].
    + unfold insert_invalid in Hi. run. unfold planned_fault in Hf.
      rewrite Hf, Hi. run.
      repeat split; eauto using of_test_deleteMany.
    + run. rewrite Hv, Hr. run.
      repeat split; eauto using of_test_deleteMany.
  - intros [Hv [msg [rest Hr]]]. run. rewrite Hv, Hr. run.
    repeat split; eauto.
Qed.

Lemma lab_results_not_atomic_witness :
  (exists msg,
     fst (post_lab_results 15
            (Some [LabResult.mki None (Some "13.9") None None None None])
            (Sample.world Sample.db1 (Sample.staff 3 1) [])) =
     Ok (respond 500 (ErrorMsg msg))) /\
  labResults (db (snd (post_lab_results 15
            (Some [LabResult.mki None (Some "13.9") None None None None])
            (Sample.world Sample.db1 (Sample.staff 3 1) [])))) = [] /\
  labResults Sample.db1 = [Sample.hemoglobin; Sample.platelets].
Proof.
  destruct (lab_results_not_atomic
              (Sample.world Sample.db1 (Sample.staff 3 1) []) 15
              [LabResult.mki None (Some "13.9") None None None None]
              eq_refl) as [H _].
  destruct (H (or_introl eq_refl)) as [Hr [Hd _]].
  split; [exact Hr|]. split; [exact Hd | reflexivity].
Defined.

(** ** Uniqueness constraints of the data model *)

(** C7 as stated fails: the email of a Hospital is declared unique too. *)
Lemma other_unique_constraints_exist : ~ only_user_key_is_unique.
Proof.
  intros H. specialize (H ("Hospital", ["email"])).
  assert (In ("Hospital", ["email"]) (unique_constraints all_schemas)) as Hin
    by (left; reflexivity).
  apply H in Hin. discriminate Hin.
Qed.

(** C7, amended. The schemas declare exactly three uniqueness constraints:
    the email of a Hospital, the pair (hospitalId, username) of a User and the
    hospitalId of a PrescriptionTemplate; [Hospital.create] enforces the first
    one as [User.create] enforces the second. *)
Theorem unique_constraints_are_three :
  unique_constraints all_schemas =
    [("Hospital", ["email"]); user_key_constraint;
     ("PrescriptionTemplate", ["hospitalId"])] /\
  forall (w : World) (doc : ObjectId -> Hospital.t),
    Hospital.email_taken (Hospital.email (doc (nextId (db w))))
                         (hospitals (db w)) = true ->
    (exists msg, fst (Hospital_create doc w) = Throw msg) /\
    hospitals (db (snd (Hospital_create doc w))) = hospitals (db w).
Proof.
  split; [reflexivity|].
  intros w doc Ht. unfold Hospital_create, db_call.
  destruct (planned_fault w); simpl; [split; eauto|].
  destruct (_ || _); simpl; [split; eauto|].
  rewrite Ht. simpl. split; eauto.
Qed.

Lemma unique_constraints_are_three_witness :
  (exists msg,
     fst (Hospital_create
            (fun id => Sample.hospital id "Other Clinic" "city@example.org" "active")
            Sample.two_hospitals) = Throw msg) /\
  hospitals (db (snd (Hospital_create
            (fun id => Sample.hospital id "Other Clinic" "city@example.org" "active")
            Sample.two_hospitals))) = hospitals (db Sample.two_hospitals).
Proof.
  destruct unique_constraints_are_three as [_ H].
  apply (H Sample.two_hospitals
           (fun id => Sample.hospital id "Other Clinic" "city@example.org" "active")).
  reflexivity.
Defined.

(** ** Which patients a session can read *)

Lemma In_insert_desc {A} (key : A -> Z) (a x : A) (l : list A) :
  In x (insert_desc key a l) -> x = a \/ In x l.
Proof.
  induction l as [|b r IH]; simpl.
  - intros [<-|[]]; auto.
  - destruct (key b <? key a)%Z; simpl.
    + intros [<-|[<-|H]]; auto.
    + intros [<-|H]; auto. destruct (IH H); auto.
Qed.

Lemma In_sort_desc {A} (key : A -> Z) (x : A) (l : list A) :
  In x (sort_desc key l) -> In x l.
Proof.
  unfold sort_desc. induction l as [|a r IH]; simpl; auto.
  intros H. apply In_insert_desc in H as [<-|H]; auto.
Qed.

Lemma In_firstn {A} (n : nat) (x : A) (l : list A) :
  In x (firstn n l) -> In x l.
Proof.
  revert l. induction n as [|n IH]; intros [|a l]; simpl; try tauto.
  intros [H|H]; auto.
Qed.

Lemma In_skipn {A} (n : nat) (x : A) (l : list A) :
  In x (skipn n l) -> In x l.
Proof.
  revert l. induction n as [|n IH]; intros [|a l]; simpl; try tauto.
  intros H; right; apply IH; exact H.
Qed.

Lemma In_window {A} (skip limit : Z) (x : A) (l : list A) :
  In x (window skip limit l) -> In x l.
Proof.
  unfold window. intros H.
  destruct (limit =? 0)%Z; [|apply In_firstn in H];
    eapply In_skipn; eassumption.
Qed.

Lemma find_of_hospital q p l :
  In p (Patient.find q l) ->
  forall h, Patient.q_hospitalId q = Some h -> Patient.hospitalId p = h.
Proof.
  unfold Patient.find. intros H h Hq. apply filter_In in H as [_ H].
  unfold Patient.matches in H.
  do 4 (apply andb_true_iff in H as [H _]).
  apply andb_true_iff in H as [_ H]. rewrite Hq in H.
  apply Nat.eqb_eq in H. exact H.
Qed.

(** A session that carries a hospitalId gets only patients of that
    hospital from GET /api/patients. *)
Lemma get_patients_isolated w h phone page limit data total pg pages lim :
  Session.hospitalId (session w) = Some h ->
  fst (get_patients phone page limit w) =
    Ok (json (PatientPage data total pg pages lim)) ->
  forall p, In p data -> Patient.hospitalId p = h.
Proof.
  intros Hs. unfold get_patients. run. rewrite Hs.
  destruct (faults w) as [|[m1|] [|[m2|] rest]]; run;
    try discriminate;
    match goal with |- context [(?s <? 0)%Z] => destruct (s <? 0)%Z end;
    run; try discriminate;
    intros H; injection H as <- _ _ _ _; intros p Hp;
    apply In_window, In_sort_desc in Hp;
    eapply find_of_hospital; eauto.
Qed.

(** And from GET /api/patients/:id. *)
Lemma get_patient_isolated w h id p :
  Session.hospitalId (session w) = Some h ->
  fst (get_patient id w) = Ok (json (OnePatient p)) ->
  Patient.hospitalId p = h.
Proof.
  intros Hs. unfold get_patient. run. rewrite Hs.
  destruct (faults w) as [|[m1|] rest]; run; try discriminate;
    match goal with |- context [Patient.findOne ?q ?l] =>
      destruct (Patient.findOne q l) as [x|] eqn:E end;
    run; try discriminate;
    intros H; injection H as <-;
    apply find_some in E as [_ E];
    unfold Patient.matches in E;
    do 4 (apply andb_true_iff in E as [E _]);
    apply andb_true_iff in E as [_ E]; apply Nat.eqb_eq in E; exact E.
Qed.

(** GET /api/export never looks at the session: its answer is the same
    for every client. *)
Lemma get_export_ignores_session tz type s w :
  fst (get_export tz type (set_session s w)) = fst (get_export tz type w).
Proof. unfold get_export. run. destruct (faults w) as [|[m|] rest]; reflexivity. Qed.

(** C1 fails.  With the patients of two hospitals in the database, a
    session of hospital 1 downloads the patient of hospital 2 through
    GET /api/export, and a client that never logged in lists the patients of
    both hospitals through GET /api/patients and reads any of them through
    GET /api/patients/:id. *)
Theorem export_crosses_tenants :
  Session.hospitalId (Sample.staff 3 1) = Some 1 /\
  Patient.hospitalId Sample.chitra = 2 /\
  fst (get_export 0 (Some "month")
         (Sample.world Sample.db0 (Sample.staff 3 1) [])) =
    Ok (json (Workbook [export_row Sample.chitra; export_row Sample.bala;
                        export_row Sample.asha])) /\
  fst (get_patients None None None
         (Sample.world Sample.db0 Sample.anonymous [])) =
    Ok (json (PatientPage [Sample.chitra; Sample.bala; Sample.asha] 3 1
                          (Some 1%Z) 50)) /\
  fst (get_patient 13 (Sample.world Sample.db0 Sample.anonymous [])) =
    Ok (json (OnePatient Sample.chitra)).
Proof. vm_compute. repeat split. Qed.

(** ** Stepping through a handler *)

Section Stepping.
Context {A : Type}.
Variable Q : Outcome A -> World -> Prop.
Variable w : World.

Lemma wp_ret (a : A) : Q (Ok a) w -> wp (ret a) Q w.
Proof. exact (fun H => H). Qed.

Lemma wp_throw msg : Q (Throw msg) w -> wp (throw msg) Q w.
Proof. exact (fun H => H). Qed.

Lemma wp_bind {B} (m : M B) (k : B -> M A) :
  wp m (fun o w' => match o with
                    | Ok b => wp (k b) Q w'
                    | Throw msg => Q (Throw msg) w'
                    end) w ->
  wp (bind m k) Q w.
Proof. unfold wp, bind. destruct (m w) as [[b|msg] w']; auto. Qed.

Lemma wp_try_catch (m : M A) (h : string -> M A) :
  wp m (fun o w' => match o with
                    | Ok a => Q (Ok a) w'
                    | Throw msg => wp (h msg) Q w'
                    end) w ->
  wp (try_catch m h) Q w.
Proof. unfold wp, try_catch. destruct (m w) as [[b|msg] w']; auto. Qed.

Lemma wp_db_call (f : DB -> Outcome A * DB) :
  (forall msg, planned_fault w = Some msg -> Q (Throw msg) (called w)) ->
  (planned_fault w = None ->
   Q (fst (f (db w))) (set_db (snd (f (db w))) (called w))) ->
  wp (db_call f) Q w.
Proof.
  unfold wp, db_call, called. intros Ht Ho.
  destruct (planned_fault w) as [msg|]; [apply Ht; reflexivity|].
  specialize (Ho eq_refl). destruct (f (db w)); exact Ho.
Qed.

Lemma wp_db_read (f : DB -> A) :
  (forall msg, planned_fault w = Some msg -> Q (Throw msg) (called w)) ->
  (planned_fault w = None -> Q (Ok (f (db w))) (set_db (db w) (called w))) ->
  wp (db_read f) Q w.
Proof. intros Ht Ho. apply wp_db_call; assumption. Qed.
End Stepping.

Lemma wp_new_Date Q w :
  Q (Ok (now w))
    (set_clock (now w + Z.of_nat (hd 0%nat (ticks w)))%Z (tl (ticks w)) w) ->
  wp new_Date Q w.
Proof. exact (fun H => H). Qed.

Lemma wp_emit t e p Q w :
  Q (Ok tt) (set_emitted (emitted w ++ [emit_of t e p]) w) -> wp (emit t e p) Q w.
Proof. exact (fun H => H). Qed.

Lemma wp_get_session Q w : Q (Ok (session w)) w -> wp get_session Q w.
Proof. exact (fun H => H). Qed.

Lemma wp_put_session s Q w : Q (Ok tt) (set_session s w) -> wp (put_session s) Q w.
Proof. exact (fun H => H). Qed.

Lemma wp_randomBytes n Q w :
  Q (Ok (map (rng w) (seq (rng_pos w) n))) (set_rng_pos (rng_pos w + n) w) ->
  wp (randomBytes n) Q w.
Proof. exact (fun H => H). Qed.

Ltac world_simpl :=
  cbn [fst snd db session now ticks rng rng_pos emitted faults called
       set_db set_session set_clock set_rng_pos set_emitted set_faults
       hospitals users patients labTests labResults nextId
       with_patients with_labTests with_labResults] in *.

(** One step of a handler: the next call, a branch, or the end. *)
Ltac step :=
  lazymatch goal with
  | |- wp (bind _ _) _ _ => apply wp_bind
  | |- wp (try_catch _ _) _ _ => apply wp_try_catch
  | |- wp (ret _) _ _ => apply wp_ret
  | |- wp (throw _) _ _ => apply wp_throw
  | |- wp new_Date _ _ => apply wp_new_Date
  | |- wp (emit _ _ _) _ _ => apply wp_emit
  | |- wp get_session _ _ => apply wp_get_session
  | |- wp (put_session _) _ _ => apply wp_put_session
  | |- wp (randomBytes _) _ _ => apply wp_randomBytes
  | |- wp (db_read _) _ _ => apply wp_db_read; [intros ? ?|intros ?]
  | |- wp (db_call _) _ _ => apply wp_db_call; [intros ? ?|intros ?]
  | |- wp (match ?x with _ => _ end) _ _ => destruct x eqn:?
  (* a call whose result depends on a test made inside it *)
  | |- context [fst (if ?b then _ else _)] => destruct b eqn:?
  | |- context [fst (let (_, _) := ?x in _)] => destruct x as [[?|?] ?] eqn:?
  end; cbv beta; cbn match; world_simpl.

Ltac open_calls :=
  unfold Patient_countDocuments, Patient_findOne, Patient_findById,
    Patient_find_page, Patient_find_recent, Patient_create, Patient_save,
    Patient_findByIdAndUpdate_prescription,
    LabTest_findOne_pending, LabTest_create, LabTest_findByIdAndUpdate,
    LabResult_deleteMany, LabResult_insertMany, PrescriptionTemplate_findOne,
    Hospital_find, Hospital_findOne_email, Hospital_findById, Hospital_create,
    Hospital_findByIdAndUpdate, User_create, User_findOne,
    User_findByIdAndUpdate, generatePublicToken.

(** ** Login *)

Section Login.
Variable tz : Z.
Variable generateHospitalPassword : ObjectId -> string.
Variable verifyHospitalPassword : ObjectId -> string -> bool.
Variable hashPassword : string -> string.
Variable comparePassword : string -> string -> bool.

Local Abbreviation first_match := (match_hospital verifyHospitalPassword).
Local Abbreviation login :=
  (post_login verifyHospitalPassword comparePassword).

(** The loop stops at the first hospital, in the order of the list, whose
    password verifies. *)
Lemma match_hospital_first pw before h after :
  (forall x, In x before -> verifyHospitalPassword (Hospital._id x) pw = false) ->
  verifyHospitalPassword (Hospital._id h) pw = true ->
  first_match pw (before ++ h :: after) =
  if Hospital.subscriptionStatus h =? "active" then Matched (Hospital._id h)
  else Expired.
Proof.
  intros Hb Hh. induction before as [|x r IH]; simpl.
  - rewrite Hh. destruct (_ =? _); reflexivity.
  - rewrite (Hb x) by (left; reflexivity). apply IH.
    intros y Hy. apply Hb. right; exact Hy.
Qed.

Lemma or_default_some s : or_default (Some s) "" = s.
Proof.
  unfold or_default. destruct (s =? "") eqn:E; auto.
  apply String.eqb_eq in E. auto.
Qed.

(** Every path of the handler that does not answer with the logged-in
    user leaves the session as it was. *)
Lemma post_login_failure_keeps_session hp un up w :
  wp (login hp un up)
     (fun o w' =>
        session w' = session w \/
        exists id name role h, o = Ok (json (LoggedIn id name role h))) w.
Proof.
  unfold post_login. open_calls. repeat step; eauto 10.
Qed.
End Login.

(** C10. Let [h] be the first hospital, in the order [Hospital.find]
    returns them, whose password verifies.  The loop selects [h]; if its
    subscription is not 'active' the answer is 403 'Subscription expired'
    whatever the username and the user password are, after the single
    database call that read the hospitals, with the session and the database
    untouched.  On every path that does not end in a successful login the
    session is left as it was. *)
Theorem login_expired_subscription
    (verifyHospitalPassword : ObjectId -> string -> bool)
    (comparePassword : string -> string -> bool)
    (w : World) (hospitalPassword username userPassword : string)
    (before after : list Hospital.t) (h : Hospital.t) :
  hospitalPassword <> "" -> username <> "" -> userPassword <> "" ->
  planned_fault w = None ->
  hospitals (db w) = before ++ h :: after ->
  (forall x, In x before ->
             verifyHospitalPassword (Hospital._id x) hospitalPassword = false) ->
  verifyHospitalPassword (Hospital._id h) hospitalPassword = true ->
  let login := post_login verifyHospitalPassword comparePassword in
  match_hospital verifyHospitalPassword hospitalPassword (hospitals (db w)) =
    (if Hospital.subscriptionStatus h =? "active"
     then Matched (Hospital._id h) else Expired) /\
  (Hospital.subscriptionStatus h <> "active" ->
   login (Some hospitalPassword) (Some username) (Some userPassword) w =
     (Ok (respond 403 (Failure "Subscription expired")), called w)) /\
  (forall hp un up w0,
     session (snd (login hp un up w0)) = session w0 \/
     exists id name role hid,
       fst (login hp un up w0) = Ok (json (LoggedIn id name role hid))).
Proof.
  intros Hp Hu Hup Hf Hl Hb Hh login.
  assert (Hm := match_hospital_first verifyHospitalPassword hospitalPassword
                  before h after Hb Hh).
  rewrite <- Hl in Hm. split; [exact Hm|]. split.
  - intros He. apply String.eqb_neq in He, Hp, Hu, Hup.
    rewrite He in Hm. unfold login, post_login, truthy.
    rewrite Hp, Hu, Hup. cbn [negb orb]. rewrite !or_default_some.
    unfold try_catch, bind, Hospital_find, db_read, db_call.
    rewrite Hf, Hm. reflexivity.
  - intros hp un up w0.
    exact (post_login_failure_keeps_session verifyHospitalPassword
             comparePassword hp un up w0).
Qed.

Lemma login_expired_subscription_witness :
  post_login Sample.verifyHospitalPassword Sample.comparePassword
    (Some "other") (Some "reception") (Some "h2")
    (Sample.world Sample.db_lapsed Sample.anonymous []) =
  (Ok (respond 403 (Failure "Subscription expired")),
   Sample.world Sample.db_lapsed Sample.anonymous []).
Proof.
  refine (proj1 (proj2 (login_expired_subscription
            Sample.verifyHospitalPassword Sample.comparePassword
            (Sample.world Sample.db_lapsed Sample.anonymous [])
            "other" "reception" "h2"
            [Sample.hospital 1 "City Clinic" "city@example.org" "active"] []
            Sample.lapsed _ _ _ _ _ _ _)) _);
    try reflexivity; try discriminate.
  intros x [<-|[]]. reflexivity.
Defined.


(** ** The public token of a patient *)

Section UniqueIds.
Variable A : Type.
Variable id_of : A -> ObjectId.

Lemma find_by_id_unique (a : A) (l : list A) :
  NoDup (map id_of l) -> In a l -> find_by_id id_of (id_of a) l = Some a.
Proof.
  unfold find_by_id. induction l as [|b r IH]; simpl; [tauto|].
  intros Hn [<-|Hin].
  - rewrite Nat.eqb_refl. reflexivity.
  - inversion Hn as [|? ? Hb Hr]; subst.
    destruct (id_of b =? id_of a)%nat eqn:E; [|auto].
    apply Nat.eqb_eq in E. exfalso. apply Hb. rewrite E.
    apply in_map. exact Hin.
Qed.

Lemma update_by_id_unique (g : A -> A) (a : A) (l : list A) :
  NoDup (map id_of l) -> In a l ->
  update_by_id id_of (id_of a) (fun _ => g a) l =
  update_by_id id_of (id_of a) g l.
Proof.
  induction l as [|b r IH]; simpl; [tauto|].
  intros Hn Hin. inversion Hn as [|? ? Hb Hr]; subst.
  destruct (id_of b =? id_of a)%nat eqn:E.
  - apply Nat.eqb_eq in E. destruct Hin as [<-|Hin]; [reflexivity|].
    exfalso. apply Hb. rewrite E. apply in_map. exact Hin.
  - destruct Hin as [<-|Hin]; [rewrite Nat.eqb_refl in E; discriminate|].
    f_equal. apply IH; assumption.
Qed.
End UniqueIds.

Lemma findOne_by_id q id p l :
  Patient.q_id q = Some id ->
  Patient.findOne q l = Some p -> In p l /\ Patient._id p = id.
Proof.
  intros Hq H. apply find_some in H as [Hin H]. split; [exact Hin|].
  unfold Patient.matches in H. do 5 (apply andb_true_iff in H as [H _]).
  rewrite Hq in H. simpl in H. apply Nat.eqb_eq in H. exact H.
Qed.

Lemma hex_of_bytes_length bs :
  String.length (hex_of_bytes bs) = (2 * List.length bs)%nat.
Proof. induction bs as [|b r IH]; simpl; [reflexivity | rewrite IH; lia]. Qed.

(** What a GET that answers with the PDF has written: the patient it
    shows, in the place of the one it found. *)
Lemma get_prescription_pdf_database (w : World) (patientId : ObjectId)
    (token : option string) (shown : Patient.t) (portal : option string) :
  NoDup (map Patient._id (patients (db w))) ->
  fst (get_prescription_pdf patientId token w) =
    Ok (json (PrescriptionPdf shown portal)) ->
  let w' := snd (get_prescription_pdf patientId token w) in
  let fresh := hex_of_bytes (map (rng w) (seq (rng_pos w) 32)) in
  exists p,
    find_by_id Patient._id patientId (patients (db w)) = Some p /\
    (truthy (Patient.publicToken p) = false ->
     shown = Patient.set_publicToken (Some fresh) p /\
     String.length fresh = 64%nat /\
     db w' = with_patients
               (update_by_id Patient._id patientId
                  (Patient.set_publicToken (Some fresh)) (patients (db w)))
               (db w) /\
     rng_pos w' = (rng_pos w + 32)%nat) /\
    (truthy (Patient.publicToken p) = true -> shown = p /\ db w' = db w).
Proof.
  intros Hn. intros H w' fresh. revert H. subst w'.
  change (wp (get_prescription_pdf patientId token)
            (fun o w' =>
               o = Ok (json (PrescriptionPdf shown portal)) ->
               exists p,
                 find_by_id Patient._id patientId (patients (db w)) = Some p /\
                 (truthy (Patient.publicToken p) = false ->
                  shown = Patient.set_publicToken (Some fresh) p /\
                  String.length fresh = 64%nat /\
                  db w' = with_patients
                            (update_by_id Patient._id patientId
                               (Patient.set_publicToken (Some fresh))
                               (patients (db w)))
                            (db w) /\
                  rng_pos w' = (rng_pos w + 32)%nat) /\
                 (truthy (Patient.publicToken p) = true ->
                  shown = p /\ db w' = db w)) w).
  unfold get_prescription_pdf. open_calls.
  repeat step; intros Hok; try discriminate Hok.
  all: injection Hok as <- _.
  all: repeat match goal with
         | H : (_, _) = (_, _) |- _ => injection H as ? ?; subst
         | H : inr _ = inr _ |- _ => injection H as ?; subst
         | H : Some _ = Some _ |- _ => injection H as ?; subst
         end.
  all: match goal with
       | H : Patient.findOne ?q _ = Some ?p |- _ =>
           destruct (findOne_by_id q patientId p _ eq_refl H) as [Hin Hid];
           exists p; subst patientId;
           split; [apply find_by_id_unique; assumption|]
       end.
  all: split; intros Ht;
       match goal with
       | H : negb _ = _ |- _ => rewrite Ht in H; try discriminate H
       end.
  all: try (split; reflexivity).
  all: split; [reflexivity|]; split;
       [ subst fresh; rewrite hex_of_bytes_length, length_map, length_seq;
         reflexivity | ].
  all: split; [|reflexivity].
  all: unfold with_patients; f_equal;
       match goal with
       | Hin : In ?p _ |- _ =>
           exact (update_by_id_unique _ Patient._id
                    (Patient.set_publicToken (Some fresh)) p _ Hn Hin)
       end.
Qed.

Lemma replaced_absent {A} (id_of : A -> ObjectId) (id : ObjectId) (a' : A)
    (l : list A) :
  ~ In id (map id_of l) -> replaced id_of id a' l l.
Proof.
  unfold replaced. induction l as [|c r IH]; simpl; intros H; constructor.
  - destruct (id_of c =? id)%nat eqn:E; [|reflexivity].
    exfalso. apply H. left. apply Nat.eqb_eq in E. exact E.
  - apply IH. intros Hc. apply H. right. exact Hc.
Qed.

Lemma replaced_update_by_id {A} (id_of : A -> ObjectId) (f : A -> A) (a : A)
    (l : list A) :
  NoDup (map id_of l) -> In a l ->
  replaced id_of (id_of a) (f a) l (update_by_id id_of (id_of a) f l).
Proof.
  induction l as [|b r IH]; simpl; [tauto|].
  intros Hn Hin. inversion Hn as [|? ? Hb Hr]; subst.
  destruct (id_of b =? id_of a)%nat eqn:E.
  - apply Nat.eqb_eq in E.
    constructor.
    + rewrite E, Nat.eqb_refl. destruct Hin as [->|Hin]; [reflexivity|].
      exfalso. apply Hb. rewrite E. apply in_map. exact Hin.
    + apply replaced_absent. rewrite <- E. exact Hb.
  - constructor; [rewrite E; reflexivity|].
    apply IH; [assumption|]. destruct Hin as [->|Hin]; [|exact Hin].
    rewrite Nat.eqb_refl in E. discriminate E.
Qed.



(** ** Patient ids are a key in every reachable world *)

Lemma update_by_id_ids {A} (id_of : A -> ObjectId) id (f : A -> A) l :
  (forall a, id_of a = id -> id_of (f a) = id) ->
  map id_of (update_by_id id_of id f l) = map id_of l.
Proof.
  intros Hf. induction l as [|a r IH]; simpl; auto.
  destruct (id_of a =? id)%nat eqn:E; simpl; [|now rewrite IH].
  apply Nat.eqb_eq in E. rewrite (Hf a E), E. reflexivity.
Qed.

Lemma patient_ids_update d id f :
  (forall a, Patient._id a = id -> Patient._id (f a) = id) ->
  patient_ids_ok d ->
  patient_ids_ok (with_patients (update_by_id Patient._id id f (patients d)) d).
Proof.
  intros Hf [Hn Hlt]. unfold patient_ids_ok. simpl.
  rewrite (update_by_id_ids Patient._id id f _ Hf). split; [exact Hn|].
  intros p Hp. apply (in_map Patient._id) in Hp.
  rewrite (update_by_id_ids Patient._id id f _ Hf) in Hp.
  apply in_map_iff in Hp as [q [Hq Hin]]. rewrite <- Hq. auto.
Qed.

Lemma patient_ids_later d n :
  (nextId d <= n)%nat -> patient_ids_ok d ->
  forall h u t r,
    patient_ids_ok (mkDB h u (patients d) t r n).
Proof.
  intros Hle [Hn Hlt] h u t r. split; simpl; [exact Hn|].
  intros p Hp. specialize (Hlt p Hp). lia.
Qed.

Lemma patient_ids_create d p :
  Patient._id p = nextId d -> patient_ids_ok d ->
  forall h u t r,
    patient_ids_ok (mkDB h u (patients d ++ [p]) t r (S (nextId d))).
Proof.
  intros Hid [Hn Hlt] h u t r. split; simpl.
  - rewrite map_app. simpl. apply NoDup_app; [exact Hn | repeat constructor; auto |].
    intros k Hk [<-|[]]. apply in_map_iff in Hk as [q [Hq Hin]].
    specialize (Hlt q Hin). lia.
  - intros q Hq. apply in_app_or in Hq as [Hq|[<-|[]]]; [|lia].
    specialize (Hlt q Hq). lia.
Qed.

Section ReachablePatients.
Variable tz : Z.
Variable generateHospitalPassword : ObjectId -> string.
Variable verifyHospitalPassword : ObjectId -> string -> bool.
Variable hashPassword : string -> string.
Variable comparePassword : string -> string -> bool.

Local Abbreviation dispatch' :=
  (dispatch tz generateHospitalPassword verifyHospitalPassword hashPassword
            comparePassword).
Local Abbreviation reachable' :=
  (reachable tz generateHospitalPassword verifyHospitalPassword hashPassword
             comparePassword).

Lemma dispatch_patient_ids r : preserves patient_ids_ok (dispatch' r).
Proof.
  destruct r; unfold dispatch, answer, silent;
    unfold post_hospitals_register, post_login, get_patients, get_patient,
      get_export, post_lab_sample, post_lab_process, post_lab_results,
      get_prescription_pdf, on_register_patient, on_move_patient,
      on_update_prescription, on_create_lab_request;
    open_calls;
    split_handler; apply preserves_db_call; intros d Hd;
    try solve
      [ cbn; repeat match goal with
                    | |- context [if ?b then _ else _] => destruct b
                    | |- context [User_insert ?u ?l] =>
                        destruct (User_insert u l) as [[?|?] ?]
                    end; cbn;
        first [ exact Hd
              | apply patient_ids_later; [lia | exact Hd]
              | apply patient_ids_create; [reflexivity | exact Hd]
              | apply patient_ids_update; [auto | exact Hd] ] ].
Qed.

Lemma reachable_patient_ids w : reachable' w -> patient_ids_ok (db w).
Proof.
  induction 1 as [w Hw | w a _ IH].
  - rewrite Hw. split; [constructor | intros p []].
  - unfold serve. apply dispatch_patient_ids. exact IH.
Qed.
End ReachablePatients.

(** ** Lab requests created from a prescription *)

Lemma startOfDay_le tz t : (startOfDay tz t <= t)%Z.
Proof.
  unfold startOfDay, msPerDay.
  pose proof (Z.mul_div_le (t + tz) 86400000 ltac:(lia)). lia.
Qed.

(** An instant is at or after the local midnight of [today] exactly when
    its calendar day is the day of [today] or a later one. *)
Lemma since_midnight_calendar_day tz t today :
  (startOfDay tz today <=? t)%Z =
  (calendar_day tz today <=? calendar_day tz t)%Z.
Proof.
  unfold startOfDay, calendar_day, msPerDay.
  pose proof (Z.mul_div_le (t + tz) 86400000 ltac:(lia)) as Ht.
  pose proof (Z.mul_succ_div_gt (t + tz) 86400000 ltac:(lia)) as Ht'.
  destruct (Z.leb_spec ((today + tz) / 86400000 * 86400000 - tz) t) as [H|H];
    symmetry.
  - apply Z.leb_le. apply Z.div_le_lower_bound; lia.
  - apply Z.leb_gt. nia.
Qed.

Lemma pending_since_from tz id today x :
  LabTest.pending_since id (startOfDay tz today) "pending" x =
  pending_from tz id (calendar_day tz today) x.
Proof.
  unfold LabTest.pending_since, pending_from, pending_of.
  rewrite since_midnight_calendar_day.
  destruct (LabTest.patientId x) as [p|]; simpl; auto.
  destruct (p =? id)%nat; simpl; auto. apply andb_comm.
Qed.

Lemma find_existsb {A} (f : A -> bool) l :
  existsb f l = match find f l with Some _ => true | None => false end.
Proof. induction l as [|x r IH]; simpl; auto. destruct (f x); auto. Qed.

Lemma existsb_from_on tz id day l :
  (forall x, In x l -> (calendar_day tz (LabTest.orderedAt x) <= day)%Z) ->
  existsb (pending_from tz id day) l = existsb (pending_on tz id day) l.
Proof.
  induction l as [|x r IH]; simpl; auto. intros H.
  rewrite IH by auto. f_equal.
  unfold pending_from, pending_on. f_equal.
  pose proof (H x (or_introl eq_refl)).
  destruct (Z.leb_spec day (calendar_day tz (LabTest.orderedAt x)));
    destruct (Z.eqb_spec (calendar_day tz (LabTest.orderedAt x)) day); lia.
Qed.

Lemma calendar_day_mono tz a b :
  (a <= b)%Z -> (calendar_day tz a <= calendar_day tz b)%Z.
Proof. intros H. unfold calendar_day, msPerDay. apply Z.div_le_mono; lia. Qed.

Lemma no_fault_tl (l : list (option string)) :
  (forall msg, ~ In (Some msg) l) -> forall msg, ~ In (Some msg) (tl l).
Proof. destruct l; simpl; auto. intros H msg Hin. apply (H msg). auto. Qed.

Lemma no_fault_head (l : list (option string)) :
  (forall msg, ~ In (Some msg) l) ->
  match l with Some msg :: _ => Some msg | _ => None end = None.
Proof.
  destruct l as [|[msg|] r]; auto. intros H. exfalso. apply (H msg). left; auto.
Qed.

(** In a calm world no call of the handler under way throws. *)
Ltac calm_faults Hc :=
  repeat match goal with
         | H : planned_fault _ = Some _ |- _ =>
             exfalso; unfold planned_fault in H; world_simpl;
             rewrite no_fault_head in H
               by (repeat apply no_fault_tl; exact Hc);
             discriminate H
         end.

Lemma existsb_pending_from tz id today l :
  existsb (pending_from tz id (calendar_day tz today)) l =
  match find (LabTest.pending_since id (startOfDay tz today) "pending") l with
  | Some _ => true
  | None => false
  end.
Proof.
  rewrite <- find_existsb.
  induction l as [|x r IH]; simpl; auto.
  rewrite IH, pending_since_from. reflexivity.
Qed.

Lemma prefix_app n h :
  prefix n h = true <-> exists b, h = (n ++ b)%string.
Proof.
  revert h. induction n as [|c n IH]; intros h.
  - split; [intros _; exists h; reflexivity | destruct h; reflexivity].
  - destruct h as [|d h]; simpl.
    + split; [discriminate | intros [b Hb]; discriminate Hb].
    + destruct (Ascii.ascii_dec c d) as [->|Hn].
      * rewrite IH. split; intros [b Hb]; exists b; congruence.
      * split; [discriminate | intros [b Hb]; congruence].
Qed.

Lemma includes_app n h :
  includes n h = true <-> exists a b, h = (a ++ n ++ b)%string.
Proof.
  induction h as [|d h IH]; cbn [includes].
  - rewrite orb_false_r. rewrite prefix_app. split.
    + intros [b Hb]. exists "", b. exact Hb.
    + intros [a [b Hb]]. destruct a; simpl in Hb; [eauto | discriminate].
  - rewrite orb_true_iff, IH, prefix_app. split.
    + intros [[b Hb] | [a [b Hb]]].
      * exists "", b. exact Hb.
      * exists (String d a), b. simpl. congruence.
    + intros [a [b Hb]]. destruct a as [|c a]; simpl in Hb.
      * left. eauto.
      * right. exists a, b. congruence.
Qed.

Lemma append_assoc' (a b c : string) :
  ((a ++ b) ++ c = a ++ (b ++ c))%string.
Proof. induction a as [|x a IH]; simpl; [reflexivity | now rewrite IH]. Qed.

Lemma toLowerCase_app a b :
  toLowerCase (a ++ b) = (toLowerCase a ++ toLowerCase b)%string.
Proof. induction a as [|c a IH]; simpl; [reflexivity | now rewrite IH]. Qed.

(** The keyword test of the handler is the containment C8 speaks of. *)
Lemma hasLabRequest_mentions prescription :
  mentions_lab_keyword prescription -> hasLabRequest prescription = true.
Proof.
  intros [k [a [b [Hk Hab]]]]. unfold hasLabRequest.
  rewrite existsb_exists. exists k. split; [exact Hk|].
  apply includes_app. eauto.
Qed.

(** One turn of a handler in flight, as outcome and world of its code. *)
Lemma take_pending (turn : M Task) (w : World) :
  take (Pending turn) w =
  (match fst (turn w) with Ok t => t | Throw _ => Finished end, snd (turn w)).
Proof. simpl. destruct (turn w) as [[t|msg] w']; reflexivity. Qed.

Lemma alone_pending (turn : M Task) (w : World) :
  alone (Pending turn) w =
  match fst (turn w) with
  | Ok t => alone t (snd (turn w))
  | Throw _ => snd (turn w)
  end.
Proof. simpl. destruct (turn w) as [[t|msg] w']; reflexivity. Qed.

(** Taken turn by turn without another handler in between,
    'update-prescription' is the handler run in one go. *)
Lemma update_prescription_alone (tz : Z) (id : ObjectId) (prescription : string)
    (w : World) :
  alone (update_prescription_task tz id prescription) w =
  snd (on_update_prescription tz id prescription w).
Proof.
  unfold update_prescription_task, on_update_prescription, logged,
    prescription_updated.
  destruct w as [d s n k r rp e f].
  destruct (hasLabRequest prescription).
  - destruct f as [|[m1|] [|[m2|] [|[m3|] rest]]]; turns;
      repeat match goal with
             | |- context [find_by_id ?f ?i ?l] =>
                 destruct (find_by_id f i l); turns
             | |- context [find ?f ?l] => destruct (find f l); turns
             end; reflexivity.
  - destruct f as [|[m1|] rest]; turns;
      repeat match goal with
             | |- context [find_by_id ?f ?i ?l] =>
                 destruct (find_by_id f i l); turns
             end; reflexivity.
Qed.




(** ** No test is ordered in the future, in every reachable world *)

Lemma In_update_orderedAt id u x l :
  In x (update_by_id LabTest._id id (LabTest.apply u) l) ->
  exists y, In y l /\ LabTest.orderedAt x = LabTest.orderedAt y.
Proof.
  induction l as [|a r IH]; simpl; [tauto|].
  destruct (LabTest._id a =? id)%nat; simpl.
  - intros [E|H]; [exists a; subst x | exists x]; auto.
  - intros [E|H]; [exists x; auto|].
    destruct (IH H) as [y [Hy E]]. exists y; auto.
Qed.

Ltac not_ahead H :=
  unfold tests_not_ahead; world_simpl;
  repeat match goal with
         | |- context [User_insert ?u ?l] =>
             destruct (User_insert u l) as [[?|?] ?]
         | |- context [if ?b then _ else _] => destruct b
         end;
  world_simpl;
  let x := fresh "x" in
  let Hin := fresh "Hin" in
  intros x Hin;
  try (apply In_update_orderedAt in Hin; destruct Hin as [? [Hin ->]]);
  try (apply in_app_or in Hin; destruct Hin as [Hin|[<-|[]]]);
  try (apply H in Hin); simpl; lia.

Section ReachableTests.
Variable tz : Z.
Variable generateHospitalPassword : ObjectId -> string.
Variable verifyHospitalPassword : ObjectId -> string -> bool.
Variable hashPassword : string -> string.
Variable comparePassword : string -> string -> bool.

Lemma dispatch_tests_not_ahead r w :
  tests_not_ahead w ->
  wp (dispatch tz generateHospitalPassword verifyHospitalPassword hashPassword
               comparePassword r)
     (fun _ w' => tests_not_ahead w') w.
Proof.
  intros H.
  destruct r; unfold dispatch, answer, silent;
    unfold post_hospitals_register, post_login, get_patients, get_patient,
      get_export, post_lab_sample, post_lab_process, post_lab_results,
      get_prescription_pdf, on_register_patient, on_move_patient,
      on_update_prescription, on_create_lab_request;
    open_calls; repeat step; not_ahead H.
Qed.

Lemma reachable_tests_not_ahead w :
  reachable tz generateHospitalPassword verifyHospitalPassword hashPassword
            comparePassword w ->
  tests_not_ahead w.
Proof.
  induction 1 as [w Hw | w a _ IH].
  - unfold tests_not_ahead. rewrite Hw. intros x [].
  - unfold serve. apply dispatch_tests_not_ahead.
    intros x Hx. specialize (IH x Hx). simpl. lia.
Qed.
End ReachableTests.

(** * More properties of the handlers *)

Lemma wp_run {A} (m : M A) (Q : Outcome A -> World -> Prop) (w : World) :
  wp m Q w -> Q (fst (m w)) (snd (m w)).
Proof. exact (fun H => H). Qed.

(** Step through a handler to its ends, local definitions included. *)
Ltac steps := repeat first [step | progress cbv zeta].

(** Close the cases in which the first database call throws although no
    fault is planned for it. *)
Ltac first_call_ok :=
  try (exfalso; unfold planned_fault in *; world_simpl; congruence).

(** State the goal about [fst (m w)] and [snd (m w)] as a [wp]. *)
Ltac to_wp :=
  match goal with
  | |- context [fst (?m ?w)] =>
      pattern (fst (m w)), (snd (m w)); apply (wp_run m _ w)
  | |- context [snd (?m ?w)] =>
      pattern (fst (m w)), (snd (m w)); apply (wp_run m _ w)
  end.

(** ** Registration of a hospital *)

Lemma truthy_some s : s <> "" -> truthy (Some s) = true.
Proof. intros H. unfold truthy. apply String.eqb_neq in H. now rewrite H. Qed.

Lemma form_complete_filled name email phone address username password aemail :
  name <> "" -> email <> "" -> username <> "" -> password <> "" ->
  form_complete (hospital_form name email phone address)
                (admin_form username password aemail) = true.
Proof.
  intros. unfold form_complete, hospital_form, admin_form.
  cbn [hf_name hf_email af_username af_password].
  rewrite !truthy_some by assumption. reflexivity.
Qed.

Lemma email_taken_find e l :
  Hospital.email_taken e l = true ->
  exists h, find (fun h => Hospital.email h =? e) l = Some h.
Proof.
  unfold Hospital.email_taken. induction l as [|a r IH]; simpl; [discriminate|].
  destruct (Hospital.email a =? e); simpl; eauto.
Qed.

Lemma email_free_find e l :
  Hospital.email_taken e l = false ->
  find (fun h => Hospital.email h =? e) l = None.
Proof.
  unfold Hospital.email_taken. induction l as [|a r IH]; simpl; auto.
  destruct (Hospital.email a =? e); simpl; [discriminate | auto].
Qed.

Lemma User_insert_fresh u l :
  User.username u <> "" -> User.role u <> "" -> User.password u <> "" ->
  (forall x, In x l -> User.hospitalId x <> User.hospitalId u) ->
  User_insert u l = (Ok u, l ++ [u]).
Proof.
  intros Hn Hr Hp Hx. unfold User_insert.
  apply String.eqb_neq in Hn, Hr, Hp. rewrite Hn, Hr, Hp. cbn [orb].
  destruct (User.key_taken _ _ l) eqn:E; [|reflexivity].
  exfalso. unfold User.key_taken in E. apply existsb_exists in E.
  destruct E as [x [Hin Hk]]. unfold User.same_key in Hk.
  apply andb_true_iff in Hk as [Hk _]. apply Nat.eqb_eq in Hk.
  exact (Hx x Hin Hk).
Qed.

Section Registration.
Variable generateHospitalPassword : ObjectId -> string.
Variable hashPassword : string -> string.

Local Abbreviation register :=
  (post_hospitals_register generateHospitalPassword hashPassword).

(** X1. Registering a hospital under an email that a stored hospital
    already has is answered with 400 'Hospital email already registered'
    after the one look-up, and nothing is written. *)
Theorem register_duplicate_email (w : World) (name email username password : string)
    (phone address aemail : option string) :
  name <> "" -> email <> "" -> username <> "" -> password <> "" ->
  planned_fault w = None ->
  Hospital.email_taken email (hospitals (db w)) = true ->
  register (hospital_form name email phone address)
           (admin_form username password aemail) w =
  (Ok (respond 400 (Failure "Hospital email already registered")), called w).
Proof.
  intros Hn He Hu Hp Hf Ht.
  pose proof (form_complete_filled name email phone address username password
                aemail Hn He Hu Hp) as Hc.
  unfold post_hospitals_register.
  unfold hospital_form, admin_form in *. rewrite Hc. cbn [negb].
  cbn [hf_email]. rewrite or_default_some.
  destruct (email_taken_find _ _ Ht) as [h Hh].
  unfold try_catch, bind, Hospital_findOne_email, db_read, db_call.
  rewrite Hf, Hh. reflexivity.
Qed.

(** X2. With the four required fields filled in, an email no stored
    hospital has and a database that does not fail, registration stores one
    new hospital, active and with a trial of 30 days from now, and one new
    user: the administrator of that hospital, with the hashed password.  The
    answer carries the hospital's id and its generated password. *)
Theorem register_creates_hospital_and_admin (w : World)
    (name email username password : string)
    (phone address aemail : option string) :
  name <> "" -> email <> "" -> username <> "" -> password <> "" ->
  hashPassword password <> "" ->
  calm w ->
  Hospital.email_taken email (hospitals (db w)) = false ->
  (forall u, In u (users (db w)) -> User.hospitalId u <> nextId (db w)) ->
  let id := nextId (db w) in
  let run := register (hospital_form name email phone address)
                      (admin_form username password aemail) w in
  fst run = Ok (json (Registered id (generateHospitalPassword id))) /\
  (exists h,
     hospitals (db (snd run)) = hospitals (db w) ++ [h] /\
     Hospital._id h = id /\ Hospital.name h = name /\
     Hospital.email h = email /\
     Hospital.subscriptionStatus h = "active" /\
     Hospital.subscriptionExpiry h = Some (now w + 30 * msPerDay)%Z) /\
  (exists u,
     users (db (snd run)) = users (db w) ++ [u] /\
     User.hospitalId u = id /\ User.username u = username /\
     User.role u = "admin" /\ User.password u = hashPassword password).
Proof.
  intros Hn He Hu Hp Hh Hc Hfree Hnew id run. subst id run.
  pose proof (form_complete_filled name email phone address username password
                aemail Hn He Hu Hp) as Hform.
  to_wp. unfold post_hospitals_register.
  unfold hospital_form, admin_form in *. rewrite Hform. cbn [negb].
  cbn [hf_email hf_name hf_phone hf_address af_username af_password af_email].
  rewrite !or_default_some. unfold calm in Hc. open_calls.
  repeat step; calm_faults Hc.
  - rewrite (email_free_find _ _ Hfree) in Heqo. discriminate Heqo.
  - cbn [Hospital.name Hospital.email] in Heqb.
    apply String.eqb_neq in Hn, He. rewrite Hn, He in Heqb. discriminate Heqb.
  - cbn [Hospital.email] in *. congruence.
  - rewrite User_insert_fresh in Heqp by (cbn; auto; discriminate).
    injection Heqp as <- <-. cbn.
    split; [reflexivity|]. split; eexists; (split; [reflexivity|]); auto.
  - rewrite User_insert_fresh in Heqp by (cbn; auto; discriminate).
    discriminate Heqp.
Qed.

(** X3. Registration is two writes without a transaction: when the
    database fails on the second one, the answer is 500 but the hospital
    stays stored without any user, and its email is taken from then on. *)
Theorem register_leaves_hospital_without_admin (w : World)
    (name email username password msg : string)
    (phone address aemail : option string) (rest : list (option string)) :
  name <> "" -> email <> "" -> username <> "" -> password <> "" ->
  faults w = None :: None :: Some msg :: rest ->
  Hospital.email_taken email (hospitals (db w)) = false ->
  let run := register (hospital_form name email phone address)
                      (admin_form username password aemail) w in
  fst run = Ok (respond 500 (Failure ("Failed to register: " ++ msg)%string)) /\
  users (db (snd run)) = users (db w) /\
  (exists h, hospitals (db (snd run)) = hospitals (db w) ++ [h] /\
             Hospital.email h = email) /\
  Hospital.email_taken email (hospitals (db (snd run))) = true.
Proof.
  intros Hn He Hu Hp Hf Hfree run. subst run.
  pose proof (form_complete_filled name email phone address username password
                aemail Hn He Hu Hp) as Hform.
  to_wp. unfold post_hospitals_register.
  unfold hospital_form, admin_form in *. rewrite Hform. cbn [negb].
  cbn [hf_email hf_name hf_phone hf_address af_username af_password af_email].
  rewrite !or_default_some. open_calls.
  repeat step;
    repeat match goal with
           | H : planned_fault _ = _ |- _ =>
               unfold planned_fault in H; world_simpl; rewrite Hf in H;
               cbn [tl] in H; try discriminate H
           end.
  - rewrite (email_free_find _ _ Hfree) in Heqo. discriminate Heqo.
  - cbn [Hospital.name Hospital.email] in Heqb.
    apply String.eqb_neq in Hn, He. rewrite Hn, He in Heqb. discriminate Heqb.
  - cbn [Hospital.email] in *. congruence.
  - match goal with H : Some _ = Some _ |- _ => injection H as <- end.
    split; [reflexivity|]. split; [reflexivity|].
    split; [eexists; split; reflexivity|].
    unfold Hospital.email_taken. rewrite existsb_app. cbn.
    rewrite String.eqb_refl. apply orb_true_r.
Qed.
End Registration.

(** ** Logging in *)

Section LoggingIn.
Variable verifyHospitalPassword : ObjectId -> string -> bool.
Variable comparePassword : string -> string -> bool.

Local Abbreviation login :=
  (post_login verifyHospitalPassword comparePassword).

(** What a successful login answers and writes, in terms of the update
    handed to [findByIdAndUpdate]. *)
Lemma post_login_database (w : World) (hospitalPassword username userPassword : string)
    (before after : list Hospital.t) (h : Hospital.t) (u : User.t) :
  hospitalPassword <> "" -> username <> "" -> userPassword <> "" ->
  calm w ->
  hospitals (db w) = before ++ h :: after ->
  (forall x, In x before ->
             verifyHospitalPassword (Hospital._id x) hospitalPassword = false) ->
  verifyHospitalPassword (Hospital._id h) hospitalPassword = true ->
  Hospital.subscriptionStatus h = "active" ->
  User.findOne (Hospital._id h) username (users (db w)) = Some u ->
  comparePassword userPassword (User.password u) = true ->
  let run := login (Some hospitalPassword) (Some username) (Some userPassword) w in
  fst run = Ok (json (LoggedIn (User._id u) (User.username u) (User.role u)
                               (Hospital._id h))) /\
  session (snd run) =
    Session.mk (Some (User._id u)) (Some (Hospital._id h))
               (Some (User.username u)) (Some (User.role u)) /\
  users (db (snd run)) =
    update_by_id User._id (User._id u) (User.set_lastLogin (Some (now w)))
                 (users (db w)) /\
  hospitals (db (snd run)) =
    update_by_id Hospital._id (Hospital._id h)
      (Hospital.set_lastLogin (Some (now w + Z.of_nat (hd 0%nat (ticks w)))%Z))
      (hospitals (db w)) /\
  patients (db (snd run)) = patients (db w) /\
  labTests (db (snd run)) = labTests (db w) /\
  labResults (db (snd run)) = labResults (db w).
Proof.
  intros Hp Hu Hup Hc Hl Hb Hh Ha Hfind Hcmp run. subst run.
  assert (Hm := match_hospital_first verifyHospitalPassword hospitalPassword
                  before h after Hb Hh).
  rewrite <- Hl, Ha in Hm. cbn in Hm.
  to_wp. unfold post_login, truthy.
  apply String.eqb_neq in Hp, Hu, Hup. rewrite Hp, Hu, Hup. cbn [negb orb].
  rewrite !or_default_some. unfold calm in Hc. open_calls.
  repeat step; calm_faults Hc; try discriminate Hm;
    injection Hm as ->;
    match goal with
    | H : User.findOne _ _ _ = _ |- _ => rewrite Hfind in H;
        try discriminate H; injection H as <-
    end.
  - rewrite Hcmp in *. discriminate.
  - repeat split.
Qed.

(** X4. With the password of an active hospital (the first one it
    verifies for), the name of a user of that hospital and that user's
    password, and a database that does not fail, the login succeeds: the
    session holds the user's id, the hospital's id, the username and the
    role.  The user stored under that id now has the time of the login as
    last login, and so has the hospital (read from the clock a second time);
    their other fields, every other user and hospital, and the other
    collections are as before.  (Ids are keys of the users and of the
    hospitals.) *)
Theorem login_success (w : World) (hospitalPassword username userPassword : string)
    (before after : list Hospital.t) (h : Hospital.t) (u : User.t) :
  hospitalPassword <> "" -> username <> "" -> userPassword <> "" ->
  calm w ->
  NoDup (map User._id (users (db w))) ->
  NoDup (map Hospital._id (hospitals (db w))) ->
  hospitals (db w) = before ++ h :: after ->
  (forall x, In x before ->
             verifyHospitalPassword (Hospital._id x) hospitalPassword = false) ->
  verifyHospitalPassword (Hospital._id h) hospitalPassword = true ->
  Hospital.subscriptionStatus h = "active" ->
  User.findOne (Hospital._id h) username (users (db w)) = Some u ->
  comparePassword userPassword (User.password u) = true ->
  let run := login (Some hospitalPassword) (Some username) (Some userPassword) w in
  fst run = Ok (json (LoggedIn (User._id u) (User.username u) (User.role u)
                               (Hospital._id h))) /\
  session (snd run) =
    Session.mk (Some (User._id u)) (Some (Hospital._id h))
               (Some (User.username u)) (Some (User.role u)) /\
  (exists u',
     find_by_id User._id (User._id u) (users (db (snd run))) = Some u' /\
     User.lastLogin u' = Some (now w) /\
     (User._id u' = User._id u /\
      User.hospitalId u' = User.hospitalId u /\
      User.username u' = User.username u /\
      User.email u' = User.email u /\
      User.role u' = User.role u /\
      User.password u' = User.password u /\
      User.createdAt u' = User.createdAt u) /\
     replaced User._id (User._id u) u' (users (db w)) (users (db (snd run)))) /\
  (exists h',
     find_by_id Hospital._id (Hospital._id h) (hospitals (db (snd run))) =
       Some h' /\
     Hospital.lastLogin h' = Some (now w + Z.of_nat (hd 0%nat (ticks w)))%Z /\
     (Hospital._id h' = Hospital._id h /\
      Hospital.name h' = Hospital.name h /\
      Hospital.email h' = Hospital.email h /\
      Hospital.phone h' = Hospital.phone h /\
      Hospital.address h' = Hospital.address h /\
      Hospital.subscriptionStatus h' = Hospital.subscriptionStatus h /\
      Hospital.subscriptionExpiry h' = Hospital.subscriptionExpiry h /\
      Hospital.createdAt h' = Hospital.createdAt h) /\
     replaced Hospital._id (Hospital._id h) h' (hospitals (db w))
              (hospitals (db (snd run)))) /\
  patients (db (snd run)) = patients (db w) /\
  labTests (db (snd run)) = labTests (db w) /\
  labResults (db (snd run)) = labResults (db w).
Proof.
  intros Hp Hu Hup Hc Hnu Hnh Hl Hb Hh Ha Hfind Hcmp run.
  destruct (post_login_database w hospitalPassword username userPassword
              before after h u Hp Hu Hup Hc Hl Hb Hh Ha Hfind Hcmp)
    as [Hr [Hs [Husers [Hhosp [Hpat [Hlt Hlr]]]]]].
  fold run in Hr, Hs, Husers, Hhosp, Hpat, Hlt, Hlr.
  assert (Hinu : In u (users (db w))).
  { unfold User.findOne in Hfind. apply find_some in Hfind. tauto. }
  assert (Hinh : In h (hospitals (db w))).
  { rewrite Hl. apply in_or_app. right. left. reflexivity. }
  split; [exact Hr|]. split; [exact Hs|].
  split; [|split; [|repeat split; assumption]].
  - exists (User.set_lastLogin (Some (now w)) u).
    rewrite Husers. split; [|split; [reflexivity|split; [repeat split|]]].
    + rewrite find_update_by_id by reflexivity.
      rewrite (find_by_id_unique _ User._id u _ Hnu Hinu). reflexivity.
    + apply (replaced_update_by_id User._id
               (User.set_lastLogin (Some (now w))) u _ Hnu Hinu).
  - exists (Hospital.set_lastLogin
              (Some (now w + Z.of_nat (hd 0%nat (ticks w)))%Z) h).
    rewrite Hhosp. split; [|split; [reflexivity|split; [repeat split|]]].
    + rewrite find_update_by_id by reflexivity.
      rewrite (find_by_id_unique _ Hospital._id h _ Hnh Hinh). reflexivity.
    + apply (replaced_update_by_id Hospital._id
               (Hospital.set_lastLogin
                  (Some (now w + Z.of_nat (hd 0%nat (ticks w)))%Z)) h _ Hnh Hinh).
Qed.

(** X5. For the password of an active hospital, a username that hospital
    does not have and a wrong password for a username it has get the very
    same answer, 401 'Invalid username or password', and neither changes the
    database or the session. *)
Theorem login_rejection_is_uniform (w : World)
    (hospitalPassword username userPassword : string)
    (before after : list Hospital.t) (h : Hospital.t) :
  hospitalPassword <> "" -> username <> "" -> userPassword <> "" ->
  calm w ->
  hospitals (db w) = before ++ h :: after ->
  (forall x, In x before ->
             verifyHospitalPassword (Hospital._id x) hospitalPassword = false) ->
  verifyHospitalPassword (Hospital._id h) hospitalPassword = true ->
  Hospital.subscriptionStatus h = "active" ->
  (User.findOne (Hospital._id h) username (users (db w)) = None \/
   exists u, User.findOne (Hospital._id h) username (users (db w)) = Some u /\
             comparePassword userPassword (User.password u) = false) ->
  let run := login (Some hospitalPassword) (Some username) (Some userPassword) w in
  fst run = Ok (respond 401 (Failure "Invalid username or password")) /\
  db (snd run) = db w /\ session (snd run) = session w.
Proof.
  intros Hp Hu Hup Hc Hl Hb Hh Ha Hcase run. subst run.
  assert (Hm := match_hospital_first verifyHospitalPassword hospitalPassword
                  before h after Hb Hh).
  rewrite <- Hl, Ha in Hm. cbn in Hm.
  to_wp. unfold post_login, truthy.
  apply String.eqb_neq in Hp, Hu, Hup. rewrite Hp, Hu, Hup. cbn [negb orb].
  rewrite !or_default_some. unfold calm in Hc. open_calls.
  repeat step; calm_faults Hc; try discriminate Hm;
    injection Hm as ->;
    try (repeat split; fail);
    destruct Hcase as [Hnone | [u [Hsome Hcmp]]];
    match goal with
    | H : User.findOne _ _ _ = _ |- _ =>
        first [ rewrite Hnone in H; discriminate H
              | rewrite Hsome in H; injection H as <-;
                rewrite Hcmp in *; discriminate ]
    end.
Qed.
End LoggingIn.

(** ** Listing patients page by page *)

Section SortDesc.
Variable A : Type.
Variable key : A -> Z.

Lemma insert_desc_perm a l : Permutation (insert_desc key a l) (a :: l).
Proof.
  induction l as [|b r IH]; simpl; auto.
  destruct (key b <? key a)%Z; auto.
  rewrite IH. apply perm_swap.
Qed.

Lemma sort_desc_perm l : Permutation (sort_desc key l) l.
Proof.
  unfold sort_desc. induction l as [|a r IH]; simpl; auto.
  rewrite insert_desc_perm. auto.
Qed.

Lemma insert_desc_sorted a l :
  StronglySorted (fun x y => (key y <= key x)%Z) l ->
  StronglySorted (fun x y => (key y <= key x)%Z) (insert_desc key a l).
Proof.
  induction 1 as [|b r Hr IH Hb]; simpl.
  - repeat constructor.
  - destruct (key b <? key a)%Z eqn:E.
    + apply Z.ltb_lt in E. constructor; [constructor; assumption|].
      constructor; [lia|]. rewrite Forall_forall in *.
      intros y Hy. specialize (Hb y Hy). lia.
    + apply Z.ltb_ge in E. constructor; [exact IH|].
      rewrite Forall_forall in *. intros y Hy.
      apply (Permutation_in _ (insert_desc_perm a r)) in Hy.
      destruct Hy as [<-|Hy]; auto.
Qed.

Lemma sort_desc_sorted l :
  StronglySorted (fun x y => (key y <= key x)%Z) (sort_desc key l).
Proof.
  unfold sort_desc. induction l as [|a r IH]; simpl.
  - constructor.
  - apply insert_desc_sorted. exact IH.
Qed.
End SortDesc.

Lemma StronglySorted_skipn {A} (R : A -> A -> Prop) n l :
  StronglySorted R l -> StronglySorted R (skipn n l).
Proof.
  revert l. induction n as [|n IH]; intros l H; simpl; auto.
  destruct l as [|a r]; auto. apply IH. inversion H; assumption.
Qed.

Lemma StronglySorted_firstn {A} (R : A -> A -> Prop) n l :
  StronglySorted R l -> StronglySorted R (firstn n l).
Proof.
  revert l. induction n as [|n IH]; intros l H; simpl; [constructor|].
  destruct l as [|a r]; [constructor|]. inversion H as [|? ? Hr Ha]; subst.
  constructor; [apply IH; exact Hr|].
  rewrite Forall_forall in *. intros y Hy. apply Ha.
  eapply In_firstn; eassumption.
Qed.

Lemma StronglySorted_impl {A} (R S : A -> A -> Prop) l :
  (forall a b, R a b -> S a b) -> StronglySorted R l -> StronglySorted S l.
Proof.
  intros HRS. induction 1 as [|a r Hr IH Ha]; constructor; auto.
  rewrite Forall_forall in *. auto.
Qed.

Lemma StronglySorted_window {A} (R : A -> A -> Prop) skip limit l :
  StronglySorted R l -> StronglySorted R (window skip limit l).
Proof.
  intros H. unfold window. destruct (limit =? 0)%Z.
  - apply StronglySorted_skipn; exact H.
  - apply StronglySorted_firstn, StronglySorted_skipn; exact H.
Qed.

Lemma window_length {A} skip limit (l : list A) :
  limit <> 0%Z -> (Z.of_nat (List.length (window skip limit l)) <= Z.abs limit)%Z.
Proof.
  intros H. unfold window. apply Z.eqb_neq in H. rewrite H.
  rewrite length_firstn. lia.
Qed.

(** X6. A page of GET /api/patients shows patients that match the query
    of the session, newest first (by [_id], descending) and, for a limit
    other than 0, no more of them than the limit; the total it reports is the
    number of all matching patients, whatever the page. *)
Theorem get_patients_page (w : World) (phone : option string)
    (page limit : option Z) (data : list Patient.t) (total : nat)
    (pg lim : Z) (pages : option Z) :
  fst (get_patients phone page limit w) =
    Ok (json (PatientPage data total pg pages lim)) ->
  let q := listing_query (session w) phone in
  StronglySorted (fun a b => (Patient._id b <= Patient._id a)%nat) data /\
  (forall p, In p data -> In p (patients (db w)) /\ Patient.matches q p = true) /\
  (lim <> 0%Z -> (Z.of_nat (List.length data) <= Z.abs lim)%Z) /\
  total = Patient.countDocuments q (patients (db w)).
Proof.
  intros H q. subst q. revert H. to_wp. unfold get_patients, listing_query.
  open_calls. repeat step; intros Hok; try discriminate Hok.
  injection Hok as <- <- _ _ <-.
  split; [|split; [|split]].
  - apply StronglySorted_window.
    eapply StronglySorted_impl; [|apply sort_desc_sorted].
    cbv beta. intros a b Hab. lia.
  - intros p Hp. apply In_window, In_sort_desc in Hp.
    unfold Patient.find in Hp. apply filter_In in Hp. exact Hp.
  - apply window_length.
  - reflexivity.
Qed.

Lemma firstn_add_skipn {A} (a b : nat) (l : list A) :
  firstn (a + b) l = firstn a l ++ firstn b (skipn a l).
Proof.
  revert l. induction a as [|a IH]; intros l; simpl; auto.
  destruct l as [|x r]; simpl.
  - now rewrite firstn_nil.
  - now rewrite IH.
Qed.

Lemma pages_concat {A} (n m : nat) (l : list A) :
  List.concat (map (fun k => firstn n (skipn (k * n) l)) (seq 0 m)) =
  firstn (m * n) l.
Proof.
  induction m as [|m IH]; [reflexivity|].
  rewrite seq_S, map_app, concat_app, IH. cbn [map List.concat Nat.add].
  rewrite app_nil_r. cbn [Nat.mul].
  rewrite (Nat.add_comm n (m * n)). symmetry. apply firstn_add_skipn.
Qed.

Lemma page_data_window (w : World) (phone : option string) (k n : nat) :
  calm w -> (0 < n)%nat ->
  page_data phone (Z.of_nat k + 1) (Z.of_nat n) w =
  firstn n (skipn (k * n)
              (sort_desc (fun p => Z.of_nat (Patient._id p))
                 (Patient.find (listing_query (session w) phone)
                               (patients (db w))))).
Proof.
  intros Hc Hn. unfold page_data. to_wp. unfold get_patients, listing_query.
  unfold calm in Hc. open_calls. repeat step; calm_faults Hc.
  - apply Z.ltb_lt in Heqb. nia.
  - unfold window.
    replace (Z.of_nat k + 1 - 1)%Z with (Z.of_nat k) by lia.
    rewrite <- Nat2Z.inj_mul, Nat2Z.id.
    destruct (Z.of_nat n =? 0)%Z eqn:E; [apply Z.eqb_eq in E; lia|].
    rewrite Z.abs_eq by lia. rewrite Nat2Z.id. reflexivity.
Qed.

(** X7. With a positive limit and a database that does not fail or
    change, the pages 1, 2, ..., m of GET /api/patients put one after the
    other are the first m times limit matching patients in listing order,
    without gap or repetition; once m times limit reaches the number of
    matching patients they are all of them. *)
Theorem get_patients_pages_cover (w : World) (phone : option string)
    (limit m : nat) :
  calm w -> (0 < limit)%nat ->
  let all := sort_desc (fun p => Z.of_nat (Patient._id p))
               (Patient.find (listing_query (session w) phone)
                             (patients (db w))) in
  let pages := map (fun k => page_data phone (Z.of_nat k + 1) (Z.of_nat limit) w)
                   (seq 0 m) in
  List.concat pages = firstn (m * limit) all /\
  ((List.length all <= m * limit)%nat ->
   List.concat pages = all /\
   Permutation (List.concat pages)
     (Patient.find (listing_query (session w) phone) (patients (db w)))).
Proof.
  intros Hc Hn all pages.
  assert (Hp : List.concat pages = firstn (m * limit) all).
  { subst pages. rewrite <- pages_concat. f_equal.
    apply map_ext. intros k. apply page_data_window; assumption. }
  split; [exact Hp|]. intros Hlen.
  rewrite Hp, firstn_all2 by exact Hlen.
  split; [reflexivity | apply sort_desc_perm].
Qed.

(** ** Socket events about a patient *)

Lemma update_by_id_missing {A} (id_of : A -> ObjectId) (f : A -> A) id l :
  find_by_id id_of id l = None -> update_by_id id_of id f l = l.
Proof.
  unfold find_by_id. induction l as [|a r IH]; simpl; auto.
  destruct (id_of a =? id)%nat; [discriminate|].
  intros H. now rewrite IH.
Qed.

Lemma find_by_id_id {A} (id_of : A -> ObjectId) id l a :
  find_by_id id_of id l = Some a -> id_of a = id.
Proof.
  unfold find_by_id. intros H. apply find_some in H as [_ H].
  apply Nat.eqb_eq in H. exact H.
Qed.

(** X8. 'move-patient' and 'update-prescription' for an id that no
    patient has change nothing in the database and emit nothing, whether the
    database fails or not. *)
Theorem unknown_patient_is_ignored (tz : Z) (w : World) (id : ObjectId)
    (status pharmacyState : option string) (doctorId : option Z)
    (prescription : string) :
  find_by_id Patient._id id (patients (db w)) = None ->
  let moved := snd (on_move_patient id status doctorId pharmacyState w) in
  let updated := snd (on_update_prescription tz id prescription w) in
  (db moved = db w /\ emitted moved = emitted w) /\
  (db updated = db w /\ emitted updated = emitted w).
Proof.
  intros Hnone moved updated. subst moved updated. split.
  - to_wp. unfold on_move_patient. open_calls.
    repeat step; try (split; reflexivity); congruence.
  - to_wp. unfold on_update_prescription. open_calls.
    repeat step; try (split; reflexivity);
      rewrite ?(update_by_id_missing Patient._id _ id _ Hnone) in *;
      try congruence.
    destruct (db w); split; reflexivity.
Qed.

(** X9. 'move-patient' for a stored patient, on a database that does not
    fail: the status, the doctor and the pharmacy state are replaced by the
    values sent that are truthy and kept otherwise, nothing else of the
    patient changes, the patient is stored and is sent to everyone as
    'patient-updated' and to the rooms doctors, reception and pharmacy as
    'queue-updated'. *)
Theorem move_patient_moves (w : World) (id : ObjectId)
    (status pharmacyState : option string) (doctorId : option Z)
    (p : Patient.t) :
  calm w ->
  find_by_id Patient._id id (patients (db w)) = Some p ->
  let w' := snd (on_move_patient id status doctorId pharmacyState w) in
  exists p',
    Patient.status p' = (if truthy status then status else Patient.status p) /\
    Patient.doctorId p' =
      (match doctorId with
       | Some z => if (z =? 0)%Z then Patient.doctorId p else Some z
       | None => Patient.doctorId p
       end) /\
    Patient.pharmacyState p' =
      (if truthy pharmacyState then pharmacyState else Patient.pharmacyState p) /\
    Patient.set_pharmacyState (Patient.pharmacyState p)
      (Patient.set_doctorId (Patient.doctorId p)
         (Patient.set_status (Patient.status p) p')) = p /\
    db w' = with_patients
              (update_by_id Patient._id id (fun _ => p') (patients (db w)))
              (db w) /\
    emitted w' =
      emitted w ++
      [emit_of ToAll "patient-updated" (PatientDoc p');
       emit_of (ToRoom "doctors") "queue-updated" (QueuePatient p');
       emit_of (ToRoom "reception") "queue-updated" (QueuePatient p');
       emit_of (ToRoom "pharmacy") "queue-updated" (QueuePatient p')].
Proof.
  intros Hc Hp w'. subst w'. to_wp. unfold on_move_patient.
  pose proof (find_by_id_id Patient._id id _ p Hp) as Hid.
  unfold calm in Hc. open_calls. repeat step; calm_faults Hc;
    try congruence.
  injection Hp as ->.
  match goal with |- context [PatientDoc ?q] => exists q end.
  unfold requested_doctor.
  destruct doctorId as [z|]; [destruct (z =? 0)%Z|];
    destruct (truthy pharmacyState); destruct (truthy status);
    cbn [Patient.set_status Patient.set_doctorId Patient.set_pharmacyState
         Patient.status Patient.doctorId Patient.pharmacyState Patient._id];
    rewrite Hid; repeat rewrite <- app_assoc;
    (repeat split; try reflexivity); destruct p; reflexivity.
Qed.

(** X10. 'create-lab-request' for an id that no patient has tells the
    sender so ('lab-request-created' with success false and 'Patient not
    found') and creates nothing. *)
Theorem create_lab_request_unknown_patient (w : World) (patientId : ObjectId)
    (testName : option string) (doctorId : Js) :
  planned_fault w = None ->
  find_by_id Patient._id patientId (patients (db w)) = None ->
  let w' := snd (on_create_lab_request patientId testName doctorId w) in
  db w' = db w /\
  emitted w' =
    emitted w ++
    [emit_of ToSender "lab-request-created"
             (LabRequest false None (Some "Patient not found"))].
Proof.
  intros Hf Hp w'. subst w'. to_wp. unfold on_create_lab_request.
  open_calls. repeat step; try congruence. split; reflexivity.
Qed.

(** X11. 'create-lab-request' for a stored patient, on a database that
    does not fail, appends one test: pending, of normal priority, for that
    patient, in the patient's hospital, ordered now, named as asked or
    'Manual Lab Request'.  The lab room gets 'lab-update' and the sender the
    id of the new test. *)
Theorem create_lab_request_creates (w : World) (patientId : ObjectId)
    (testName : option string) (doctorId : Js) (p : Patient.t) :
  calm w ->
  find_by_id Patient._id patientId (patients (db w)) = Some p ->
  let w' := snd (on_create_lab_request patientId testName doctorId w) in
  exists x,
    labTests (db w') = labTests (db w) ++ [x] /\
    LabTest._id x = nextId (db w) /\
    LabTest.hospitalId x = Patient.hospitalId p /\
    LabTest.patientId x = Some patientId /\
    LabTest.testName x = Some (or_default testName "Manual Lab Request") /\
    LabTest.status x = "pending" /\
    LabTest.sampleStatus x = "pending" /\
    LabTest.priority x = "normal" /\
    LabTest.orderedAt x = now w /\
    patients (db w') = patients (db w) /\
    emitted w' =
      emitted w ++
      [emit_of (ToRoom "lab") "lab-update" NoPayload;
       emit_of ToSender "lab-request-created"
               (LabRequest true (Some (nextId (db w))) None)].
Proof.
  intros Hc Hp w'. subst w'. to_wp. unfold on_create_lab_request.
  unfold calm in Hc. open_calls. repeat step; calm_faults Hc; try congruence.
  injection Hp as ->.
  eexists. repeat split. repeat rewrite <- app_assoc. reflexivity.
Qed.

(** What 'update-prescription' writes and emits for a text without a lab
    keyword, in terms of the update handed to [findByIdAndUpdate]. *)
Lemma update_prescription_database (tz : Z) (w : World) (id : ObjectId)
    (prescription : string) (p : Patient.t) :
  hasLabRequest prescription = false ->
  planned_fault w = None ->
  find_by_id Patient._id id (patients (db w)) = Some p ->
  let w' := snd (on_update_prescription tz id prescription w) in
  let p' := Patient.set_prescription (Some prescription) p in
  db w' = with_patients
            (update_by_id Patient._id id
               (Patient.set_prescription (Some prescription)) (patients (db w)))
            (db w) /\
  find_by_id Patient._id id (patients (db w')) = Some p' /\
  labTests (db w') = labTests (db w) /\
  emitted w' =
    emitted w ++
    [emit_of (ToRoom "doctors") "prescription-updated" (PatientDoc p');
     emit_of (ToRoom "reception") "prescription-updated" (PatientDoc p');
     emit_of ToSender "prescription-updated" (PatientDoc p')].
Proof.
  intros Hk Hf Hp w' p'. subst w' p'. to_wp. unfold on_update_prescription.
  rewrite Hk. open_calls.
  repeat step; try congruence;
    rewrite find_update_by_id in * by reflexivity; rewrite Hp in *;
    try discriminate.
  cbn [option_map] in *. injection Heqo as <-.
  repeat split. repeat rewrite <- app_assoc. reflexivity.
Qed.

Lemma find_update_by_id_other {A} (id_of : A -> ObjectId) (f : A -> A)
    (id other : ObjectId) (l : list A) :
  (forall a, id_of (f a) = id_of a) -> other <> id ->
  find_by_id id_of other (update_by_id id_of id f l) = find_by_id id_of other l.
Proof.
  intros Hid Hne. unfold find_by_id.
  induction l as [|a r IH]; simpl; [reflexivity|].
  destruct (id_of a =? id)%nat eqn:E; simpl.
  - rewrite Hid. apply Nat.eqb_eq in E.
    destruct (Nat.eqb_spec (id_of a) other); [congruence | reflexivity].
  - rewrite IH. reflexivity.
Qed.

(** X12. 'update-prescription' with a text that mentions no lab keyword,
    for a stored patient: afterwards the patient stored under that id has the
    text as prescription and every other field as before; the other patients
    and the other collections are as before, so no lab test is created; and
    the patient as updated goes to the rooms doctors and reception and to the
    sender as 'prescription-updated'. *)
Theorem update_prescription_without_keyword (tz : Z) (w : World) (id : ObjectId)
    (prescription : string) (p : Patient.t) :
  hasLabRequest prescription = false ->
  planned_fault w = None ->
  find_by_id Patient._id id (patients (db w)) = Some p ->
  let w' := snd (on_update_prescription tz id prescription w) in
  exists p',
    find_by_id Patient._id id (patients (db w')) = Some p' /\
    Patient.prescription p' = Some prescription /\
    (Patient._id p' = Patient._id p /\
     Patient.hospitalId p' = Patient.hospitalId p /\
     Patient.token p' = Patient.token p /\
     Patient.publicToken p' = Patient.publicToken p /\
     Patient.name p' = Patient.name p /\
     Patient.age p' = Patient.age p /\
     Patient.gender p' = Patient.gender p /\
     Patient.phone p' = Patient.phone p /\
     Patient.address p' = Patient.address p /\
     Patient.bloodGroup p' = Patient.bloodGroup p /\
     Patient.emergencyContact p' = Patient.emergencyContact p /\
     Patient.emergencyPhone p' = Patient.emergencyPhone p /\
     Patient.insuranceId p' = Patient.insuranceId p /\
     Patient.medicalHistory p' = Patient.medicalHistory p /\
     Patient.allergies p' = Patient.allergies p /\
     Patient.chronicConditions p' = Patient.chronicConditions p /\
     Patient.patientType p' = Patient.patientType p /\
     Patient.opdIpd p' = Patient.opdIpd p /\
     Patient.department p' = Patient.department p /\
     Patient.doctorId p' = Patient.doctorId p /\
     Patient.reason p' = Patient.reason p /\
     Patient.status p' = Patient.status p /\
     Patient.registeredAt p' = Patient.registeredAt p /\
     Patient.appointmentDate p' = Patient.appointmentDate p /\
     Patient.vitals p' = Patient.vitals p /\
     Patient.diagnosis p' = Patient.diagnosis p /\
     Patient.pharmacyState p' = Patient.pharmacyState p /\
     Patient.history p' = Patient.history p /\
     Patient.cost p' = Patient.cost p /\
     Patient.reports p' = Patient.reports p) /\
    (forall other, other <> id ->
       find_by_id Patient._id other (patients (db w')) =
       find_by_id Patient._id other (patients (db w))) /\
    (NoDup (map Patient._id (patients (db w))) ->
     replaced Patient._id id p' (patients (db w)) (patients (db w'))) /\
    hospitals (db w') = hospitals (db w) /\
    users (db w') = users (db w) /\
    labTests (db w') = labTests (db w) /\
    labResults (db w') = labResults (db w) /\
    emitted w' =
      emitted w ++
      [emit_of (ToRoom "doctors") "prescription-updated" (PatientDoc p');
       emit_of (ToRoom "reception") "prescription-updated" (PatientDoc p');
       emit_of ToSender "prescription-updated" (PatientDoc p')].
Proof.
  intros Hk Hf Hp w'.
  destruct (update_prescription_database tz w id prescription p Hk Hf Hp)
    as [Hdb [Hfind [Hlt He]]].
  fold w' in Hdb, Hfind, Hlt, He.
  exists (Patient.set_prescription (Some prescription) p).
  split; [exact Hfind|]. split; [reflexivity|]. split; [repeat split|].
  rewrite Hdb. cbn [patients hospitals users labTests labResults with_patients].
  split; [|split; [|repeat split; try reflexivity; exact He]].
  - intros other Hne. apply find_update_by_id_other; [reflexivity | exact Hne].
  - intros Hn.
    assert (Hin : In p (patients (db w)) /\ Patient._id p = id).
    { pose proof Hp as Hp'. unfold find_by_id in Hp'.
      apply find_some in Hp' as [Hin Hid]. apply Nat.eqb_eq in Hid. tauto. }
    destruct Hin as [Hin Hid]. rewrite <- Hid.
    apply (replaced_update_by_id Patient._id
             (Patient.set_prescription (Some prescription)) p _ Hn Hin).
Qed.

(** ** Which prescriptions ask for a lab test *)

(** X13. A prescription asks for a lab test exactly when its text in
    small letters contains one of the nine keywords somewhere, inside a
    longer word too; so a text that contains a text that asks for one asks
    for one as well, whatever stands around it. *)
Theorem hasLabRequest_substring (prescription : string) :
  (hasLabRequest prescription = true <->
   exists keyword before after,
     In keyword labKeywords /\
     toLowerCase prescription = (before ++ keyword ++ after)%string) /\
  (hasLabRequest prescription = true ->
   forall before after,
     hasLabRequest (before ++ prescription ++ after) = true).
Proof.
  assert (Hchar : forall p,
    hasLabRequest p = true <->
    exists keyword before after,
      In keyword labKeywords /\
      toLowerCase p = (before ++ keyword ++ after)%string).
  { intros p. unfold hasLabRequest. rewrite existsb_exists. split.
    - intros [k [Hk Hin]]. apply includes_app in Hin as [a [b Hab]]. eauto.
    - intros [k [a [b [Hk Hab]]]]. exists k. split; [exact Hk|].
      apply includes_app. eauto. }
  split; [apply Hchar|].
  intros H before after. apply Hchar in H as [k [a [b [Hk Hab]]]].
  apply Hchar. exists k, (toLowerCase before ++ a)%string,
                         (b ++ toLowerCase after)%string.
  split; [exact Hk|].
  rewrite !toLowerCase_app, Hab.
  rewrite !append_assoc'. reflexivity.
Qed.

(** ** The lab endpoints *)

(** X14. The three endpoints that update a test by its id answer
    { success: true } for an id that no test has, and change nothing. *)
Theorem lab_update_unknown_id (w : World) (id : ObjectId) (status : string)
    (machineId rejectionReason : option string) (technicianId : option Z) :
  planned_fault w = None ->
  find_by_id LabTest._id id (labTests (db w)) = None ->
  (fst (post_lab_process id status machineId w) = Ok (json Success) /\
   db (snd (post_lab_process id status machineId w)) = db w) /\
  (fst (post_lab_sample id status rejectionReason w) = Ok (json Success) /\
   db (snd (post_lab_sample id status rejectionReason w)) = db w) /\
  (fst (post_lab_assign id technicianId w) = Ok (json Success) /\
   db (snd (post_lab_assign id technicianId w)) = db w).
Proof.
  intros Hf Hnone.
  assert (Hdb : forall u,
            with_labTests
              (update_by_id LabTest._id id (LabTest.apply u) (labTests (db w)))
              (db w) = db w).
  { intros u. rewrite (update_by_id_missing LabTest._id _ id _ Hnone).
    destruct (db w); reflexivity. }
  split; [|split]; to_wp.
  - unfold post_lab_process. open_calls. steps; first_call_ok; split; auto.
  - unfold post_lab_sample. open_calls. steps; first_call_ok; split; auto.
  - unfold post_lab_assign. open_calls. steps; first_call_ok; split; auto.
Qed.

Lemma find_update_other {A} (id_of : A -> ObjectId) (f : A -> A) id id' l :
  (forall a, id_of (f a) = id_of a) -> id' <> id ->
  find_by_id id_of id' (update_by_id id_of id f l) = find_by_id id_of id' l.
Proof.
  intros Hid Hne. unfold find_by_id. induction l as [|a r IH]; simpl; auto.
  destruct (id_of a =? id)%nat eqn:E; simpl.
  - rewrite Hid. apply Nat.eqb_eq in E. rewrite E.
    destruct (id =? id')%nat eqn:E'; auto.
    apply Nat.eqb_eq in E'. congruence.
  - rewrite IH. reflexivity.
Qed.

(** X15. POST /api/lab/tests/:id/process touches, besides the status,
    only the start time and the machine (for 'in_progress') or the
    completion time (for 'completed'): every other field of the test, every
    other test and every other collection stay as they are. *)
Theorem lab_process_frame (w : World) (id : ObjectId) (s : string)
    (machineId : option string) (t : LabTest.t) :
  planned_fault w = None ->
  find_by_id LabTest._id id (labTests (db w)) = Some t ->
  let w' := snd (post_lab_process id s machineId w) in
  exists t',
    find_by_id LabTest._id id (labTests (db w')) = Some t' /\
    LabTest.startedAt t' =
      (if s =? "in_progress" then Some (now w) else LabTest.startedAt t) /\
    LabTest.completedAt t' =
      (if s =? "in_progress" then LabTest.completedAt t
       else if s =? "completed" then Some (now w) else LabTest.completedAt t) /\
    LabTest.machineId t' =
      (if s =? "in_progress"
       then match machineId with Some m => Some m | None => LabTest.machineId t end
       else LabTest.machineId t) /\
    (LabTest.hospitalId t' = LabTest.hospitalId t /\
     LabTest.patientId t' = LabTest.patientId t /\
     LabTest.testName t' = LabTest.testName t /\
     LabTest.testType t' = LabTest.testType t /\
     LabTest.orderedBy t' = LabTest.orderedBy t /\
     LabTest.orderedAt t' = LabTest.orderedAt t /\
     LabTest.result t' = LabTest.result t /\
     LabTest.resultDate t' = LabTest.resultDate t /\
     LabTest.priority t' = LabTest.priority t /\
     LabTest.sampleStatus t' = LabTest.sampleStatus t /\
     LabTest.technicianId t' = LabTest.technicianId t /\
     LabTest.sampleCollectedAt t' = LabTest.sampleCollectedAt t /\
     LabTest.sampleCollectedBy t' = LabTest.sampleCollectedBy t /\
     LabTest.rejectionReason t' = LabTest.rejectionReason t) /\
    (forall other, other <> id ->
       find_by_id LabTest._id other (labTests (db w')) =
       find_by_id LabTest._id other (labTests (db w))) /\
    patients (db w') = patients (db w) /\
    labResults (db w') = labResults (db w) /\
    hospitals (db w') = hospitals (db w) /\
    users (db w') = users (db w).
Proof.
  intros Hf Ht w'. subst w'. to_wp. unfold post_lab_process. open_calls.
  steps; first_call_ok;
    rewrite find_update_by_id by apply LabTest_apply_id; rewrite Ht;
    eexists; (split; [reflexivity|]);
    (destruct (s =? "in_progress"); [|destruct (s =? "completed")]);
    cbn; repeat split;
    intros other Hne;
    (apply find_update_other; [apply LabTest_apply_id | exact Hne]).
Qed.

(** X16. POST /api/lab/tests/:id/sample records who collected the sample
    (the session's username, 'Unknown' without one) and when, and stores a
    rejection reason only together with the status 'rejected'. *)
Theorem lab_sample_collector (w : World) (id : ObjectId) (s : string)
    (rejectionReason : option string) (t : LabTest.t) :
  planned_fault w = None ->
  find_by_id LabTest._id id (labTests (db w)) = Some t ->
  let w' := snd (post_lab_sample id s rejectionReason w) in
  exists t',
    find_by_id LabTest._id id (labTests (db w')) = Some t' /\
    LabTest.sampleCollectedBy t' =
      Some (or_default (Session.username (session w)) "Unknown") /\
    LabTest.sampleCollectedAt t' = Some (now w) /\
    LabTest.rejectionReason t' =
      (if s =? "rejected"
       then match rejectionReason with
            | Some r => Some r
            | None => LabTest.rejectionReason t
            end
       else LabTest.rejectionReason t) /\
    LabTest.startedAt t' = LabTest.startedAt t /\
    LabTest.completedAt t' = LabTest.completedAt t /\
    LabTest.technicianId t' = LabTest.technicianId t.
Proof.
  intros Hf Ht w'. subst w'. to_wp. unfold post_lab_sample. open_calls.
  steps; first_call_ok;
    rewrite find_update_by_id by apply LabTest_apply_id; rewrite Ht;
    eexists; (split; [reflexivity|]);
    destruct (s =? "rejected"); cbn; repeat split.
Qed.

Lemma of_test_docs n id rs : LabResult.of_test id (LabResult.docs n id rs) = LabResult.docs n id rs.
Proof.
  unfold LabResult.of_test. revert n. induction rs as [|r rs IH]; intros n; simpl; auto.
  rewrite Nat.eqb_refl, IH. reflexivity.
Qed.

Lemma of_test_docs_other n id other rs :
  other <> id -> LabResult.of_test other (LabResult.docs n id rs) = [].
Proof.
  intros Hne. unfold LabResult.of_test. revert n.
  induction rs as [|r rs IH]; intros n; simpl; auto.
  destruct (id =? other)%nat eqn:E; [apply Nat.eqb_eq in E; congruence|].
  apply IH.
Qed.

Lemma of_test_deleteMany_other id other l :
  other <> id ->
  LabResult.of_test other (LabResult.deleteMany id l) = LabResult.of_test other l.
Proof.
  intros Hne. unfold LabResult.of_test, LabResult.deleteMany.
  induction l as [|r l IH]; simpl; auto.
  destruct (LabResult.testId r =? id)%nat eqn:E; simpl.
  - apply Nat.eqb_eq in E.
    destruct (LabResult.testId r =? other)%nat eqn:E'; auto.
    apply Nat.eqb_eq in E'. congruence.
  - destruct (LabResult.testId r =? other)%nat; simpl; now rewrite IH.
Qed.

Lemma of_test_app id a b :
  LabResult.of_test id (a ++ b) = LabResult.of_test id a ++ LabResult.of_test id b.
Proof. unfold LabResult.of_test. apply filter_app. Qed.

(** What POST /api/lab/tests/:id/results has written, in terms of the
    documents [LabResult.docs] makes of the results. *)
Lemma post_lab_results_database (w : World) (testId : ObjectId)
    (results : list LabResult.input) :
  calm w ->
  forallb LabResult.valid results = true ->
  let w' := snd (post_lab_results testId (Some results) w) in
  fst (post_lab_results testId (Some results) w) = Ok (json Success) /\
  LabResult.of_test testId (labResults (db w')) =
    LabResult.docs (nextId (db w)) testId results /\
  (forall other, other <> testId ->
     LabResult.of_test other (labResults (db w')) =
     LabResult.of_test other (labResults (db w))) /\
  (forall t, find_by_id LabTest._id testId (labTests (db w)) = Some t ->
     exists t',
       find_by_id LabTest._id testId (labTests (db w')) = Some t' /\
       LabTest.status t' = "completed" /\
       LabTest.resultDate t' = Some (now w)).
Proof.
  intros Hc Hv w'. subst w'. to_wp. unfold post_lab_results. open_calls.
  rewrite Hv. unfold calm in Hc. steps; calm_faults Hc.
  split; [reflexivity|]. split; [|split].
  - rewrite of_test_app, of_test_deleteMany, of_test_docs. reflexivity.
  - intros other Hne.
    rewrite of_test_app, of_test_deleteMany_other, of_test_docs_other by auto.
    apply app_nil_r.
  - intros t Ht. rewrite find_update_by_id by apply LabTest_apply_id.
    rewrite Ht. eexists. repeat split.
Qed.

(** What GET /api/lab/tests/:id answers after the results were saved, in
    terms of the documents [LabResult.docs] makes of the results. *)
Lemma get_lab_test_after_results (w : World) (testId : ObjectId)
    (results : list LabResult.input) (t : LabTest.t) :
  calm w ->
  forallb LabResult.valid results = true ->
  find_by_id LabTest._id testId (labTests (db w)) = Some t ->
  let saved := snd (post_lab_results testId (Some results) w) in
  exists t',
    fst (get_lab_test testId saved) =
      Ok (reply 200
            (Details t'
               match LabTest.patientId t with
               | Some p => find_by_id Patient._id p (patients (db w))
               | None => None
               end
               (LabResult.docs (nextId (db w)) testId results))) /\
    LabTest.status t' = "completed" /\
    LabTest._id t' = testId.
Proof.
  intros Hc Hv Ht saved. subst saved.
  pose proof (find_by_id_id LabTest._id testId _ t Ht) as Hid.
  pattern (snd (post_lab_results testId (Some results) w)).
  match goal with |- ?P _ =>
    apply (wp_run (post_lab_results testId (Some results))
                  (fun _ w' => P w') w) end.
  unfold post_lab_results. open_calls.
  rewrite Hv. unfold calm in Hc. steps; calm_faults Hc.
  eexists. split; [|split].
  - to_wp. unfold get_lab_test. open_calls.
    steps;
      repeat match goal with
             | H : planned_fault _ = Some _ |- _ =>
                 exfalso; unfold planned_fault in H; world_simpl;
                 cbn [tl] in H;
                 rewrite no_fault_head in H
                   by (repeat apply no_fault_tl; exact Hc);
                 discriminate H
             end;
      rewrite find_update_by_id in * by apply LabTest_apply_id;
      rewrite Ht in *; cbn [option_map] in *; try discriminate.
    match goal with H : Some _ = Some _ |- _ => injection H as <- <- end.
    cbn [LabTest._id LabTest.apply].
    rewrite Hid, of_test_app, of_test_deleteMany, of_test_docs.
    reflexivity.
  - reflexivity.
  - exact Hid.
Qed.

(** The documents made of valid results hold what the results say, one
    document each, in their order, under consecutive fresh ids. *)
Lemma docs_hold n testId rs :
  forallb LabResult.valid rs = true ->
  Forall2 (fun r x =>
              LabResult.testId x = testId /\
              LabResult.i_parameterName r = Some (LabResult.parameterName x) /\
              LabResult.value x = LabResult.i_value r /\
              LabResult.unit x = LabResult.i_unit r /\
              LabResult.referenceRange x = LabResult.i_referenceRange r /\
              LabResult.isAbnormal x =
                match LabResult.i_isAbnormal r with Some b => b | None => false end /\
              LabResult.notes x = LabResult.i_notes r) rs (LabResult.docs n testId rs) /\
  map LabResult._id (LabResult.docs n testId rs) = seq n (List.length rs).
Proof.
  revert n. induction rs as [|r rest IH]; simpl; intros n Hv.
  - split; [constructor | reflexivity].
  - apply andb_true_iff in Hv as [Hr Hrest].
    destruct (IH (S n) Hrest) as [Hf Hids].
    split; [|rewrite Hids; reflexivity].
    constructor; [|exact Hf].
    unfold LabResult.of_input, LabResult.valid in *. simpl.
    destruct (LabResult.i_parameterName r) as [name|]; [|discriminate Hr].
    unfold or_default, truthy in *.
    destruct (name =? "")%string; [discriminate Hr|]. repeat split.
Qed.



(** ** The prescription PDF and the public portal *)

Lemma findOne_in_hospital id h p l :
  find_by_id Patient._id id l = Some p ->
  Patient.hospitalId p = h ->
  Patient.findOne (Patient.mkq (Some id) (Some h) None None None None) l = Some p.
Proof.
  unfold find_by_id, Patient.findOne. intros Hf Hh.
  induction l as [|a r IH]; simpl in *; [discriminate|].
  unfold Patient.matches at 1. unfold Patient.opt_test.
  cbn [Patient.q_id Patient.q_hospitalId Patient.q_phone Patient.q_publicToken
       Patient.q_department Patient.q_registeredAt_gte].
  destruct (Patient._id a =? id)%nat eqn:E.
  - injection Hf as ->. rewrite Hh.
    rewrite (proj2 (Nat.eqb_eq h h) eq_refl). reflexivity.
  - cbn [andb]. apply IH. exact Hf.
Qed.

Lemma findOne_other_hospital id h l :
  (forall p, In p l -> Patient._id p = id -> Patient.hospitalId p <> h) ->
  Patient.findOne (Patient.mkq (Some id) (Some h) None None None None) l = None.
Proof.
  intros H. unfold Patient.findOne.
  destruct (find _ l) as [p|] eqn:E; [|reflexivity].
  apply find_some in E as [Hin Hm]. unfold Patient.matches, Patient.opt_test in Hm.
  cbn [Patient.q_id Patient.q_hospitalId Patient.q_phone Patient.q_publicToken
       Patient.q_department Patient.q_registeredAt_gte] in Hm.
  rewrite !andb_true_r in Hm. apply andb_true_iff in Hm as [Hi Hh].
  apply Nat.eqb_eq in Hi, Hh. exfalso. exact (H p Hin Hi Hh).
Qed.

(** X19. Without a token, GET /api/prescription-pdf/:patientId answers
    401 to a session that has no hospital, and 404 to a session of a hospital
    the patient does not belong to; in both cases nothing is written and no
    token is drawn. *)
Theorem prescription_pdf_access (w : World) (patientId : ObjectId) :
  (Session.hospitalId (session w) = None ->
   get_prescription_pdf patientId None w =
     (Ok (respond 401 (ErrorMsg "Not authenticated")), w)) /\
  (forall h,
     Session.hospitalId (session w) = Some h ->
     planned_fault w = None ->
     (forall p, In p (patients (db w)) -> Patient._id p = patientId ->
                Patient.hospitalId p <> h) ->
     fst (get_prescription_pdf patientId None w) =
       Ok (respond 404 (ErrorMsg "Patient not found")) /\
     db (snd (get_prescription_pdf patientId None w)) = db w /\
     rng_pos (snd (get_prescription_pdf patientId None w)) = rng_pos w).
Proof.
  split.
  - intros Hs. unfold get_prescription_pdf, bind, get_session, try_catch.
    cbn. rewrite Hs. reflexivity.
  - intros h Hs Hf Hother. to_wp. unfold get_prescription_pdf. open_calls.
    change (truthy None) with false. cbv iota.
    pose proof (findOne_other_hospital patientId h _ Hother) as Hnone.
    steps; first_call_ok;
      try discriminate Hs; try (injection Hs as ->);
      repeat match goal with
             | H : Some _ = Some _ |- _ => injection H as <-
             | H : (_, _) = (_, _) |- _ => injection H as <- <-
             | H : inr _ = inr _ |- _ => injection H as <- <-
             | H : inl _ = inr _ |- _ => discriminate H
             | H : inr _ = inl _ |- _ => discriminate H
             end;
      try congruence; repeat split.
Qed.

Lemma token_query_matches tok p :
  Patient.matches (token_query tok) p =
  match Patient.publicToken p with
  | Some t => t =? tok
  | None => false
  end.
Proof.
  unfold Patient.matches, token_query, Patient.opt_test. cbn.
  destruct (Patient.publicToken p); cbn; rewrite ?andb_true_r; reflexivity.
Qed.

Lemma findOne_new_token tok id p l :
  find_by_id Patient._id id l = Some p ->
  (forall q, In q l -> Patient.publicToken q <> Some tok) ->
  Patient.findOne (token_query tok)
    (update_by_id Patient._id id (fun _ => Patient.set_publicToken (Some tok) p) l) =
  Some (Patient.set_publicToken (Some tok) p).
Proof.
  unfold find_by_id, Patient.findOne. intros Hf Hnone.
  induction l as [|a r IH]; simpl in *; [discriminate|].
  destruct (Patient._id a =? id)%nat eqn:E.
  - simpl. rewrite token_query_matches. cbn. rewrite String.eqb_refl. reflexivity.
  - simpl. rewrite token_query_matches.
    destruct (Patient.publicToken a) as [t|] eqn:Et.
    + destruct (t =? tok) eqn:Ett.
      * apply String.eqb_eq in Ett. subst t.
        exfalso. apply (Hnone a); auto.
      * apply IH; auto.
    + apply IH; auto.
Qed.


Lemma no_doctor_for_number z :
  find (fun d => strict_eq_id d (Num z)) doctors = None.
Proof. reflexivity. Qed.

Lemma findOne_token_none tok l :
  (forall q, In q l -> Patient.publicToken q <> Some tok) ->
  Patient.findOne (token_query tok) l = None.
Proof.
  intros H. unfold Patient.findOne.
  destruct (find _ l) as [p|] eqn:E; [|reflexivity].
  apply find_some in E as [Hin Hm]. rewrite token_query_matches in Hm.
  destruct (Patient.publicToken p) as [t|] eqn:Et; [|discriminate].
  apply String.eqb_eq in Hm. subst t. exfalso. exact (H p Hin Et).
Qed.

(** X21. The public portal answers 404 'Invalid token' for a token no
    patient has.  When it does show a prescription, the doctor it names is
    always the placeholder 'Attending Physician': the stored doctor id is a
    number and the ids of the doctors' list are strings, which are never
    strictly equal. *)
Theorem portal_names_no_doctor (w : World) (token : string) :
  (planned_fault w = None ->
   (forall q, In q (patients (db w)) -> Patient.publicToken q <> Some token) ->
   fst (get_public_prescription token w) =
     Ok (reply 404 (PortalError "Invalid token"))) /\
  (forall pp hospital doctor,
     fst (get_public_prescription token w) =
       Ok (reply 200 (Portal pp hospital doctor)) ->
     doctor = inr "Attending Physician") /\
  db (snd (get_public_prescription token w)) = db w.
Proof.
  split; [|split].
  - intros Hf Hnone. to_wp. unfold get_public_prescription. open_calls.
    pose proof (findOne_token_none token _ Hnone) as Hno.
    steps; first_call_ok; try congruence.
  - intros pp hospital doctor. to_wp. unfold get_public_prescription.
    open_calls. steps; intros Hok; try discriminate Hok.
    injection Hok as _ _ <-.
    unfold stored_doctorId. destruct (Patient.doctorId t); reflexivity.
  - to_wp. unfold get_public_prescription. open_calls. steps; reflexivity.
Qed.

(** X22. Whatever 'update-prescription' does, it creates at most one
    lab test; the test is requested for the patient named in the event, in
    that patient's hospital, and is always ordered by 'Doctor': the doctor's
    name is looked up with the patient's numeric doctor id among ids that are
    strings. *)
Theorem auto_lab_test_ordered_by_Doctor (tz : Z) (w : World) (id : ObjectId)
    (prescription : string) :
  let w' := snd (on_update_prescription tz id prescription w) in
  labTests (db w') = labTests (db w) \/
  exists x p,
    labTests (db w') = labTests (db w) ++ [x] /\
    find_by_id Patient._id id (patients (db w')) = Some p /\
    LabTest.patientId x = Some id /\
    LabTest.hospitalId x = Patient.hospitalId p /\
    LabTest.orderedBy x = Some "Doctor" /\
    LabTest.testName x = Some "Lab Test Request (from Prescription)".
Proof.
  intros w'. subst w'. to_wp. unfold on_update_prescription. open_calls.
  steps; try (left; reflexivity).
  all: right; do 2 eexists; split; [reflexivity|];
       (split; [eassumption|]); repeat split;
       unfold doctor_name, stored_doctorId;
       match goal with |- context [Patient.doctorId ?p] =>
         destruct (Patient.doctorId p) end; reflexivity.
Qed.

(** ** The superadmin endpoints *)

Section Admin.
Variable generateHospitalPassword : ObjectId -> string.
Variable verifySuperAdminPassword : option string -> bool.
Variable verifyHospitalPassword : ObjectId -> string -> bool.
Variable comparePassword : string -> string -> bool.

Lemma requireAdmin_refuses {B} (unauthorized : string -> B) (next : M (Reply B)) w :
  Session.role (session w) <> Some "superadmin" ->
  requireAdmin unauthorized next w = (Ok (reply 401 (unauthorized "Unauthorized")), w).
Proof.
  intros H. unfold requireAdmin, bind, get_session. cbn.
  destruct (Session.role (session w)) as [r|]; [|reflexivity].
  destruct (r =? "superadmin") eqn:E; [|reflexivity].
  apply String.eqb_eq in E. congruence.
Qed.

Lemma requireAdmin_admits {B} (unauthorized : string -> B) (next : M (Reply B)) w :
  Session.role (session w) = Some "superadmin" ->
  requireAdmin unauthorized next w = next w.
Proof.
  intros H. unfold requireAdmin, bind, get_session. cbn. rewrite H.
  reflexivity.
Qed.

(** X23. Every superadmin endpoint answers 401 'Unauthorized' to a
    session whose role is not 'superadmin', and then reads and writes
    nothing. *)
Theorem admin_requires_superadmin (w : World) (id : ObjectId) (status : string)
    (expiryDate : DateInput) (daysToAdd : DaysInput) :
  Session.role (session w) <> Some "superadmin" ->
  get_admin_hospitals w = (Ok (reply 401 (ListError "Unauthorized")), w) /\
  get_admin_users w = (Ok (reply 401 (ListError "Unauthorized")), w) /\
  get_admin_hospital_password generateHospitalPassword id w =
    (Ok (reply 401 (Problem "Unauthorized")), w) /\
  put_admin_hospital_status id status w =
    (Ok (reply 401 (Problem "Unauthorized")), w) /\
  put_admin_hospital_expiry id expiryDate daysToAdd w =
    (Ok (reply 401 (Problem "Unauthorized")), w).
Proof.
  intros H. repeat split; apply requireAdmin_refuses; exact H.
Qed.

(** X24. The superadmin login with the right password turns the session
    into a superadmin session and keeps the user and the hospital it already
    had: the superadmin endpoints open, and the session still counts as
    authenticated only if a user had logged in before.  A wrong password
    changes nothing. *)
Theorem admin_login_opens_admin (w : World) (password : option string)
    (id : ObjectId) :
  (verifySuperAdminPassword password = true ->
   let w' := snd (post_admin_login verifySuperAdminPassword password w) in
   fst (post_admin_login verifySuperAdminPassword password w) = Ok (reply 200 Done) /\
   Session.role (session w') = Some "superadmin" /\
   Session.userId (session w') = Session.userId (session w) /\
   Session.hospitalId (session w') = Session.hospitalId (session w) /\
   db w' = db w /\
   fst (get_admin_hospital_password generateHospitalPassword id w') =
     Ok (reply 200 (Password (generateHospitalPassword id))) /\
   (fst (get_auth_status w') = Ok (reply 200 NotAuthenticated) <->
    Session.userId (session w) = None)) /\
  (verifySuperAdminPassword password = false ->
   post_admin_login verifySuperAdminPassword password w =
     (Ok (reply 401 (Refused "Invalid password")), w)).
Proof.
  split; intros Hv; unfold post_admin_login; rewrite Hv; [|reflexivity].
  cbn. repeat split.
  - unfold get_auth_status, bind, get_session. cbn.
    destruct (Session.userId (session w)); [discriminate | reflexivity].
  - intros Hn. unfold get_auth_status, bind, get_session. cbn.
    rewrite Hn. reflexivity.
Qed.

Lemma update_first_with_id {A} (id_of : A -> ObjectId) (f : A -> A)
    (before after : list A) (h : A) :
  (forall x, In x before -> id_of x <> id_of h) ->
  update_by_id id_of (id_of h) f (before ++ h :: after) = before ++ f h :: after.
Proof.
  intros Hb. induction before as [|x r IH]; simpl.
  - rewrite Nat.eqb_refl. reflexivity.
  - destruct (id_of x =? id_of h)%nat eqn:E.
    + apply Nat.eqb_eq in E. exfalso. apply (Hb x); auto. left; reflexivity.
    + rewrite IH; auto. intros y Hy. apply Hb. right; exact Hy.
Qed.

(** X25. When the superadmin sets the subscription status of a hospital
    to anything but 'active', every later login with that hospital's password
    is answered with 403 'Subscription expired', whoever tries and whatever
    user they name. *)
Theorem suspended_hospital_cannot_login (w : World) (status : string)
    (hospitalPassword username userPassword : string)
    (before after : list Hospital.t) (h : Hospital.t) (visitor : Session.t) :
  Session.role (session w) = Some "superadmin" ->
  calm w ->
  status <> "active" ->
  hospitalPassword <> "" -> username <> "" -> userPassword <> "" ->
  hospitals (db w) = before ++ h :: after ->
  (forall x, In x before -> Hospital._id x <> Hospital._id h) ->
  (forall x, In x before ->
             verifyHospitalPassword (Hospital._id x) hospitalPassword = false) ->
  verifyHospitalPassword (Hospital._id h) hospitalPassword = true ->
  let suspended := put_admin_hospital_status (Hospital._id h) status w in
  fst suspended = Ok (reply 200 Done) /\
  fst (post_login verifyHospitalPassword comparePassword
         (Some hospitalPassword) (Some username) (Some userPassword)
         (set_session visitor (snd suspended))) =
    Ok (respond 403 (Failure "Subscription expired")).
Proof.
  intros Hr Hc Hs Hp Hu Hup Hl Hid Hb Hh suspended. subst suspended.
  unfold put_admin_hospital_status. rewrite requireAdmin_admits by exact Hr.
  to_wp. open_calls. unfold calm in Hc. steps; calm_faults Hc.
  split; [reflexivity|].
  rewrite Hl, update_first_with_id by exact Hid.
  assert (Hm := match_hospital_first verifyHospitalPassword hospitalPassword
                  before (Hospital.set_subscriptionStatus status h) after Hb Hh).
  cbn [Hospital.set_subscriptionStatus Hospital.subscriptionStatus
       Hospital._id] in Hm.
  apply String.eqb_neq in Hs. rewrite Hs in Hm.
  to_wp. unfold post_login, truthy.
  apply String.eqb_neq in Hp, Hu, Hup. rewrite Hp, Hu, Hup. cbn [negb orb].
  rewrite !or_default_some. open_calls.
  steps;
    repeat match goal with
           | H : planned_fault _ = Some _ |- _ =>
               exfalso; unfold planned_fault in H; world_simpl;
               cbn [tl] in H;
               rewrite no_fault_head in H
                 by (repeat apply no_fault_tl; exact Hc);
               discriminate H
           end;
    try reflexivity; congruence.
Qed.

(** X26. Renewing a subscription as superadmin, for a stored hospital
    and with a database that does not fail.  With a date, that date becomes
    the expiry; with days only, the days that [parseInt] reads are added to
    the stored expiry, or to now if there is none.  In both cases the hospital
    becomes 'active' and keeps its other fields.  When the days cannot be
    read, or the result leaves the range of a Date, the answer is 500 and
    nothing is written; with neither a date nor days the answer is 400 and
    nothing changes at all. *)
Theorem renew_subscription (w : World) (id : ObjectId) (h : Hospital.t) :
  Session.role (session w) = Some "superadmin" ->
  calm w ->
  find_by_id Hospital._id id (hospitals (db w)) = Some h ->
  let base := match Hospital.subscriptionExpiry h with
              | Some e => e
              | None => now w
              end in
  (forall t days, in_Date_range t = true ->
     let run := put_admin_hospital_expiry id (ValidDate t) days w in
     fst run = Ok (reply 200 (Renewed t)) /\
     exists h',
       find_by_id Hospital._id id (hospitals (db (snd run))) = Some h' /\
       Hospital.subscriptionStatus h' = "active" /\
       Hospital.subscriptionExpiry h' = Some t /\
       Hospital._id h' = Hospital._id h /\
       Hospital.name h' = Hospital.name h /\
       Hospital.email h' = Hospital.email h /\
       Hospital.phone h' = Hospital.phone h /\
       Hospital.address h' = Hospital.address h /\
       Hospital.createdAt h' = Hospital.createdAt h /\
       Hospital.lastLogin h' = Hospital.lastLogin h) /\
  (forall n, in_Date_range (base + n * msPerDay) = true ->
     let run := put_admin_hospital_expiry id NoDate (Days n) w in
     fst run = Ok (reply 200 (Renewed (base + n * msPerDay)%Z)) /\
     exists h',
       find_by_id Hospital._id id (hospitals (db (snd run))) = Some h' /\
       Hospital.subscriptionStatus h' = "active" /\
       Hospital.subscriptionExpiry h' = Some (base + n * msPerDay)%Z /\
       Hospital._id h' = Hospital._id h /\
       Hospital.name h' = Hospital.name h /\
       Hospital.email h' = Hospital.email h /\
       Hospital.phone h' = Hospital.phone h /\
       Hospital.address h' = Hospital.address h /\
       Hospital.createdAt h' = Hospital.createdAt h /\
       Hospital.lastLogin h' = Hospital.lastLogin h) /\
  (forall n, in_Date_range (base + n * msPerDay) = false ->
     let run := put_admin_hospital_expiry id NoDate (Days n) w in
     fst run = Ok (reply 500 (Problem "Invalid time value")) /\
     db (snd run) = db w) /\
  (let run := put_admin_hospital_expiry id NoDate UnreadableDays w in
   fst run = Ok (reply 500 (Problem "Invalid time value")) /\
   db (snd run) = db w) /\
  put_admin_hospital_expiry id NoDate NoDays w =
    (Ok (reply 400 (Problem "Either expiryDate or daysToAdd required")), w).
Proof.
  intros Hr Hc Hh base. unfold calm in Hc.
  split; [|split; [|split; [|split]]].
  - intros t days Ht run. subst run. unfold put_admin_hospital_expiry.
    rewrite requireAdmin_admits by exact Hr.
    to_wp. unfold toISOString. rewrite Ht. open_calls. steps; calm_faults Hc.
    split; [reflexivity|].
    rewrite find_update_by_id by reflexivity. rewrite Hh.
    eexists. split; [reflexivity|]. repeat split.
  - intros n Hn run. subst run base. unfold put_admin_hospital_expiry.
    rewrite requireAdmin_admits by exact Hr.
    to_wp. unfold toISOString. open_calls. steps; calm_faults Hc;
      try congruence;
      injection Hh as ->;
      match goal with H : Hospital.subscriptionExpiry _ = _ |- _ =>
        rewrite H in * end;
      try congruence;
      (split; [reflexivity|]);
      rewrite find_update_by_id by reflexivity;
      match goal with H : find_by_id _ _ _ = Some _ |- _ => rewrite H end;
      eexists; (split; [reflexivity|]); repeat split.
  - intros n Hn run. subst run base. unfold put_admin_hospital_expiry.
    rewrite requireAdmin_admits by exact Hr.
    to_wp. unfold toISOString. open_calls. steps; calm_faults Hc;
      try congruence;
      injection Hh as ->;
      match goal with H : Hospital.subscriptionExpiry _ = _ |- _ =>
        rewrite H in * end;
      try congruence; split; reflexivity.
  - intros run. subst run. unfold put_admin_hospital_expiry.
    rewrite requireAdmin_admits by exact Hr.
    to_wp. open_calls. steps; calm_faults Hc; split; reflexivity.
  - unfold put_admin_hospital_expiry.
    rewrite requireAdmin_admits by exact Hr. reflexivity.
Qed.
End Admin.

(** X27. Logging out empties the session whatever it held: afterwards
    the session is not authenticated, the hospital info is refused with 401,
    and the database is as it was. *)
Theorem logout_ends_session (w : World) :
  let w' := snd (post_logout w) in
  session w' = Session.empty /\
  db w' = db w /\
  fst (get_auth_status w') = Ok (reply 200 NotAuthenticated) /\
  fst (get_hospital_info w') = Ok (reply 401 (InfoError "Not authenticated")) /\
  fst (get_lab_stats w') = Ok (reply 401 (StatsError "Not authenticated")).
Proof. repeat split. Qed.

(** ** Listings *)

Section SortByFacts.
Variable A : Type.
Variable le : A -> A -> bool.

Lemma insert_by_perm a l : Permutation (insert_by le a l) (a :: l).
Proof.
  induction l as [|b r IH]; simpl; auto.
  destruct (le a b); auto. rewrite IH. apply perm_swap.
Qed.

Lemma sort_by_perm l : Permutation (sort_by le l) l.
Proof.
  unfold sort_by. induction l as [|a r IH]; simpl; auto.
  rewrite insert_by_perm. auto.
Qed.

Lemma In_sort_by x l : In x (sort_by le l) <-> In x l.
Proof.
  split; apply Permutation_in;
    [apply sort_by_perm | apply Permutation_sym, sort_by_perm].
Qed.
End SortByFacts.


(** X28. GET /api/lab/tests needs a session with a hospital (401
    otherwise), and every test it lists is a stored test of that hospital
    that has the status asked for (unless none or 'all' was asked), whatever
    the date and the search pattern. *)
Theorem lab_tests_isolated (RegExp_i : string -> option (string -> bool))
    (w : World) (status search : option string) (date : DateInput) :
  (Session.hospitalId (session w) = None ->
   get_lab_tests RegExp_i status date search w =
     (Ok (reply 401 (ListError "Not authenticated")), w)) /\
  (forall tests,
     fst (get_lab_tests RegExp_i status date search w) =
       Ok (reply 200 (Listing tests)) ->
     exists h,
       Session.hospitalId (session w) = Some h /\
       forall v, In v tests ->
         In (v_test v) (labTests (db w)) /\
         LabTest.hospitalId (v_test v) = h /\
         (forall st, status = Some st -> st <> "" -> st <> "all" ->
                     LabTest.status (v_test v) = st)).
Proof.
  split.
  - intros Hs. unfold get_lab_tests, bind, get_session. cbn. rewrite Hs.
    reflexivity.
  - intros tests. to_wp. unfold get_lab_tests. open_calls.
    assert (Hfilter : forall h day v,
      In v (map (populate (patients (db w)))
              (sort_by urgent_first
                 (filter (tests_filter h
                            match status with
                            | Some st =>
                                if (st =? "") || (st =? "all") then None
                                else Some st
                            | None => None
                            end day) (labTests (db w))))) ->
      In (v_test v) (labTests (db w)) /\
      LabTest.hospitalId (v_test v) = h /\
      (forall st, status = Some st -> st <> "" -> st <> "all" ->
                  LabTest.status (v_test v) = st)).
    { intros h day v Hv. apply in_map_iff in Hv as [t [<- Ht]].
      apply In_sort_by in Ht. apply filter_In in Ht as [Hin Hf].
      unfold tests_filter in Hf.
      apply andb_true_iff in Hf as [Hf _].
      apply andb_true_iff in Hf as [Hh Hst].
      apply Nat.eqb_eq in Hh. cbn [v_test populate].
      split; [exact Hin|]. split; [exact Hh|].
      intros st -> Hne Hall. apply String.eqb_neq in Hne, Hall.
      rewrite Hne, Hall in Hst. cbn in Hst. apply String.eqb_eq in Hst.
      exact Hst. }
    steps; intros Hok; try discriminate Hok;
      injection Hok as <-; eexists; (split; [reflexivity|]);
      intros v Hv; try (apply filter_In in Hv as [Hv _]);
      eapply Hfilter; exact Hv.
Qed.

Lemma prescriptions_filter_spec hospitalId p :
  prescriptions_filter hospitalId p = true <->
  (Patient.prescription p <> Some "" \/
   Patient.status p = Some "pharmacy" \/
   Patient.pharmacyState p <> None) /\
  (forall h, hospitalId = Some h -> Patient.hospitalId p = h).
Proof.
  unfold prescriptions_filter, ne_empty, ne_null.
  rewrite andb_true_iff, !orb_true_iff. split.
  - intros [Hq Hh]. split.
    + destruct Hq as [[Hq|Hq]|Hq].
      * left. destruct (Patient.prescription p) as [s|]; [|discriminate].
        apply negb_true_iff, String.eqb_neq in Hq. congruence.
      * right; left. destruct (Patient.status p) as [s|]; [|discriminate].
        apply String.eqb_eq in Hq. congruence.
      * right; right. destruct (Patient.pharmacyState p); [discriminate|].
        discriminate Hq.
    + intros h ->. apply Nat.eqb_eq in Hh. exact Hh.
  - intros [Hq Hh]. split.
    + destruct Hq as [Hq|[Hq|Hq]].
      * left; left. destruct (Patient.prescription p) as [s|]; [|reflexivity].
        apply negb_true_iff, String.eqb_neq. congruence.
      * left; right. rewrite Hq. reflexivity.
      * right. destruct (Patient.pharmacyState p); [reflexivity|congruence].
    + destruct hospitalId as [h|]; [|reflexivity].
      apply Nat.eqb_eq. auto.
Qed.

(** X29. GET /api/prescriptions lists, of the session's hospital (of
    every hospital for a session without one), exactly the patients whose
    prescription is not the empty text, or whose status is 'pharmacy', or
    that have a pharmacy state.  A patient with no prescription at all counts
    as "not the empty text" and is listed. *)
Theorem prescriptions_listing (w : World) (items : list Patient.t) :
  fst (get_prescriptions w) = Ok (reply 200 (Listing items)) ->
  (forall p,
     In p items <->
     In p (patients (db w)) /\
     (Patient.prescription p <> Some "" \/
      Patient.status p = Some "pharmacy" \/
      Patient.pharmacyState p <> None) /\
     (forall h, Session.hospitalId (session w) = Some h ->
                Patient.hospitalId p = h)) /\
  (forall p, In p (patients (db w)) -> Patient.prescription p = None ->
             (forall h, Session.hospitalId (session w) = Some h ->
                        Patient.hospitalId p = h) ->
             In p items).
Proof.
  to_wp. unfold get_prescriptions. open_calls.
  steps; intros Hok; try discriminate Hok. injection Hok as <-.
  assert (Hchar : forall p,
    In p (sort_by token_le
            (filter (prescriptions_filter (Session.hospitalId (session w)))
                    (patients (db w)))) <->
    In p (patients (db w)) /\
    (Patient.prescription p <> Some "" \/
     Patient.status p = Some "pharmacy" \/
     Patient.pharmacyState p <> None) /\
    (forall h, Session.hospitalId (session w) = Some h ->
               Patient.hospitalId p = h)).
  { intros p. rewrite In_sort_by, filter_In, prescriptions_filter_spec.
    reflexivity. }
  split; [exact Hchar|].
  intros p Hin Hnone Hs. apply Hchar. split; [exact Hin|]. split.
  - left. rewrite Hnone. discriminate.
  - exact Hs.
Qed.

(** ** What registration stores *)

Lemma available_doctor_of_department dept z :
  available_doctor dept = Some z ->
  exists d, In d doctors /\ doc_dept d = dept /\ doc_status d = "available" /\
            cast_Number (doc_id d) = Some z.
Proof.
  unfold available_doctor.
  destruct (find _ doctors) as [d|] eqn:E; [|discriminate].
  intros H. apply find_some in E as [Hin Hd].
  apply andb_true_iff in Hd as [Hdept Hst].
  apply String.eqb_eq in Hdept, Hst. exists d. auto.
Qed.

(** X30. The patient that a successful 'register-patient' stores and
    announces is waiting, in the hospital and department of the request
    ('General' and the fallback hospital by default), under the name sent,
    without public token or pharmacy state; its doctor is the one requested
    or else an available doctor of that very department, if the list has
    one. *)
Theorem registered_patient_fields (data : Registration) (w : World) (p : Patient.t) :
  In (emit_of ToSender "patient-registered" (PatientDoc p))
     (new_events w (snd (on_register_patient data w))) ->
  Patient.status p = Some "waiting" /\
  Patient.hospitalId p = hospital_of data /\
  Patient.department p = Some (department_of data) /\
  Patient.name p = r_name data /\
  Patient.publicToken p = None /\
  Patient.pharmacyState p = None /\
  Patient._id p = nextId (db w) /\
  (forall z, Patient.doctorId p = Some z ->
     r_doctorId data = Some z \/
     exists d, In d doctors /\ doc_dept d = department_of data /\
               doc_status d = "available" /\ cast_Number (doc_id d) = Some z).
Proof.
  unfold new_events. to_wp. unfold on_register_patient.
  fold (department_of data). fold (hospital_of data).
  destruct (name_missing (r_name data)) eqn:Hn.
  - apply wp_emit. world_simpl. rewrite skipn_length_app.
    intros [H|[]]. discriminate H.
  - open_calls. steps;
      repeat rewrite <- app_assoc; rewrite skipn_length_app;
      intros Hev; cbn [In] in Hev;
      repeat (destruct Hev as [Hev|Hev]);
      try discriminate Hev; try contradiction;
      injection Hev as <-;
      cbn [Patient.status Patient.hospitalId Patient.department Patient.name
           Patient.publicToken Patient.pharmacyState Patient._id
           Patient.doctorId];
      (repeat split;
       [ unfold name_missing in Hn; destruct (r_name data) as [n|];
         [|discriminate]; apply orb_false_iff in Hn as [Hn _];
         unfold or_default; rewrite Hn; reflexivity
       | intros z Hz;
         unfold requested_doctor in Hz;
         destruct (r_doctorId data) as [r|];
         [ destruct (r =? 0)%Z;
           [ right; apply available_doctor_of_department; exact Hz
           | left; exact Hz ]
         | right; apply available_doctor_of_department; exact Hz ] ]).
Qed.

(** * The properties at work on concrete worlds *)

Lemma register_duplicate_email_witness :
  Scene.register (hospital_form "Hill Clinic" "city@example.org" None None)
                 (admin_form "admin" "secret" None) Scene.desk =
  (Ok (respond 400 (Failure "Hospital email already registered")),
   called Scene.desk).
Proof.
  apply register_duplicate_email; try discriminate; reflexivity.
Defined.

Lemma register_creates_hospital_and_admin_witness :
  fst (Scene.register (hospital_form "Hill Clinic" "hill@example.org" None None)
         (admin_form "admin" "secret" None) Scene.desk) =
  Ok (json (Registered 20 "other")).
Proof.
  assert (H := register_creates_hospital_and_admin
                 Sample.generateHospitalPassword Sample.hashPassword
                 Scene.desk "Hill Clinic" "hill@example.org" "admin" "secret"
                 None None None).
  apply H; try discriminate; try reflexivity.
  - intros msg [].
  - intros u [<-|[<-|[]]]; discriminate.
Defined.

Lemma register_leaves_hospital_without_admin_witness :
  users (db (snd (Scene.register
                    (hospital_form "Hill Clinic" "hill@example.org" None None)
                    (admin_form "admin" "secret" None) Scene.failing))) =
    users Sample.db0 /\
  Hospital.email_taken "hill@example.org"
    (hospitals (db (snd (Scene.register
                    (hospital_form "Hill Clinic" "hill@example.org" None None)
                    (admin_form "admin" "secret" None) Scene.failing)))) = true.
Proof.
  assert (H := register_leaves_hospital_without_admin
                 Sample.generateHospitalPassword Sample.hashPassword
                 Scene.failing "Hill Clinic" "hill@example.org" "admin" "secret"
                 "connection lost" None None None []).
  cbv zeta in H.
  destruct H as [_ [Hu [_ Ht]]]; try discriminate; try reflexivity.
  split; [exact Hu | exact Ht].
Defined.

Lemma login_success_witness :
  session (snd (Scene.login (Some "beta") (Some "admin") (Some "secret")
                  Scene.registered)) =
    Session.mk (Some 4) (Some 3) (Some "admin") (Some "admin") /\
  exists u',
    find_by_id User._id 4
      (users (db (snd (Scene.login (Some "beta") (Some "admin") (Some "secret")
                         Scene.registered)))) = Some u' /\
    User.lastLogin u' = Some Sample.noon.
Proof.
  assert (H := login_success Sample.verifyHospitalPassword
                 Sample.comparePassword Scene.registered "beta" "admin"
                 "secret" [Sample.hospital 1 "City Clinic" "city@example.org" "active"] []
                 Scene.lake Scene.lake_admin).
  cbv zeta in H.
  destruct H as [_ [Hs [[u' [Hf [Hl _]]] _]]];
    try discriminate; try reflexivity;
    try (repeat constructor; simpl; intuition discriminate);
    try first [ solve [intros x [<-|[]]; reflexivity] | solve [intros msg []] ].
  split; [exact Hs|]. exists u'. split; [exact Hf | exact Hl].
Defined.

Lemma login_rejection_is_uniform_witness :
  fst (Scene.login (Some "beta") (Some "admin") (Some "guess")
         Scene.registered) =
    Ok (respond 401 (Failure "Invalid username or password")) /\
  fst (Scene.login (Some "beta") (Some "nobody") (Some "secret")
         Scene.registered) =
    Ok (respond 401 (Failure "Invalid username or password")).
Proof.
  split.
  - assert (H := login_rejection_is_uniform Sample.verifyHospitalPassword
                   Sample.comparePassword Scene.registered "beta" "admin"
                   "guess" [Sample.hospital 1 "City Clinic" "city@example.org" "active"] []
                   Scene.lake).
    cbv zeta in H.
    destruct H as [Hr _]; try discriminate; try reflexivity; try exact Hr;
      try first [ solve [intros x [<-|[]]; reflexivity] | solve [intros msg []] ].
    right. exists Scene.lake_admin. split; reflexivity.
  - assert (H := login_rejection_is_uniform Sample.verifyHospitalPassword
                   Sample.comparePassword Scene.registered "beta" "nobody"
                   "secret" [Sample.hospital 1 "City Clinic" "city@example.org" "active"] []
                   Scene.lake).
    cbv zeta in H.
    destruct H as [Hr _]; try discriminate; try reflexivity; try exact Hr;
      try first [ solve [intros x [<-|[]]; reflexivity] | solve [intros msg []] ].
    left. reflexivity.
Defined.

Lemma get_patients_page_witness :
  StronglySorted (fun a b => (Patient._id b <= Patient._id a)%nat)
                 [Sample.bala; Sample.asha].
Proof.
  exact (proj1 (get_patients_page Scene.desk None None None
                  [Sample.bala; Sample.asha] 2 1 50 (Some 1%Z) eq_refl)).
Defined.

Lemma get_patients_pages_cover_witness :
  List.concat [page_data None 1 1 Scene.desk; page_data None 2 1 Scene.desk] =
  [Sample.bala; Sample.asha].
Proof.
  assert (H := get_patients_pages_cover Scene.desk None 1 2).
  cbv zeta in H.
  destruct H as [_ H].
  - intros msg [].
  - lia.
  - destruct H as [H _]; [cbn; lia | exact H].
Defined.

Lemma unknown_patient_is_ignored_witness :
  db (snd (on_move_patient 99 (Some "pharmacy") None None Scene.desk)) =
    Sample.db0 /\
  emitted (snd (on_update_prescription 0 99 "CBC" Scene.desk)) = [].
Proof.
  destruct (unknown_patient_is_ignored 0 Scene.desk 99 (Some "pharmacy") None
              None "CBC" eq_refl) as [[Hd _] [_ He]].
  split; [exact Hd | exact He].
Defined.

Lemma move_patient_moves_witness :
  exists p',
    Patient.status p' = Some "pharmacy" /\
    In (emit_of ToAll "patient-updated" (PatientDoc p'))
       (emitted (snd (on_move_patient 11 (Some "pharmacy") None None
                        Scene.desk))).
Proof.
  assert (H := move_patient_moves Scene.desk 11 (Some "pharmacy") None None
                 Sample.asha).
  cbv zeta in H.
  destruct H as [p' [Hs [_ [_ [_ [_ He]]]]]].
  - intros msg [].
  - reflexivity.
  - exists p'. split; [exact Hs|]. rewrite He. left. reflexivity.
Defined.

Lemma create_lab_request_unknown_patient_witness :
  emitted (snd (on_create_lab_request 99 None Undefined Scene.desk)) =
  [emit_of ToSender "lab-request-created"
           (LabRequest false None (Some "Patient not found"))].
Proof.
  exact (proj2 (create_lab_request_unknown_patient Scene.desk 99 None Undefined
                  eq_refl eq_refl)).
Defined.

Lemma create_lab_request_creates_witness :
  exists x,
    labTests (db (snd (on_create_lab_request 11 None (Str "1") Scene.desk))) = [x] /\
    LabTest.hospitalId x = 1 /\ LabTest.status x = "pending".
Proof.
  assert (H := create_lab_request_creates Scene.desk 11 None (Str "1")
                 Sample.asha).
  cbv zeta in H.
  destruct H as [x [Hl [_ [Hh [_ [_ [Hs _]]]]]]].
  - intros msg [].
  - reflexivity.
  - exists x. split; [exact Hl|]. split; [exact Hh | exact Hs].
Defined.

Lemma update_prescription_without_keyword_witness :
  exists p',
    find_by_id Patient._id 11
      (patients (db (snd (on_update_prescription 0 11 "Paracetamol 500 mg"
                            Scene.desk)))) = Some p' /\
    Patient.prescription p' = Some "Paracetamol 500 mg" /\
    Patient.name p' = Some "Asha" /\
    labTests (db (snd (on_update_prescription 0 11 "Paracetamol 500 mg"
                         Scene.desk))) = [].
Proof.
  destruct (update_prescription_without_keyword 0 Scene.desk 11
              "Paracetamol 500 mg" Sample.asha eq_refl eq_refl eq_refl)
    as [p' [Hf [Hp [Hfr [_ [_ [_ [_ [Hl _]]]]]]]]].
  exists p'. split; [exact Hf|]. split; [exact Hp|]. split; [|exact Hl].
  destruct Hfr as [_ [_ [_ [_ [Hn _]]]]]. exact Hn.
Defined.

Lemma lab_update_unknown_id_witness :
  fst (post_lab_process 99 "completed" None Scene.lab) = Ok (json Success) /\
  db (snd (post_lab_process 99 "completed" None Scene.lab)) = Sample.db1.
Proof.
  exact (proj1 (lab_update_unknown_id Scene.lab 99 "completed" None None None
                  eq_refl eq_refl)).
Defined.

Lemma lab_process_frame_witness :
  exists t',
    find_by_id LabTest._id 15
      (labTests (db (snd (post_lab_process 15 "in_progress" (Some "M-2")
                            Scene.lab)))) = Some t' /\
    LabTest.startedAt t' = Some Sample.noon /\
    LabTest.machineId t' = Some "M-2" /\
    LabTest.completedAt t' = None.
Proof.
  destruct (lab_process_frame Scene.lab 15 "in_progress" (Some "M-2") Sample.cbc
              eq_refl eq_refl) as [t' [Hf [Hs [Hc [Hm _]]]]].
  exists t'. repeat split; assumption.
Defined.

Lemma lab_sample_collector_witness :
  exists t',
    find_by_id LabTest._id 15
      (labTests (db (snd (post_lab_sample 15 "rejected" (Some "clotted")
                            Scene.lab)))) = Some t' /\
    LabTest.sampleCollectedBy t' = Some "reception" /\
    LabTest.rejectionReason t' = Some "clotted".
Proof.
  destruct (lab_sample_collector Scene.lab 15 "rejected" (Some "clotted")
              Sample.cbc eq_refl eq_refl) as [t' [Hf [Hb [_ [Hr _]]]]].
  exists t'. repeat split; assumption.
Defined.




Lemma admin_requires_superadmin_witness :
  put_admin_hospital_status 2 "suspended" Scene.desk =
  (Ok (reply 401 (Problem "Unauthorized")), Scene.desk).
Proof.
  assert (H := admin_requires_superadmin Sample.generateHospitalPassword
                 Scene.desk 2 "suspended" NoDate NoDays).
  destruct H as [_ [_ [_ [H _]]]]; [discriminate | exact H].
Defined.

Lemma suspended_hospital_cannot_login_witness :
  fst (Scene.login (Some "other") (Some "reception") (Some "h2")
         (set_session Sample.anonymous
            (snd (put_admin_hospital_status 2 "suspended" Scene.admin)))) =
  Ok (respond 403 (Failure "Subscription expired")).
Proof.
  assert (H := suspended_hospital_cannot_login Sample.verifyHospitalPassword
                 Sample.comparePassword Scene.admin "suspended" "other"
                 "reception" "h2"
                 [Sample.hospital 1 "City Clinic" "city@example.org" "active"] []
                 (Sample.hospital 2 "Lake Hospital" "lake@example.org" "active")
                 Sample.anonymous).
  cbv zeta in H.
  destruct H as [_ H]; try discriminate; try reflexivity; try exact H;
    first [ solve [intros x [<-|[]]; first [discriminate | reflexivity]]
          | solve [intros msg []] ].
Defined.

Lemma renew_subscription_witness :
  fst (put_admin_hospital_expiry 2 NoDate (Days 30) Scene.admin) =
    Ok (reply 200 (Renewed (Sample.noon + 30 * msPerDay)%Z)) /\
  fst (put_admin_hospital_expiry 2 NoDate (Days 100000000) Scene.admin) =
    Ok (reply 500 (Problem "Invalid time value")).
Proof.
  assert (H := renew_subscription Scene.admin 2
                 (Sample.hospital 2 "Lake Hospital" "lake@example.org" "active")).
  cbv zeta in H.
  destruct H as [_ [Hin [Hout _]]].
  - reflexivity.
  - intros msg [].
  - reflexivity.
  - split.
    + apply (Hin 30%Z). reflexivity.
    + apply (Hout 100000000%Z). reflexivity.
Defined.

Lemma prescriptions_listing_witness :
  In Sample.asha [Sample.asha; Sample.bala].
Proof.
  refine (proj2 (prescriptions_listing Scene.desk [Sample.asha; Sample.bala]
                   eq_refl) Sample.asha _ eq_refl _).
  - left. reflexivity.
  - intros h Hh. injection Hh as <-. reflexivity.
Defined.

Lemma registered_patient_fields_witness :
  Patient.status (Sample.patient 20 1 3 "Deepa" "General" Sample.noon) =
    Some "waiting" /\
  Patient.hospitalId (Sample.patient 20 1 3 "Deepa" "General" Sample.noon) = 1.
Proof.
  destruct (registered_patient_fields (Sample.registration 1 "Deepa")
              (Sample.world Sample.db0 Sample.anonymous [])
              (Sample.patient 20 1 3 "Deepa" "General" Sample.noon))
    as [Hs [Hh _]].
  - vm_compute. do 3 right. left. reflexivity.
  - split; [exact Hs | exact Hh].
Defined.
